(** * mt76 main.c: WCID table, key binding and interface lifecycle

    A shallow embedding of the mac80211 callbacks of [main.c] and the
    properties of the WCID allocator, of the key binding state machine and
    of the interface lifecycle that the specification states about them.

    Conventions of the embedding
    - C integers are [Z]; an [unsigned long] is a [Z] in [0, 2^BITS_PER_LONG)
      and the complement [~] is written out with its wrap-around.
    - [BITS_PER_LONG] is the kernel's word size (32 on the MIPS and ARM
      routers the driver is written for, 64 on LP64 machines); it is an
      explicit argument of every function that depends on it.
    - [main.c] includes [mt76.h] for its types.  The structures are given
      here with the fields [main.c] reads and writes.  [dev->wcid_mask] is
      indexed with [BITS_PER_LONG] and [BIT()], so its elements are
      [unsigned long]; it is a [list Z] and [ARRAY_SIZE] is its length.
      The bit number [MT76_STATE_RUNNING] is a parameter.
    - Calls that leave [main.c] (register layer, mac80211, tasklets, locks)
      are recorded, in order, as a list of [call]s; the [int] a fallible
      call returns is given by a [hw_results]. *)

From Stdlib Require Import ZArith List Bool Lia.
Import ListNotations.
Local Open Scope Z_scope.

(** ** Kernel primitives *)

Module Kernel.

(** [BIT(nr)] is [1UL << nr]. *)
Definition BIT (nr : Z) : Z := Z.shiftl 1 nr.

(** [~x] on an [unsigned long] of [bits] bits. *)
Definition not_ulong (bits x : Z) : Z := Z.land (Z.lnot x) (Z.ones bits).

(** Conversion of an [unsigned long] to the [int] parameter of [ffs]: the low
    32 bits are kept (as a bit pattern; [ffs] does not look at the sign). *)
Definition int_bits (x : Z) : Z := Z.land x (Z.ones 32).

(** [ffs_from n pos x]: among the bits [pos], [pos+1], ..., [pos+n-1] of [x],
    one plus the position of the lowest one that is set; 0 if none is. *)
Fixpoint ffs_from (n : nat) (pos x : Z) : Z :=
  match n with
  | O => 0
  | S n' => if Z.testbit x pos then pos + 1 else ffs_from n' (pos + 1) x
  end.

(** [int ffs(int x)] of the kernel (as the libc and compiler built-in of
    the same name): one plus the index of the least significant set bit of
    the 32-bit [x], and 0 when [x] is 0.  Its parameter is an [int] whatever
    the width of the argument expression; an [unsigned long] argument is
    converted first ([int_bits]). *)
Definition ffs (x : Z) : Z := ffs_from 32 0 x.

(** [test_bit(nr, &flags)], [set_bit], [clear_bit] on one flag word. *)
Definition test_bit (nr flags : Z) : bool := Z.testbit flags nr.
Definition set_bit (nr flags : Z) : Z := Z.lor flags (BIT nr).
Definition clear_bit (nr flags : Z) : Z := Z.ldiff flags (BIT nr).

End Kernel.
Import Kernel.

(** ** WCID allocation bitmap ([mt76_wcid_alloc], release in [mt76_sta_remove]) *)

Section WcidTable.

Variable BITS_PER_LONG : Z.

(** The [for] loop of [mt76_wcid_alloc], from word [i] on, over the words
    [mask] that remain.  The result is the value of [i] and of [idx] when the
    loop is left, and the words as the loop leaves them.  When no word lets
    [ffs] find a bit the loop runs to the end: [i] is [ARRAY_SIZE] and [idx]
    is the 0 the last [ffs] returned (or its initial 0). *)
Fixpoint wcid_alloc_loop (i : Z) (mask : list Z) : Z * Z * list Z :=
  match mask with
  | [] => (i, 0, [])
  | w :: rest =>
      let idx := ffs (int_bits (not_ulong BITS_PER_LONG w)) in
      if idx =? 0 then
        let '(i', idx', rest') := wcid_alloc_loop (i + 1) rest in
        (i', idx', w :: rest')
      else
        (i, idx - 1, Z.lor w (BIT (idx - 1)) :: rest)
  end.

(** [mt76_wcid_alloc]: the returned [int] and the bitmap afterwards. *)
Definition mt76_wcid_alloc (wcid_mask : list Z) : Z * list Z :=
  let '(i, idx, mask') := wcid_alloc_loop 0 wcid_mask in
  let idx := i * BITS_PER_LONG + idx in
  if idx >? 247 then (-1, mask') else (idx, mask').

(** Update of one array element; an index past the end writes nothing
    (in C it is undefined; no caller of this file produces one, see
    [wcid_release_in_range]). *)
Fixpoint update_word (n : nat) (f : Z -> Z) (l : list Z) : list Z :=
  match l, n with
  | [], _ => []
  | w :: rest, O => f w :: rest
  | w :: rest, S n' => w :: update_word n' f rest
  end.

(** The release statement of [mt76_sta_remove]:
    [dev->wcid_mask[idx / BITS_PER_LONG] &= ~BIT(idx % BITS_PER_LONG)]. *)
Definition wcid_mask_release (idx : Z) (wcid_mask : list Z) : list Z :=
  update_word (Z.to_nat (idx / BITS_PER_LONG))
    (fun w => Z.land w (not_ulong BITS_PER_LONG (BIT (idx mod BITS_PER_LONG))))
    wcid_mask.

(** Bit [k] of the bitmap: bit [k % BITS_PER_LONG] of word
    [k / BITS_PER_LONG]. *)
Definition wcid_mask_bit (wcid_mask : list Z) (k : Z) : bool :=
  Z.testbit (nth (Z.to_nat (k / BITS_PER_LONG)) wcid_mask 0)
            (k mod BITS_PER_LONG).

End WcidTable.

(** ** Driver data ([mt76.h], as far as [main.c] reads and writes it) *)

(** Modelled from the spec: [struct mt76_wcid] is declared in [mt76.h]; the
    WCID slot of the specification has the hardware connection-table index
    [idx] and the key index [hw_key_idx] bound to the slot, an integer that
    is -1 when no key is bound.  These are the two fields [main.c] uses. *)
Record mt76_wcid := { wcid_idx : Z; hw_key_idx : Z }.

Definition set_hw_key_idx (w : mt76_wcid) (k : Z) : mt76_wcid :=
  {| wcid_idx := wcid_idx w; hw_key_idx := k |}.

(** Modelled from the spec: [struct mt76_vif] is declared in [mt76.h]; the
    virtual interface record has the bss index [idx] and an embedded group
    slot. *)
Record mt76_vif := { vif_idx : Z; group_wcid : mt76_wcid }.

(** Modelled from the spec: [struct mt76_sta] is declared in [mt76.h]; a
    station record embeds its WCID slot. *)
Record mt76_sta := { wcid : mt76_wcid }.

(** [struct ieee80211_key_conf] of mac80211: [keyidx] is set by mac80211,
    [hw_key_idx] is the driver's answer. *)
Record ieee80211_key_conf := { keyidx : Z; key_hw_key_idx : Z }.

(** [struct ieee80211_bss_conf], the fields [mt76_bss_info_changed] reads. *)
Record ieee80211_bss_conf := {
  bssid : list Z;
  beacon_int : Z;
  enable_beacon : bool;
  use_short_slot : bool
}.

(** Modelled from the spec: [struct mt76_dev] is declared in [mt76.h].  Of
    the device, [main.c] itself reads [macaddr] and reads and writes the
    flag word [state] and the allocation bitmap [wcid_mask], one bit per
    index packed into words. *)
Record mt76_dev := {
  macaddr : list Z;
  state : Z;
  wcid_mask : list Z
}.

Definition set_state (d : mt76_dev) (s : Z) : mt76_dev :=
  {| macaddr := macaddr d; state := s; wcid_mask := wcid_mask d |}.

Definition set_wcid_mask (d : mt76_dev) (m : list Z) : mt76_dev :=
  {| macaddr := macaddr d; state := state d; wcid_mask := m |}.

Inductive set_key_cmd := SET_KEY | DISABLE_KEY.

Inductive nl80211_iftype :=
| NL80211_IFTYPE_UNSPECIFIED | NL80211_IFTYPE_ADHOC | NL80211_IFTYPE_STATION
| NL80211_IFTYPE_AP | NL80211_IFTYPE_AP_VLAN | NL80211_IFTYPE_WDS
| NL80211_IFTYPE_MONITOR | NL80211_IFTYPE_MESH_POINT
| NL80211_IFTYPE_P2P_CLIENT | NL80211_IFTYPE_P2P_GO
| NL80211_IFTYPE_P2P_DEVICE.

Definition is_station (t : nl80211_iftype) : bool :=
  match t with NL80211_IFTYPE_STATION => true | _ => false end.

(** [struct ieee80211_vif], the fields [mt76_add_interface] reads. *)
Record ieee80211_vif := { addr : list Z; type : nl80211_iftype }.

(** [enum ieee80211_bss_change] of mac80211. *)
Definition BSS_CHANGED_ERP_SLOT : Z := BIT 3.
Definition BSS_CHANGED_BEACON_INT : Z := BIT 6.
Definition BSS_CHANGED_BSSID : Z := BIT 7.
Definition BSS_CHANGED_BEACON_ENABLED : Z := BIT 9.

Definition ENOSPC : Z := 28.
Definition IEEE80211_NUM_TIDS : nat := 16.

(** Registers and fields named in [main.c]. *)
Inductive reg := MT_BEACON_TIME_CFG | MT_BKOFF_SLOT_CFG | MT_WCID_DROP (idx : Z).
Inductive field :=
| MT_BEACON_TIME_CFG_INTVAL | MT_BKOFF_SLOT_CFG_SLOTTIME
| MT_WCID_DROP_MASK (idx : Z).

(** Transmit queues handed to [mt76_txq_init] / [mt76_txq_remove]. *)
Inductive txq := vif_txq | sta_txq (tid : nat).

(** A frame buffer is identified by a number. *)
Definition sk_buff := Z.

(** ** Calls out of [main.c] *)

Inductive call :=
| mutex_lock
| mutex_unlock
| mt76_mac_start
| mt76_phy_start
| ieee80211_queue_delayed_work
| napi_enable
| napi_disable
| mt76_stop_hardware
| mt76_txq_init (q : txq)
| mt76_txq_remove (q : txq)
| mt76_mac_set_bssid (idx : Z) (b : list Z)
| mt76_rmw_field (r : reg) (f : field) (val : Z)
| mt76_set (r : reg) (f : field)
| mt76_clear (r : reg) (f : field)
| tasklet_disable
| tasklet_enable
| mt76_mac_set_beacon_enable (idx : Z) (enable : bool)
| mt76_mac_wcid_setup (idx vif_idx : Z) (mac : option (list Z))
| rcu_assign_wcid (idx : Z) (slot : option mt76_wcid)
| mt76_mac_wcid_set_key (idx : Z) (key : option ieee80211_key_conf)
| mt76_mac_shared_key_setup (vif_idx key_idx : Z)
    (key : option ieee80211_key_conf)
| dev_kfree_skb (skb : sk_buff)
| ieee80211_rx (skb : sk_buff).

(** What the called layers answer: the [int] each fallible call returns. *)
Record hw_results := {
  mac_start_ret : Z;
  phy_start_ret : Z;
  wcid_set_key_ret : Z -> option ieee80211_key_conf -> Z;
  shared_key_setup_ret : Z -> Z -> option ieee80211_key_conf -> Z
}.

(** ** A monad for the callbacks: device state and the calls made so far *)

Module Drv.

Definition M (A : Type) : Type := mt76_dev -> A * mt76_dev * list call.

Definition ret {A} (a : A) : M A := fun d => (a, d, []).

Definition bind {A B} (m : M A) (k : A -> M B) : M B :=
  fun d =>
    let '(a, d1, t1) := m d in
    let '(b, d2, t2) := k a d1 in
    (b, d2, t1 ++ t2).

(** A call whose result is not used. *)
Definition emit (c : call) : M unit := fun d => (tt, d, [c]).

(** A call that answers [r]. *)
Definition ask (c : call) (r : Z) : M Z := fun d => (r, d, [c]).

Definition get : M mt76_dev := fun d => (d, d, []).
Definition put (d' : mt76_dev) : M unit := fun _ => (tt, d', []).

(** A [for] loop over the elements of [l]. *)
Fixpoint for_each {A} (l : list A) (body : A -> M unit) : M unit :=
  match l with
  | [] => ret tt
  | a :: l' => bind (body a) (fun _ => for_each l' body)
  end.

Definition result {A} (r : A * mt76_dev * list call) : A := fst (fst r).
Definition dev_after {A} (r : A * mt76_dev * list call) : mt76_dev :=
  snd (fst r).
Definition calls {A} (r : A * mt76_dev * list call) : list call := snd r.

End Drv.
Import Drv.

Notation "x <- m ;; k" := (bind m (fun x => k))
  (at level 61, m at next level, right associativity).
Notation "m ;;; k" := (bind m (fun _ => k))
  (at level 61, right associativity).

(** ** The callbacks of [main.c] *)

Section Callbacks.

(** Word size of the kernel the driver is built for. *)
Variable BITS_PER_LONG : Z.

(** Bit number of the RUNNING flag in [dev->state] (an enumerator of
    [mt76.h]). *)
Variable MT76_STATE_RUNNING : Z.

(** Answers of the layers below. *)
Variable hw : hw_results.

(** [mt76_start] *)
Definition mt76_start : M Z :=
  emit mutex_lock ;;;
  r <- (r1 <- ask mt76_mac_start (mac_start_ret hw) ;;
        if negb (r1 =? 0) then ret r1 else
        r2 <- ask mt76_phy_start (phy_start_ret hw) ;;
        if negb (r2 =? 0) then ret r2 else
        emit ieee80211_queue_delayed_work ;;;
        emit napi_enable ;;;
        d <- get ;;
        put (set_state d (set_bit MT76_STATE_RUNNING (state d))) ;;;
        ret r2) ;;
  emit mutex_unlock ;;;
  ret r.

(** [mt76_stop] *)
Definition mt76_stop : M unit :=
  emit mutex_lock ;;;
  emit napi_disable ;;;
  d <- get ;;
  put (set_state d (clear_bit MT76_STATE_RUNNING (state d))) ;;;
  emit mt76_stop_hardware ;;;
  emit mutex_unlock.

(** [mt76_add_interface]: the [int] returned and [mvif] as it is filled in.
    [idx] is an [unsigned int]; the address bytes are [u8]. *)
Definition mt76_add_interface (vif : ieee80211_vif) : M (Z * mt76_vif) :=
  d <- get ;;
  let idx := 0 in
  let ret_ := 0 in
  let idx :=
    if negb (Z.land (nth 0 (addr vif) 0) (BIT 1) =? 0)
    then 1 + Z.land (Z.shiftr (Z.lxor (nth 0 (macaddr d) 0)
                                      (nth 0 (addr vif) 0)) 2) 7
    else idx in
  let idx := if is_station (type vif) then idx + 8 else idx in
  let mvif :=
    {| vif_idx := idx;
       group_wcid := {| wcid_idx := 254 - idx; hw_key_idx := -1 |} |} in
  emit (mt76_txq_init vif_txq) ;;;
  ret (ret_, mvif).

(** [mt76_remove_interface] *)
Definition mt76_remove_interface : M unit :=
  emit (mt76_txq_remove vif_txq).

(** [mt76_bss_info_changed] *)
Definition mt76_bss_info_changed (mvif : mt76_vif)
    (info : ieee80211_bss_conf) (changed : Z) : M unit :=
  emit mutex_lock ;;;
  (if negb (Z.land changed BSS_CHANGED_BSSID =? 0)
   then emit (mt76_mac_set_bssid (vif_idx mvif) (bssid info))
   else ret tt) ;;;
  (if negb (Z.land changed BSS_CHANGED_BEACON_INT =? 0)
   then emit (mt76_rmw_field MT_BEACON_TIME_CFG MT_BEACON_TIME_CFG_INTVAL
                (Z.shiftl (beacon_int info) 4))
   else ret tt) ;;;
  (if negb (Z.land changed BSS_CHANGED_BEACON_ENABLED =? 0)
   then emit tasklet_disable ;;;
        emit (mt76_mac_set_beacon_enable (vif_idx mvif) (enable_beacon info)) ;;;
        emit tasklet_enable
   else ret tt) ;;;
  (if negb (Z.land changed BSS_CHANGED_ERP_SLOT =? 0)
   then let slottime := if use_short_slot info then 9 else 20 in
        emit (mt76_rmw_field MT_BKOFF_SLOT_CFG MT_BKOFF_SLOT_CFG_SLOTTIME
                slottime)
   else ret tt) ;;;
  emit mutex_unlock.

(** [mt76_wcid_alloc] on the device. *)
Definition mt76_wcid_alloc_dev : M Z :=
  d <- get ;;
  let '(idx, mask') := mt76_wcid_alloc BITS_PER_LONG (wcid_mask d) in
  put (set_wcid_mask d mask') ;;;
  ret idx.

(** [mt76_sta_add]: the [int] returned and [msta] afterwards. *)
Definition mt76_sta_add (mvif : mt76_vif) (sta_addr : list Z)
    (msta : mt76_sta) : M (Z * mt76_sta) :=
  emit mutex_lock ;;;
  r <- (idx <- mt76_wcid_alloc_dev ;;
        if idx <? 0 then ret (- ENOSPC, msta) else
        let msta' := {| wcid := {| wcid_idx := idx; hw_key_idx := -1 |} |} in
        emit (mt76_mac_wcid_setup idx (vif_idx mvif) (Some sta_addr)) ;;;
        emit (mt76_clear (MT_WCID_DROP idx) (MT_WCID_DROP_MASK idx)) ;;;
        for_each (seq 0 IEEE80211_NUM_TIDS)
                 (fun i => emit (mt76_txq_init (sta_txq i))) ;;;
        emit (rcu_assign_wcid idx (Some (wcid msta'))) ;;;
        ret (0, msta')) ;;
  emit mutex_unlock ;;;
  ret r.

(** [mt76_sta_remove] *)
Definition mt76_sta_remove (msta : mt76_sta) : M Z :=
  let idx := wcid_idx (wcid msta) in
  emit mutex_lock ;;;
  emit (rcu_assign_wcid idx None) ;;;
  for_each (seq 0 IEEE80211_NUM_TIDS)
           (fun i => emit (mt76_txq_remove (sta_txq i))) ;;;
  emit (mt76_set (MT_WCID_DROP idx) (MT_WCID_DROP_MASK idx)) ;;;
  d <- get ;;
  put (set_wcid_mask d (wcid_mask_release BITS_PER_LONG idx (wcid_mask d))) ;;;
  emit (mt76_mac_wcid_setup idx 0 None) ;;;
  emit mutex_unlock ;;;
  ret 0.

(** What [mt76_set_key] leaves behind: the [int] returned, [mvif], [msta] and
    [*key] afterwards. *)
Record set_key_result := {
  sk_ret : Z;
  sk_vif : mt76_vif;
  sk_sta : option mt76_sta;
  sk_key : ieee80211_key_conf
}.

(** The slot [wcid] points to: [msta ? &msta->wcid : &mvif->group_wcid]. *)
Definition key_slot (mvif : mt76_vif) (msta : option mt76_sta) : mt76_wcid :=
  match msta with
  | Some s => wcid s
  | None => group_wcid mvif
  end.

(** A write through [wcid] lands in the record it points into. *)
Definition store_key_slot (mvif : mt76_vif) (msta : option mt76_sta)
    (w : mt76_wcid) : mt76_vif * option mt76_sta :=
  match msta with
  | Some _ => (mvif, Some {| wcid := w |})
  | None => ({| vif_idx := vif_idx mvif; group_wcid := w |}, None)
  end.

(** [mt76_set_key].  [keyp] is the local pointer [key] after the first
    [if]: the key for [SET_KEY], [NULL] otherwise. *)
Definition mt76_set_key (cmd : set_key_cmd) (mvif : mt76_vif)
    (msta : option mt76_sta) (key : ieee80211_key_conf) : M set_key_result :=
  let wcid0 := key_slot mvif msta in
  let idx := keyidx key in
  let '(wcid1, key1, keyp) :=
    match cmd with
    | SET_KEY =>
        let key1 := {| keyidx := keyidx key;
                       key_hw_key_idx := wcid_idx wcid0 |} in
        (set_hw_key_idx wcid0 idx, key1, Some key1)
    | _ =>
        ((if idx =? hw_key_idx wcid0 then set_hw_key_idx wcid0 (-1)
          else wcid0),
         key, None)
    end in
  let '(mvif1, msta1) := store_key_slot mvif msta wcid1 in
  let done r :=
    ret {| sk_ret := r; sk_vif := mvif1; sk_sta := msta1; sk_key := key1 |} in
  match msta1 with
  | None =>
      let shared :=
        r' <- ask (mt76_mac_shared_key_setup (vif_idx mvif1) idx keyp)
                  (shared_key_setup_ret hw (vif_idx mvif1) idx keyp) ;;
        done r' in
      if (match keyp with Some _ => true | None => false end)
         || (hw_key_idx wcid1 =? idx)
      then
        r <- ask (mt76_mac_wcid_set_key (wcid_idx wcid1) keyp)
                 (wcid_set_key_ret hw (wcid_idx wcid1) keyp) ;;
        if negb (r =? 0) then done r else shared
      else shared
  | Some s =>
      r <- ask (mt76_mac_wcid_set_key (wcid_idx (wcid s)) keyp)
               (wcid_set_key_ret hw (wcid_idx (wcid s)) keyp) ;;
      done r
  end.

(** [mt76_rx] *)
Definition mt76_rx (skb : sk_buff) : M unit :=
  d <- get ;;
  if negb (test_bit MT76_STATE_RUNNING (state d))
  then emit (dev_kfree_skb skb)
  else emit (ieee80211_rx skb).

End Callbacks.

(** ** The WCID table as its callers use it *)

(** The two operations of the table. *)
Inductive wcid_op := allocate | release (idx : Z).

(** The bitmap together with the caller's bookkeeping: the indices that
    [allocate] returned and that were not released since. *)
Record wcid_table := { tbl_mask : list Z; tbl_held : list Z }.

Definition wcid_table_init (nwords : nat) : wcid_table :=
  {| tbl_mask := repeat 0 nwords; tbl_held := [] |}.

(** One operation.  [allocate] is [mt76_wcid_alloc], [release idx] is the
    release statement of [mt76_sta_remove]; a release of an index that is not
    held is not a step (the lifecycle manager releases once per allocate). *)
Definition wcid_step (BITS_PER_LONG : Z) (t : wcid_table) (op : wcid_op)
    : option wcid_table :=
  match op with
  | allocate =>
      let '(idx, mask') := mt76_wcid_alloc BITS_PER_LONG (tbl_mask t) in
      Some {| tbl_mask := mask';
              tbl_held := if idx <? 0 then tbl_held t
                          else idx :: tbl_held t |}
  | release idx =>
      if existsb (Z.eqb idx) (tbl_held t)
      then Some {| tbl_mask :=
                     wcid_mask_release BITS_PER_LONG idx (tbl_mask t);
                   tbl_held := remove Z.eq_dec idx (tbl_held t) |}
      else None
  end.

Fixpoint wcid_run (BITS_PER_LONG : Z) (t : wcid_table) (ops : list wcid_op)
    : option wcid_table :=
  match ops with
  | [] => Some t
  | op :: ops' =>
      match wcid_step BITS_PER_LONG t op with
      | Some t' => wcid_run BITS_PER_LONG t' ops'
      | None => None
      end
  end.

(** The specification's reading of the table: the lowest index whose bit is
    clear, searched from [k] over [n] indices. *)
Fixpoint first_clear_from (BITS_PER_LONG : Z) (mask : list Z) (n : nat)
    (k : Z) : option Z :=
  match n with
  | O => None
  | S n' =>
      if wcid_mask_bit BITS_PER_LONG mask k
      then first_clear_from BITS_PER_LONG mask n' (k + 1)
      else Some k
  end.

Definition lowest_free_index (BITS_PER_LONG : Z) (mask : list Z) : option Z :=
  first_clear_from BITS_PER_LONG mask
    (Z.to_nat (BITS_PER_LONG * Z.of_nat (length mask))) 0.

(** What holds of the table after every sequence of operations: the bitmap
    covers the indices [0 .. 247], no index is held twice, the held indices
    lie in [0, 247], and below 248 the bits set are the indices held. *)
Definition wcid_table_ok (BITS_PER_LONG : Z) (t : wcid_table) : Prop :=
  248 <= BITS_PER_LONG * Z.of_nat (length (tbl_mask t)) /\
  NoDup (tbl_held t) /\
  (forall k, In k (tbl_held t) -> 0 <= k <= 247) /\
  (forall k, 0 <= k <= 247 ->
     (In k (tbl_held t) <->
      wcid_mask_bit BITS_PER_LONG (tbl_mask t) k = true)).

(** ** Reading a list of calls *)

Definition is_shared_key_setup (c : call) : bool :=
  match c with mt76_mac_shared_key_setup _ _ _ => true | _ => false end.

Definition is_wcid_set_key (c : call) : bool :=
  match c with mt76_mac_wcid_set_key _ _ => true | _ => false end.

Definition is_set_bssid (c : call) : bool :=
  match c with mt76_mac_set_bssid _ _ => true | _ => false end.

Definition is_set_beacon_enable (c : call) : bool :=
  match c with mt76_mac_set_beacon_enable _ _ => true | _ => false end.

Definition is_ieee80211_rx (c : call) : bool :=
  match c with ieee80211_rx _ => true | _ => false end.

(** [tasklet_disable] nests: the tasklet runs when the count is 0.
    [paused_during p n t]: every call of [t] that satisfies [p] is made
    while the tasklet is disabled, [n] being the count before [t]. *)
Fixpoint paused_during (p : call -> bool) (n : nat) (t : list call) : bool :=
  match t with
  | [] => true
  | tasklet_disable :: t' => paused_during p (S n) t'
  | tasklet_enable :: t' => paused_during p (Nat.pred n) t'
  | c :: t' => (if p c then negb (Nat.eqb n 0) else true)
               && paused_during p n t'
  end.

(** The disable count after [t]. *)
Fixpoint disable_count (n : nat) (t : list call) : nat :=
  match t with
  | [] => n
  | tasklet_disable :: t' => disable_count (S n) t'
  | tasklet_enable :: t' => disable_count (Nat.pred n) t'
  | _ :: t' => disable_count n t'
  end.

(** ** Statements of the specification that the code does not satisfy

    Each is written as the specification words it; the properties part
    shows an input at which it fails and proves what holds instead. *)

(** Group keys: the shared-key table is written exactly when a key is being
    installed or the active key index of the group slot matches the key
    being removed, and is not touched otherwise. *)
Definition shared_table_written_iff_install_or_match : Prop :=
  forall (hw : hw_results) (cmd : set_key_cmd) (mvif : mt76_vif)
         (key : ieee80211_key_conf) (d : mt76_dev),
    existsb is_shared_key_setup
      (calls (mt76_set_key hw cmd mvif None key d))
    = (match cmd with SET_KEY => true | DISABLE_KEY => false end)
      || (hw_key_idx (group_wcid mvif) =? keyidx key).

(** Key binding: when the hardware-apply step fails the error is returned,
    the shared-key table is not touched and the slot's [hw_key_idx] holds
    its value from before the operation. *)
Definition failed_apply_leaves_hw_key_idx : Prop :=
  forall (hw : hw_results) (cmd : set_key_cmd) (mvif : mt76_vif)
         (msta : option mt76_sta) (key : ieee80211_key_conf) (d : mt76_dev)
         (i : Z) (k : option ieee80211_key_conf),
    let r := mt76_set_key hw cmd mvif msta key d in
    In (mt76_mac_wcid_set_key i k) (calls r) ->
    wcid_set_key_ret hw i k <> 0 ->
    sk_ret (result r) = wcid_set_key_ret hw i k /\
    existsb is_shared_key_setup (calls r) = false /\
    hw_key_idx (key_slot (sk_vif (result r)) (sk_sta (result r)))
    = hw_key_idx (key_slot mvif msta).

(** Interfaces: the group slot index is 254 minus the interface index, is
    never an index the allocator returns, and is not the group slot index of
    any other interface. *)
Definition group_wcid_idx_never_collides : Prop :=
  forall (d : mt76_dev) (vif : ieee80211_vif),
    let mvif := snd (result (mt76_add_interface vif d)) in
    wcid_idx (group_wcid mvif) = 254 - vif_idx mvif /\
    (forall bits mask,
       fst (mt76_wcid_alloc bits mask) <> wcid_idx (group_wcid mvif)) /\
    (forall vif', vif' <> vif ->
       wcid_idx (group_wcid (snd (result (mt76_add_interface vif' d))))
       <> wcid_idx (group_wcid mvif)).

(** Beacon configuration: every update of the BSSID or of beacon enable is
    made while the pre-TBTT tasklet is paused. *)
Definition bssid_and_beacon_updates_paused : Prop :=
  forall (mvif : mt76_vif) (info : ieee80211_bss_conf) (changed : Z)
         (d : mt76_dev),
    paused_during (fun c => is_set_bssid c || is_set_beacon_enable c) 0
      (calls (mt76_bss_info_changed mvif info changed d)) = true.

(** The allocator: when the lowest free index is [k <= 247], [k] is
    returned. *)
Definition alloc_returns_lowest_free (BITS_PER_LONG : Z) : Prop :=
  forall mask k,
    lowest_free_index BITS_PER_LONG mask = Some k ->
    k <= 247 ->
    fst (mt76_wcid_alloc BITS_PER_LONG mask) = k.

(** ** The interface index, as the specification writes it *)

(** The bss index [mt76_add_interface] derives, written with arithmetic:
    the address offset is [((macaddr[0] ^ addr[0]) >> 2) & 7]. *)
Definition derived_vif_idx (mac0 addr0 : Z) (t : nl80211_iftype) : Z :=
  (if Z.testbit addr0 1 then 1 + (Z.lxor mac0 addr0 / 4) mod 8 else 0)
  + (if is_station t then 8 else 0).

(** ** Concrete inputs of the examples *)

Definition EBUSY : Z := 16.

(** Lower layers that accept every request. *)
Definition hw_ok : hw_results :=
  {| mac_start_ret := 0;
     phy_start_ret := 0;
     wcid_set_key_ret := fun _ _ => 0;
     shared_key_setup_ret := fun _ _ _ => 0 |}.

(** Lower layers whose per-WCID key operation answers [-EBUSY]. *)
Definition hw_key_busy : hw_results :=
  {| mac_start_ret := 0;
     phy_start_ret := 0;
     wcid_set_key_ret := fun _ _ => - EBUSY;
     shared_key_setup_ret := fun _ _ _ => 0 |}.

(** A device with address 00:0c:43:26:60:00, stopped, with an empty bitmap of
    [nwords] words. *)
Definition dev0 (nwords : nat) : mt76_dev :=
  {| macaddr := [0; 12; 67; 38; 96; 0];
     state := 0;
     wcid_mask := repeat 0 nwords |}.

(** An interface record with bss index [i] and a group slot holding key
    index [k]. *)
Definition vif_with_key (i k : Z) : mt76_vif :=
  {| vif_idx := i;
     group_wcid := {| wcid_idx := 254 - i; hw_key_idx := k |} |}.

(** A station record with slot [i] holding key index [k]. *)
Definition sta_with_key (i k : Z) : mt76_sta :=
  {| wcid := {| wcid_idx := i; hw_key_idx := k |} |}.

(** The key configuration mac80211 hands over for key index [k]. *)
Definition key_conf (k : Z) : ieee80211_key_conf :=
  {| keyidx := k; key_hw_key_idx := 0 |}.

(** A 32-bit bitmap of 8 words with the indices [0 .. n-1] allocated,
    for [224 <= n <= 256]. *)
Definition mask32_first (n : Z) : list Z :=
  repeat (Z.ones 32) 7 ++ [Z.ones (n - 224)].

(** ** Software scan ([mt76_sw_scan], [mt76_sw_scan_complete]) *)

Section Scan.

(** Bit number of the SCANNING flag in [dev->state] (an enumerator of
    [mt76.h]). *)
Variable MT76_SCANNING : Z.

(** [mt76_sw_scan] *)
Definition mt76_sw_scan : M unit :=
  emit tasklet_disable ;;;
  d <- get ;;
  put (set_state d (set_bit MT76_SCANNING (state d))).

(** [mt76_sw_scan_complete] *)
Definition mt76_sw_scan_complete : M unit :=
  d <- get ;;
  put (set_state d (clear_bit MT76_SCANNING (state d))) ;;;
  emit tasklet_enable.

End Scan.

(** Two callbacks one after the other: the second starts on the device the
    first leaves, and the calls are those of the first, then those of the
    second. *)
Definition then_ {A B} (m : M A) (k : M B) : M B := bind m (fun _ => k).

(** [stays_paused n t]: with a disable count of [n] before [t], the
    pre-TBTT tasklet is disabled before and after every call of [t]. *)
Fixpoint stays_paused (n : nat) (t : list call) : bool :=
  negb (Nat.eqb n 0) &&
  match t with
  | [] => true
  | tasklet_disable :: t' => stays_paused (S n) t'
  | tasklet_enable :: t' => stays_paused (Nat.pred n) t'
  | _ :: t' => stays_paused n t'
  end.

(** ** The remaining callbacks: configuration, filter, queue parameters,
    aggregation *)

Module More.

(** The calls and the station record of the first part, under names that
    stay visible below. *)
Definition core_call : Type := call.
Definition core_sta : Type := mt76_sta.

(** Memory-mapped registers these callbacks name.  [MT_WCID_ADDR_4 idx] is
    the address [MT_WCID_ADDR(idx) + 4]. *)
Inductive mmio :=
| MT_RX_FILTR_CFG
| MT_EDCA_CFG_AC (queue : Z)
| MT_WMM_TXOP (queue : Z)
| MT_WMM_AIFSN
| MT_WMM_CWMIN
| MT_WMM_CWMAX
| MT_WCID_ADDR_4 (idx : Z).

(** Calls out of these callbacks; [core] is a call of the first part. *)
Inductive call :=
| core (c : core_call)
| mt76_phy_set_txpower
| ieee80211_stop_queues
| ieee80211_wake_queues
| mt76_set_channel
| mt76_wr (r : mmio) (val : Z)
| mt76_rr (r : mmio)
| mt76_set (r : mmio) (bits : Z)
| mt76_clear (r : mmio) (bits : Z)
| ieee80211_send_bar (tid ssn : Z)
| ieee80211_start_tx_ba_cb_irqsafe (tid : Z)
| ieee80211_stop_tx_ba_cb_irqsafe (tid : Z).

(** [struct mt76_dev] is declared in [mt76.h]; it is given here with the
    fields these callbacks read and write beside the flag word [state]: the
    configured and the current transmit power, which hold the [int]
    assigned, and the receive filter word, which is collected in a [u32]
    and handed to [mt76_wr] as a [u32]. *)
Record mt76_dev := {
  state : Z;
  txpower_conf : Z;
  txpower_cur : Z;
  rxfilter : Z
}.

(** [enum ieee80211_conf_changed] and [enum ieee80211_filter_flags] of
    mac80211. *)
Definition IEEE80211_CONF_CHANGE_POWER : Z := BIT 5.
Definition IEEE80211_CONF_CHANGE_CHANNEL : Z := BIT 6.
Definition FIF_PROMISC_IN_BSS : Z := BIT 0.
Definition FIF_FCSFAIL : Z := BIT 2.
Definition FIF_PLCPFAIL : Z := BIT 3.
Definition FIF_CONTROL : Z := BIT 5.
Definition FIF_PSPOLL : Z := BIT 7.

(** Assignment to a [u32]. *)
Definition u32 (x : Z) : Z := Z.land x (Z.ones 32).

(** [mt76_config]: the [int] returned, the device as [mt76_config] itself
    leaves it and the calls made.  [power_level] is [hw->conf.power_level],
    [set_channel_ret] the answer of [mt76_set_channel]. *)
Definition mt76_config (MT76_STATE_RUNNING : Z) (set_channel_ret : Z)
    (power_level changed : Z) (dev : mt76_dev)
    : Z * mt76_dev * list call :=
  let ret := 0 in
  let '(dev1, t1) :=
    if negb (Z.land changed IEEE80211_CONF_CHANGE_POWER =? 0) then
      let dev1 := {| state := state dev; txpower_conf := power_level;
                     txpower_cur := txpower_cur dev;
                     rxfilter := rxfilter dev |} in
      if test_bit MT76_STATE_RUNNING (state dev1)
      then (dev1, [mt76_phy_set_txpower])
      else (dev1, [])
    else (dev, []) in
  let '(ret, t2) :=
    if negb (Z.land changed IEEE80211_CONF_CHANGE_CHANNEL =? 0) then
      (set_channel_ret,
       [ieee80211_stop_queues; mt76_set_channel; ieee80211_wake_queues])
    else (ret, []) in
  (ret, dev1, [core mutex_lock] ++ t1 ++ t2 ++ [core mutex_unlock]).

(** The masks of the register [MT_RX_FILTR_CFG] (constants of the register
    header) that [mt76_configure_filter] names. *)
Record rx_filtr_cfg := {
  MT_RX_FILTR_CFG_OTHER_BSS : Z;
  MT_RX_FILTR_CFG_PROMISC : Z;
  MT_RX_FILTR_CFG_CRC_ERR : Z;
  MT_RX_FILTR_CFG_PHY_ERR : Z;
  MT_RX_FILTR_CFG_ACK : Z;
  MT_RX_FILTR_CFG_CTS : Z;
  MT_RX_FILTR_CFG_CFEND : Z;
  MT_RX_FILTR_CFG_CFACK : Z;
  MT_RX_FILTR_CFG_BA : Z;
  MT_RX_FILTR_CFG_CTRL_RSV : Z;
  MT_RX_FILTR_CFG_PSPOLL : Z
}.

(** The mask handed to [MT76_FILTER(CONTROL, ...)]. *)
Definition control_mask (m : rx_filtr_cfg) : Z :=
  Z.lor (MT_RX_FILTR_CFG_ACK m)
    (Z.lor (MT_RX_FILTR_CFG_CTS m)
       (Z.lor (MT_RX_FILTR_CFG_CFEND m)
          (Z.lor (MT_RX_FILTR_CFG_CFACK m)
             (Z.lor (MT_RX_FILTR_CFG_BA m) (MT_RX_FILTR_CFG_CTRL_RSV m))))).

(** The macro [MT76_FILTER(_flag, _hw)] on the locals [flags] and
    [dev->rxfilter]; [fif] is [FIF_##_flag]. *)
Definition MT76_FILTER (total_flags fif hw : Z) (st : Z * Z) : Z * Z :=
  let '(flags, rxfilter) := st in
  let flags := Z.lor flags (Z.land total_flags fif) in
  let rxfilter := u32 (Z.land rxfilter (Z.lnot hw)) in
  let rxfilter :=
    u32 (Z.lor rxfilter ((if Z.land flags fif =? 0 then 1 else 0) * hw)) in
  (flags, rxfilter).

(** [mt76_configure_filter]: [*total_flags] on return, the device afterwards
    and the calls made. *)
Definition mt76_configure_filter (m : rx_filtr_cfg) (total_flags : Z)
    (dev : mt76_dev) : Z * mt76_dev * list call :=
  let flags := 0 in
  let rxfilter :=
    u32 (Z.land (rxfilter dev) (Z.lnot (MT_RX_FILTR_CFG_OTHER_BSS m))) in
  let st := (flags, rxfilter) in
  let st := MT76_FILTER total_flags FIF_PROMISC_IN_BSS
              (MT_RX_FILTR_CFG_PROMISC m) st in
  let st := MT76_FILTER total_flags FIF_FCSFAIL
              (MT_RX_FILTR_CFG_CRC_ERR m) st in
  let st := MT76_FILTER total_flags FIF_PLCPFAIL
              (MT_RX_FILTR_CFG_PHY_ERR m) st in
  let st := MT76_FILTER total_flags FIF_CONTROL (control_mask m) st in
  let st := MT76_FILTER total_flags FIF_PSPOLL
              (MT_RX_FILTR_CFG_PSPOLL m) st in
  let '(flags, rxfilter) := st in
  (flags,
   {| state := state dev; txpower_conf := txpower_conf dev;
      txpower_cur := txpower_cur dev; rxfilter := rxfilter |},
   [core mutex_lock; mt76_wr MT_RX_FILTR_CFG rxfilter; core mutex_unlock]).

(** [mt76_get_txpower]: the [int] returned and [*dbm]. *)
Definition mt76_get_txpower (dev : mt76_dev) : Z * Z := (0, txpower_cur dev).

(** [enum ieee80211_ampdu_mlme_action] of mac80211. *)
Inductive ieee80211_ampdu_mlme_action :=
| IEEE80211_AMPDU_RX_START
| IEEE80211_AMPDU_RX_STOP
| IEEE80211_AMPDU_TX_START
| IEEE80211_AMPDU_TX_STOP_CONT
| IEEE80211_AMPDU_TX_STOP_FLUSH
| IEEE80211_AMPDU_TX_STOP_FLUSH_CONT
| IEEE80211_AMPDU_TX_OPERATIONAL.

(** [struct mt76_sta] is declared in [mt76.h]; beside its WCID slot a
    station record keeps one stashed sequence number per traffic
    identifier, [agg_ssn[tid]]. *)
Record mt76_sta := { sta : core_sta; agg_ssn : list Z }.

(** Conversion to the [u16] parameter [ssn] of [ieee80211_send_bar]. *)
Definition u16 (x : Z) : Z := Z.land x (Z.ones 16).

(** [mt76_ampdu_action]: the [int] returned, [msta] afterwards and the calls
    made.  [ssn] is [*ssn], which only [IEEE80211_AMPDU_TX_START] reads; the
    store into [agg_ssn[tid]] is kept at full width and cut to 16 bits
    where it is handed to [ieee80211_send_bar]. *)
Definition mt76_ampdu_action (action : ieee80211_ampdu_mlme_action)
    (msta : mt76_sta) (tid ssn : Z) : Z * mt76_sta * list call :=
  let idx := wcid_idx (wcid (sta msta)) in
  match action with
  | IEEE80211_AMPDU_RX_START =>
      (0, msta, [mt76_set (MT_WCID_ADDR_4 idx) (BIT (16 + tid))])
  | IEEE80211_AMPDU_RX_STOP =>
      (0, msta, [mt76_clear (MT_WCID_ADDR_4 idx) (BIT (16 + tid))])
  | IEEE80211_AMPDU_TX_OPERATIONAL =>
      (0, msta,
       [ieee80211_send_bar tid (u16 (nth (Z.to_nat tid) (agg_ssn msta) 0))])
  | IEEE80211_AMPDU_TX_STOP_FLUSH
  | IEEE80211_AMPDU_TX_STOP_FLUSH_CONT =>
      (0, msta, [])
  | IEEE80211_AMPDU_TX_START =>
      (0,
       {| sta := sta msta;
          agg_ssn := update_word (Z.to_nat tid) (fun _ => Z.shiftl ssn 4)
                       (agg_ssn msta) |},
       [ieee80211_start_tx_ba_cb_irqsafe tid])
  | IEEE80211_AMPDU_TX_STOP_CONT =>
      (0, msta, [ieee80211_stop_tx_ba_cb_irqsafe tid])
  end.

(** A sequence of aggregation events for one station: the calls made, in
    order, and the station record at the end. *)
Fixpoint ampdu_run (msta : mt76_sta)
    (evs : list (ieee80211_ampdu_mlme_action * Z * Z))
    : mt76_sta * list call :=
  match evs with
  | [] => (msta, [])
  | (action, tid, ssn) :: evs' =>
      let '(_, msta1, t1) := mt76_ampdu_action action msta tid ssn in
      let '(msta2, t2) := ampdu_run msta1 evs' in
      (msta2, t1 ++ t2)
  end.

(** [int fls(unsigned int x)] of the kernel: one plus the index of the most
    significant set bit, 0 for 0. *)
Definition fls (x : Z) : Z := if x =? 0 then 0 else Z.log2 x + 1.

(** [struct ieee80211_tx_queue_params], the fields [mt76_conf_tx] reads
    ([txop], [cw_min], [cw_max] are [u16], [aifs] is a [u8]). *)
Record ieee80211_tx_queue_params := {
  txop : Z;
  cw_min : Z;
  cw_max : Z;
  aifs : Z
}.

(** The macros of the register header that [mt76_conf_tx] uses: the field
    masks of [MT_EDCA_CFG_AC] with the macro [MT76_SET(_mask, _val)], and the
    masks and the per-queue shifts of the four WMM registers. *)
Record wmm_macros := {
  MT_EDCA_CFG_TXOP : Z;
  MT_EDCA_CFG_AIFSN : Z;
  MT_EDCA_CFG_CWMIN : Z;
  MT_EDCA_CFG_CWMAX : Z;
  MT76_SET : Z -> Z -> Z;
  MT_WMM_TXOP_MASK : Z;
  MT_WMM_TXOP_SHIFT : Z -> Z;
  MT_WMM_AIFSN_MASK : Z;
  MT_WMM_AIFSN_SHIFT : Z -> Z;
  MT_WMM_CWMIN_MASK : Z;
  MT_WMM_CWMIN_SHIFT : Z -> Z;
  MT_WMM_CWMAX_MASK : Z;
  MT_WMM_CWMAX_SHIFT : Z -> Z
}.

(** The contention window exponents [mt76_conf_tx] programs: the locals
    [cw_min] and [cw_max] after the two [if]s. *)
Definition conf_tx_cw_min (params : ieee80211_tx_queue_params) : Z :=
  if negb (cw_min params =? 0) then fls (cw_min params) else 5.

Definition conf_tx_cw_max (params : ieee80211_tx_queue_params) : Z :=
  if negb (cw_max params =? 0) then fls (cw_max params) else 10.

(** One read-modify-write of [mt76_conf_tx]:
    [val = mt76_rr(reg); val &= ~(mask << shift); val |= v << shift;
     mt76_wr(reg, val)], [val] being a [u32]. *)
Definition rmw_field_value (read mask shift v : Z) : Z :=
  u32 (Z.lor (u32 (Z.land read (Z.lnot (Z.shiftl mask shift))))
             (Z.shiftl v shift)).

(** [mt76_conf_tx]: the [int] returned and the calls made.  [rr] is what
    [mt76_rr] answers for each register. *)
Definition mt76_conf_tx (k : wmm_macros) (rr : mmio -> Z) (queue : Z)
    (params : ieee80211_tx_queue_params) : Z * list call :=
  let cw_min := conf_tx_cw_min params in
  let cw_max := conf_tx_cw_max params in
  let val :=
    u32 (Z.lor (MT76_SET k (MT_EDCA_CFG_TXOP k) (txop params))
          (Z.lor (MT76_SET k (MT_EDCA_CFG_AIFSN k) (aifs params))
             (Z.lor (MT76_SET k (MT_EDCA_CFG_CWMIN k) cw_min)
                    (MT76_SET k (MT_EDCA_CFG_CWMAX k) cw_max)))) in
  (0,
   [mt76_wr (MT_EDCA_CFG_AC queue) val;
    mt76_rr (MT_WMM_TXOP queue);
    mt76_wr (MT_WMM_TXOP queue)
      (rmw_field_value (rr (MT_WMM_TXOP queue)) (MT_WMM_TXOP_MASK k)
         (MT_WMM_TXOP_SHIFT k queue) (txop params));
    mt76_rr MT_WMM_AIFSN;
    mt76_wr MT_WMM_AIFSN
      (rmw_field_value (rr MT_WMM_AIFSN) (MT_WMM_AIFSN_MASK k)
         (MT_WMM_AIFSN_SHIFT k queue) (aifs params));
    mt76_rr MT_WMM_CWMIN;
    mt76_wr MT_WMM_CWMIN
      (rmw_field_value (rr MT_WMM_CWMIN) (MT_WMM_CWMIN_MASK k)
         (MT_WMM_CWMIN_SHIFT k queue) cw_min);
    mt76_rr MT_WMM_CWMAX;
    mt76_wr MT_WMM_CWMAX
      (rmw_field_value (rr MT_WMM_CWMAX) (MT_WMM_CWMAX_MASK k)
         (MT_WMM_CWMAX_SHIFT k queue) cw_max)]).

End More.

(** ** Concrete inputs of the further examples *)

(** Register macros with the layout of two 16-bit TXOP fields per register
    and one 4-bit field per queue in the other WMM registers. *)
Definition wmm_example : More.wmm_macros :=
  {| More.MT_EDCA_CFG_TXOP := Z.ones 8;
     More.MT_EDCA_CFG_AIFSN := Z.shiftl (Z.ones 4) 8;
     More.MT_EDCA_CFG_CWMIN := Z.shiftl (Z.ones 4) 12;
     More.MT_EDCA_CFG_CWMAX := Z.shiftl (Z.ones 4) 16;
     More.MT76_SET := fun mask val => Z.land val mask;
     More.MT_WMM_TXOP_MASK := Z.ones 16;
     More.MT_WMM_TXOP_SHIFT := fun q => Z.land q 1 * 16;
     More.MT_WMM_AIFSN_MASK := Z.ones 4;
     More.MT_WMM_AIFSN_SHIFT := fun q => q * 4;
     More.MT_WMM_CWMIN_MASK := Z.ones 4;
     More.MT_WMM_CWMIN_SHIFT := fun q => q * 4;
     More.MT_WMM_CWMAX_MASK := Z.ones 4;
     More.MT_WMM_CWMAX_SHIFT := fun q => q * 4 |}.

(** Queue parameters of a best-effort queue: contention window 15 .. 1023,
    AIFS 3, no TXOP limit. *)
Definition params_example : More.ieee80211_tx_queue_params :=
  {| More.txop := 0; More.cw_min := 15; More.cw_max := 1023;
     More.aifs := 3 |}.

(** A station record with slot 5 and sixteen sequence number stashes. *)
Definition sta_agg_example : More.mt76_sta :=
  {| More.sta := sta_with_key 5 (-1); More.agg_ssn := repeat 0 16 |}.

(** * Properties *)

(** ** Inbound frames ([mt76_rx]) *)

Section Rx.

Variable MT76_STATE_RUNNING : Z.

(** C7.  A frame that arrives while the RUNNING bit of [dev->state] is clear
    is freed and is not handed to [ieee80211_rx]; nothing else happens and
    the device is unchanged.  A frame that arrives while the bit is set is
    handed to [ieee80211_rx] (and is not freed by the driver). *)
Theorem mt76_rx_gated_on_running (d : mt76_dev) (skb : sk_buff) :
  let r := mt76_rx MT76_STATE_RUNNING skb d in
  (test_bit MT76_STATE_RUNNING (state d) = false ->
     calls r = [dev_kfree_skb skb] /\
     existsb is_ieee80211_rx (calls r) = false) /\
  (test_bit MT76_STATE_RUNNING (state d) = true ->
     calls r = [ieee80211_rx skb]) /\
  dev_after r = d.
Proof.
  unfold mt76_rx, bind, get, emit, calls, dev_after; cbn.
  destruct (test_bit MT76_STATE_RUNNING (state d)); cbn.
  - repeat split; intros; try discriminate; reflexivity.
  - repeat split; intros; try discriminate; reflexivity.
Qed.

End Rx.

(** A stopped device (flag word 0) drops frame 7; after [set_bit] of flag 1
    the same frame is delivered. *)
Lemma mt76_rx_gated_on_running_witness :
  calls (mt76_rx 1 7 {| macaddr := []; state := 0; wcid_mask := [] |})
    = [dev_kfree_skb 7] /\
  calls (mt76_rx 1 7 {| macaddr := []; state := set_bit 1 0;
                        wcid_mask := [] |})
    = [ieee80211_rx 7].
Proof.
  split.
  - apply (mt76_rx_gated_on_running 1
             {| macaddr := []; state := 0; wcid_mask := [] |} 7).
    reflexivity.
  - apply (mt76_rx_gated_on_running 1
             {| macaddr := []; state := set_bit 1 0; wcid_mask := [] |} 7).
    reflexivity.
Defined.

(** [mt76_stop] clears the flag [mt76_rx] tests, a successful [mt76_start]
    sets it, a failed one leaves the flag word alone. *)
Lemma mt76_stop_clears_running (nr : Z) (d : mt76_dev) :
  0 <= nr ->
  test_bit nr (state (dev_after (mt76_stop nr d))) = false.
Proof.
  intros Hnr. cbn. unfold test_bit, clear_bit, BIT.
  rewrite Z.ldiff_spec, Z.shiftl_spec by assumption.
  replace (nr - nr) with 0 by lia. cbn. apply andb_false_r.
Qed.

Lemma mt76_start_sets_running (nr : Z) (hw : hw_results) (d : mt76_dev) :
  0 <= nr ->
  let r := mt76_start nr hw d in
  (result r = 0 -> test_bit nr (state (dev_after r)) = true) /\
  (result r <> 0 -> dev_after r = d).
Proof.
  intros Hnr. unfold mt76_start, bind, ask, emit, get, put, ret; cbn.
  destruct (mac_start_ret hw =? 0) eqn:E1; cbn.
  - destruct (phy_start_ret hw =? 0) eqn:E2; cbn.
    + split; intros H.
      * unfold test_bit, set_bit, BIT.
        rewrite Z.lor_spec, Z.shiftl_spec by assumption.
        replace (nr - nr) with 0 by lia. cbn. apply orb_true_r.
      * apply Z.eqb_eq in E2. contradiction.
    + split; intros H; [apply Z.eqb_neq in E2; contradiction | reflexivity].
  - split; intros H; [apply Z.eqb_neq in E1; contradiction | reflexivity].
Qed.

(** ** Interfaces ([mt76_add_interface]) *)

(** The locally administered bit of the first address byte, tested as the
    code does with [& BIT(1)], and as a bit. *)
Lemma land_BIT_testbit (x n : Z) :
  0 <= n -> (Z.land x (BIT n) =? 0) = negb (Z.testbit x n).
Proof.
  intros Hn. unfold BIT.
  destruct (Z.testbit x n) eqn:Hb; cbn.
  - apply Z.eqb_neq. intros H0.
    assert (Hn' : Z.testbit (Z.land x (Z.shiftl 1 n)) n = true).
    { rewrite Z.land_spec, Z.shiftl_spec, Hb by assumption.
      replace (n - n) with 0 by lia. reflexivity. }
    rewrite H0, Z.bits_0 in Hn'. discriminate.
  - apply Z.eqb_eq. apply Z.bits_inj'. intros k Hk.
    rewrite Z.land_spec, Z.bits_0, Z.shiftl_spec by assumption.
    destruct (Z.eq_dec k n) as [->|Hkn].
    + rewrite Hb. reflexivity.
    + destruct (Z.ltb_spec (k - n) 0) as [Hlt|Hge].
      * rewrite (Z.testbit_neg_r 1) by assumption. apply andb_false_r.
      * replace (Z.testbit 1 (k - n)) with false; [apply andb_false_r|].
        symmetry. apply (Z.bits_above_log2 1 (k - n)); cbn; lia.
Qed.

Lemma derived_vif_idx_range (mac0 addr0 : Z) (t : nl80211_iftype) :
  0 <= derived_vif_idx mac0 addr0 t <= 16.
Proof.
  unfold derived_vif_idx.
  pose proof (Z.mod_pos_bound (Z.lxor mac0 addr0 / 4) 8 ltac:(lia)).
  destruct (Z.testbit addr0 1), (is_station t); lia.
Qed.

(** The interface record [mt76_add_interface] fills in. *)
Lemma mt76_add_interface_result (d : mt76_dev) (vif : ieee80211_vif) :
  mt76_add_interface vif d =
  (0,
   {| vif_idx :=
        derived_vif_idx (nth 0 (macaddr d) 0) (nth 0 (addr vif) 0) (type vif);
      group_wcid :=
        {| wcid_idx :=
             254 - derived_vif_idx (nth 0 (macaddr d) 0)
                                   (nth 0 (addr vif) 0) (type vif);
           hw_key_idx := -1 |} |},
   d, [mt76_txq_init vif_txq]).
Proof.
  unfold mt76_add_interface, bind, get, emit, ret, derived_vif_idx.
  rewrite land_BIT_testbit by lia.
  rewrite negb_involutive.
  change 7 with (Z.ones 3).
  rewrite Z.land_ones, Z.shiftr_div_pow2 by lia.
  change (2 ^ 2) with 4. change (2 ^ 3) with 8.
  destruct (Z.testbit (nth 0 (addr vif) 0) 1), (is_station (type vif));
    cbn [negb app]; rewrite ?Z.add_0_r; reflexivity.
Qed.

(** C8.  For every device address and every interface (address and role),
    [mt76_add_interface] returns 0; the interface index is
    [1 + (((macaddr[0] ^ addr[0]) >> 2) & 7)] when the locally administered
    bit (bit 1 of [addr[0]]) is set and 0 otherwise, plus 8 for a station
    interface; the group slot starts with [hw_key_idx = -1]. *)
Theorem mt76_add_interface_idx (d : mt76_dev) (vif : ieee80211_vif) :
  let r := mt76_add_interface vif d in
  let mac0 := nth 0 (macaddr d) 0 in
  let addr0 := nth 0 (addr vif) 0 in
  fst (result r) = 0 /\
  vif_idx (snd (result r)) =
    (if Z.testbit addr0 1
     then 1 + Z.land (Z.shiftr (Z.lxor mac0 addr0) 2) 7
     else 0)
    + (match type vif with NL80211_IFTYPE_STATION => 8 | _ => 0 end) /\
  hw_key_idx (group_wcid (snd (result r))) = -1.
Proof.
  cbn zeta. rewrite mt76_add_interface_result. cbn [result fst snd vif_idx
    group_wcid hw_key_idx].
  repeat split. unfold derived_vif_idx.
  change 7 with (Z.ones 3).
  rewrite Z.land_ones, Z.shiftr_div_pow2 by lia.
  change (2 ^ 2) with 4. change (2 ^ 3) with 8.
  destruct (type vif); reflexivity.
Qed.

(** ** Key binding ([mt76_set_key]) *)

(** Splits every [if] of the goal on its condition. *)
Ltac split_ifs :=
  repeat match goal with
         | |- context [if ?c then _ else _] => destruct c eqn:?
         end.

Ltac key_simpl :=
  cbn [fst snd app orb negb wcid wcid_idx hw_key_idx vif_idx group_wcid
       keyidx key_hw_key_idx sk_ret sk_vif sk_sta sk_key
       existsb is_shared_key_setup is_wcid_set_key In].

Ltac run_set_key :=
  unfold mt76_set_key, key_slot, store_key_slot, set_hw_key_idx,
    bind, ask, ret, result, calls, dev_after;
  key_simpl.

Section KeyBinding.

Variable hw : hw_results.

(** C6.  For every slot (a station's or an interface's group slot), every
    key index and whatever the hardware answers: an install sets the slot's
    [hw_key_idx] to the key index and reports the slot's own [idx] in
    [key->hw_key_idx]; an uninstall of the index the slot holds sets
    [hw_key_idx] to -1; an uninstall of any other index leaves it as it
    was.  The slot's [idx] is not changed. *)
Theorem mt76_set_key_slot_update (cmd : set_key_cmd) (mvif : mt76_vif)
    (msta : option mt76_sta) (key : ieee80211_key_conf) (d : mt76_dev) :
  let r := result (mt76_set_key hw cmd mvif msta key d) in
  let before := key_slot mvif msta in
  let after := key_slot (sk_vif r) (sk_sta r) in
  wcid_idx after = wcid_idx before /\
  match cmd with
  | SET_KEY =>
      hw_key_idx after = keyidx key /\
      key_hw_key_idx (sk_key r) = wcid_idx before
  | DISABLE_KEY =>
      (keyidx key = hw_key_idx before -> hw_key_idx after = -1) /\
      (keyidx key <> hw_key_idx before ->
       hw_key_idx after = hw_key_idx before)
  end.
Proof.
  destruct cmd, msta as [s|]; run_set_key.
  - auto.
  - split_ifs; key_simpl; auto.
  - destruct (Z.eqb_spec (keyidx key) (hw_key_idx (wcid s))); key_simpl;
      repeat split; intros; try reflexivity; contradiction.
  - destruct (Z.eqb_spec (keyidx key) (hw_key_idx (group_wcid mvif)));
      key_simpl; split_ifs; key_simpl;
      repeat split; intros; try reflexivity; contradiction.
Qed.

(** C10.  A key removal that names a station calls the per-WCID key
    operation once, with no key material ([NULL]), on the station's slot,
    whether or not the removed index is the one the slot holds; the match
    only decides whether [hw_key_idx] becomes -1.  The answer of that call
    is what [mt76_set_key] returns. *)
Theorem mt76_set_key_station_removal (mvif : mt76_vif) (s : mt76_sta)
    (key : ieee80211_key_conf) (d : mt76_dev) :
  let r := mt76_set_key hw DISABLE_KEY mvif (Some s) key d in
  calls r = [mt76_mac_wcid_set_key (wcid_idx (wcid s)) None] /\
  sk_ret (result r) = wcid_set_key_ret hw (wcid_idx (wcid s)) None /\
  sk_sta (result r) =
    Some {| wcid :=
              {| wcid_idx := wcid_idx (wcid s);
                 hw_key_idx := if keyidx key =? hw_key_idx (wcid s)
                               then -1 else hw_key_idx (wcid s) |} |} /\
  sk_vif (result r) = mvif.
Proof.
  run_set_key.
  destruct (keyidx key =? hw_key_idx (wcid s)); key_simpl; repeat split.
  destruct s as [[i k]]; reflexivity.
Qed.

(** C2 (as the code has it).  A key install or removal that names no station
    works on the interface's group slot, whose [hw_key_idx] it updates (the
    key index on install, -1 on removal of the index held).  The shared-key
    table is written with the binding (the key on install, [NULL] on
    removal) in every case in which the per-WCID key operation was not
    called or answered 0, also when a removed index is not the one the slot
    holds.  What is conditional is the per-WCID key operation: it is called
    exactly when a key is installed or [hw_key_idx], after the slot update,
    equals the key index. *)
Theorem mt76_set_key_group_calls (cmd : set_key_cmd) (mvif : mt76_vif)
    (key : ieee80211_key_conf) (d : mt76_dev) :
  let r := mt76_set_key hw cmd mvif None key d in
  let slot := group_wcid (sk_vif (result r)) in
  let keyp := match cmd with
              | SET_KEY => Some (sk_key (result r))
              | DISABLE_KEY => None
              end in
  let apply := mt76_mac_wcid_set_key (wcid_idx slot) keyp in
  let shared := mt76_mac_shared_key_setup (vif_idx mvif) (keyidx key) keyp in
  sk_sta (result r) = None /\
  wcid_idx slot = wcid_idx (group_wcid mvif) /\
  hw_key_idx slot =
    match cmd with
    | SET_KEY => keyidx key
    | DISABLE_KEY =>
        if keyidx key =? hw_key_idx (group_wcid mvif)
        then -1 else hw_key_idx (group_wcid mvif)
    end /\
  calls r =
    if (match cmd with SET_KEY => true | DISABLE_KEY => false end)
       || (hw_key_idx slot =? keyidx key)
    then if wcid_set_key_ret hw (wcid_idx slot) keyp =? 0
         then [apply; shared] else [apply]
    else [shared].
Proof.
  destruct cmd; run_set_key.
  - destruct (wcid_set_key_ret hw _ _ =? 0) eqn:E; key_simpl; rewrite ?E;
      repeat split.
  - destruct (keyidx key =? hw_key_idx (group_wcid mvif)); key_simpl.
    + destruct (-1 =? keyidx key) eqn:E1; key_simpl; rewrite ?E1.
      * destruct (wcid_set_key_ret hw _ _ =? 0) eqn:E; key_simpl;
          rewrite ?E1, ?E; repeat split.
      * repeat split.
    + destruct (hw_key_idx (group_wcid mvif) =? keyidx key) eqn:E1;
        key_simpl; rewrite ?E1.
      * destruct (wcid_set_key_ret hw _ _ =? 0) eqn:E; key_simpl;
          rewrite ?E1, ?E; repeat split.
      * repeat split.
Qed.

(** C3 (as the code has it).  When the per-WCID key operation is called and
    answers an error, [mt76_set_key] returns that error and does not call
    the shared-key setup.  The slot's [hw_key_idx] was written before the
    call and keeps what was written: the key index after a failed install,
    -1 after a failed removal of the index the slot held. *)
Theorem mt76_set_key_apply_failure (cmd : set_key_cmd) (mvif : mt76_vif)
    (msta : option mt76_sta) (key : ieee80211_key_conf) (d : mt76_dev)
    (i : Z) (k : option ieee80211_key_conf) :
  let r := mt76_set_key hw cmd mvif msta key d in
  let before := key_slot mvif msta in
  let after := key_slot (sk_vif (result r)) (sk_sta (result r)) in
  In (mt76_mac_wcid_set_key i k) (calls r) ->
  wcid_set_key_ret hw i k <> 0 ->
  sk_ret (result r) = wcid_set_key_ret hw i k /\
  existsb is_shared_key_setup (calls r) = false /\
  hw_key_idx after =
    match cmd with
    | SET_KEY => keyidx key
    | DISABLE_KEY =>
        if keyidx key =? hw_key_idx before then -1 else hw_key_idx before
    end.
Proof.
  destruct cmd, msta as [s|]; run_set_key.
  - intros [H|[]] Hne. injection H as <- <-. auto.
  - destruct (wcid_set_key_ret hw (wcid_idx (group_wcid mvif)) _ =? 0) eqn:E;
      key_simpl.
    + apply Z.eqb_eq in E.
      intros [H|[H|[]]] Hne; [|discriminate H].
      injection H as <- <-. contradiction.
    + intros [H|[]] Hne. injection H as <- <-. auto.
  - destruct (keyidx key =? hw_key_idx (wcid s)); key_simpl;
      intros [H|[]] Hne; injection H as <- <-; auto.
  - destruct (keyidx key =? hw_key_idx (group_wcid mvif)) eqn:E0; key_simpl.
    + destruct (-1 =? keyidx key) eqn:E1; key_simpl.
      * destruct (wcid_set_key_ret hw (wcid_idx (group_wcid mvif)) None =? 0)
          eqn:E; key_simpl.
        -- apply Z.eqb_eq in E.
           intros [H|[H|[]]] Hne; [|discriminate H].
           injection H as <- <-. contradiction.
        -- intros [H|[]] Hne. injection H as <- <-. auto.
      * intros [H|[]]. discriminate H.
    + destruct (hw_key_idx (group_wcid mvif) =? keyidx key) eqn:E1;
        key_simpl.
      * destruct (wcid_set_key_ret hw (wcid_idx (group_wcid mvif)) None =? 0)
          eqn:E; key_simpl.
        -- apply Z.eqb_eq in E.
           intros [H|[H|[]]] Hne; [|discriminate H].
           injection H as <- <-. contradiction.
        -- intros [H|[]] Hne. injection H as <- <-. auto.
      * intros [H|[]]. discriminate H.
Qed.

End KeyBinding.

(** Install of key 1 on a station slot 5 that holds key 0; removal of key 1
    from a group slot that holds key 1, and from one that holds key 2. *)
Lemma mt76_set_key_slot_update_witness :
  (hw_key_idx (key_slot
     (sk_vif (result (mt76_set_key hw_ok SET_KEY (vif_with_key 0 (-1))
                        (Some (sta_with_key 5 0)) (key_conf 1) (dev0 8))))
     (sk_sta (result (mt76_set_key hw_ok SET_KEY (vif_with_key 0 (-1))
                        (Some (sta_with_key 5 0)) (key_conf 1) (dev0 8)))))
   = 1) /\
  (hw_key_idx (key_slot
     (sk_vif (result (mt76_set_key hw_ok DISABLE_KEY (vif_with_key 0 1)
                        None (key_conf 1) (dev0 8))))
     (sk_sta (result (mt76_set_key hw_ok DISABLE_KEY (vif_with_key 0 1)
                        None (key_conf 1) (dev0 8)))))
   = -1) /\
  (hw_key_idx (key_slot
     (sk_vif (result (mt76_set_key hw_ok DISABLE_KEY (vif_with_key 0 2)
                        None (key_conf 1) (dev0 8))))
     (sk_sta (result (mt76_set_key hw_ok DISABLE_KEY (vif_with_key 0 2)
                        None (key_conf 1) (dev0 8)))))
   = 2).
Proof.
  split; [|split].
  - apply (mt76_set_key_slot_update hw_ok SET_KEY (vif_with_key 0 (-1))
             (Some (sta_with_key 5 0)) (key_conf 1) (dev0 8)).
  - apply (mt76_set_key_slot_update hw_ok DISABLE_KEY (vif_with_key 0 1)
             None (key_conf 1) (dev0 8)).
    reflexivity.
  - apply (mt76_set_key_slot_update hw_ok DISABLE_KEY (vif_with_key 0 2)
             None (key_conf 1) (dev0 8)).
    cbn. lia.
Defined.

(** C2, as stated, fails: removal of group key 1 while the group slot holds
    key 2.  No key is installed and the active index does not match, yet the
    shared-key table is written (with [NULL] for index 1); the per-WCID key
    operation is the one that is skipped. *)
Lemma group_key_removal_mismatch_writes_shared_table :
  let mvif := vif_with_key 0 2 in
  let key := key_conf 1 in
  let r := mt76_set_key hw_ok DISABLE_KEY mvif None key (dev0 8) in
  hw_key_idx (group_wcid mvif) <> keyidx key /\
  calls r = [mt76_mac_shared_key_setup 0 1 None] /\
  existsb is_shared_key_setup (calls r) = true /\
  existsb is_wcid_set_key (calls r) = false /\
  ~ shared_table_written_iff_install_or_match.
Proof.
  cbv zeta. split; [cbn; lia | split; [reflexivity | split; [reflexivity |
    split; [reflexivity|]]]].
  intros H.
  specialize (H hw_ok DISABLE_KEY (vif_with_key 0 2) (key_conf 1) (dev0 8)).
  vm_compute in H. discriminate H.
Qed.

(** C3, as stated, fails: install of key 0 on a group slot without key when
    the per-WCID key operation answers [-EBUSY].  The error is returned and
    the shared-key table is not written, but the slot's [hw_key_idx] is 0
    afterwards, not the -1 it held before. *)
Lemma failed_install_keeps_new_hw_key_idx :
  let mvif := vif_with_key 0 (-1) in
  let r := mt76_set_key hw_key_busy SET_KEY mvif None (key_conf 0) (dev0 8) in
  hw_key_idx (group_wcid mvif) = -1 /\
  sk_ret (result r) = - EBUSY /\
  calls r = [mt76_mac_wcid_set_key 254
               (Some {| keyidx := 0; key_hw_key_idx := 254 |})] /\
  hw_key_idx (group_wcid (sk_vif (result r))) = 0 /\
  ~ failed_apply_leaves_hw_key_idx.
Proof.
  cbv zeta. split; [reflexivity | split; [reflexivity | split; [reflexivity |
    split; [reflexivity|]]]].
  intros H.
  destruct (H hw_key_busy SET_KEY (vif_with_key 0 (-1)) None (key_conf 0)
              (dev0 8) 254 (Some {| keyidx := 0; key_hw_key_idx := 254 |}))
    as (_ & _ & Hk).
  - left. reflexivity.
  - cbn. discriminate.
  - vm_compute in Hk. discriminate Hk.
Qed.

(** The failed install above, and a failed removal on a station. *)
Lemma mt76_set_key_apply_failure_witness :
  (let r := mt76_set_key hw_key_busy SET_KEY (vif_with_key 0 (-1)) None
              (key_conf 0) (dev0 8) in
   sk_ret (result r) = - EBUSY /\
   existsb is_shared_key_setup (calls r) = false /\
   hw_key_idx (key_slot (sk_vif (result r)) (sk_sta (result r))) = 0) /\
  (let r := mt76_set_key hw_key_busy DISABLE_KEY (vif_with_key 0 (-1))
              (Some (sta_with_key 5 3)) (key_conf 3) (dev0 8) in
   sk_ret (result r) = - EBUSY /\
   existsb is_shared_key_setup (calls r) = false /\
   hw_key_idx (key_slot (sk_vif (result r)) (sk_sta (result r))) = -1).
Proof.
  split.
  - apply (mt76_set_key_apply_failure hw_key_busy SET_KEY
             (vif_with_key 0 (-1)) None (key_conf 0) (dev0 8)
             254 (Some {| keyidx := 0; key_hw_key_idx := 254 |})).
    + left. reflexivity.
    + cbn. discriminate.
  - apply (mt76_set_key_apply_failure hw_key_busy DISABLE_KEY
             (vif_with_key 0 (-1)) (Some (sta_with_key 5 3)) (key_conf 3)
             (dev0 8) 5 None).
    + left. reflexivity.
    + cbn. discriminate.
Defined.

(** ** Beacon configuration ([mt76_bss_info_changed]) *)

(** The calls of [mt76_bss_info_changed], clause by clause. *)
Lemma mt76_bss_info_changed_calls (mvif : mt76_vif)
    (info : ieee80211_bss_conf) (changed : Z) (d : mt76_dev) :
  calls (mt76_bss_info_changed mvif info changed d) =
    [mutex_lock]
    ++ (if Z.testbit changed 7
        then [mt76_mac_set_bssid (vif_idx mvif) (bssid info)] else [])
    ++ (if Z.testbit changed 6
        then [mt76_rmw_field MT_BEACON_TIME_CFG MT_BEACON_TIME_CFG_INTVAL
                (Z.shiftl (beacon_int info) 4)] else [])
    ++ (if Z.testbit changed 9
        then [tasklet_disable;
              mt76_mac_set_beacon_enable (vif_idx mvif) (enable_beacon info);
              tasklet_enable] else [])
    ++ (if Z.testbit changed 3
        then [mt76_rmw_field MT_BKOFF_SLOT_CFG MT_BKOFF_SLOT_CFG_SLOTTIME
                (if use_short_slot info then 9 else 20)] else [])
    ++ [mutex_unlock].
Proof.
  unfold mt76_bss_info_changed, BSS_CHANGED_BSSID, BSS_CHANGED_BEACON_INT,
    BSS_CHANGED_BEACON_ENABLED, BSS_CHANGED_ERP_SLOT.
  rewrite !land_BIT_testbit by lia. rewrite !negb_involutive.
  unfold bind, emit, ret, calls.
  destruct (Z.testbit changed 7), (Z.testbit changed 6),
    (Z.testbit changed 9), (Z.testbit changed 3); reflexivity.
Qed.

(** C9, as stated, fails: a change of the BSSID alone writes the BSSID
    registers without pausing the pre-TBTT tasklet. *)
Lemma bssid_change_does_not_pause_tasklet :
  let t := calls (mt76_bss_info_changed (vif_with_key 0 (-1))
                    {| bssid := [0; 17; 34; 51; 68; 85]; beacon_int := 100;
                       enable_beacon := true; use_short_slot := false |}
                    BSS_CHANGED_BSSID (dev0 8)) in
  t = [mutex_lock; mt76_mac_set_bssid 0 [0; 17; 34; 51; 68; 85];
       mutex_unlock] /\
  paused_during (fun c => is_set_bssid c || is_set_beacon_enable c) 0 t
    = false /\
  ~ bssid_and_beacon_updates_paused.
Proof.
  cbv zeta. split; [reflexivity | split; [reflexivity|]].
  intros H.
  specialize (H (vif_with_key 0 (-1))
                {| bssid := [0; 17; 34; 51; 68; 85]; beacon_int := 100;
                   enable_beacon := true; use_short_slot := false |}
                BSS_CHANGED_BSSID (dev0 8)).
  vm_compute in H. discriminate H.
Qed.

(** C9 (as the code has it).  For every configuration change: the
    beacon-enable update is made while the pre-TBTT tasklet is disabled, and
    the tasklet is enabled again when the callback returns; the whole
    callback runs between [mutex_lock] and [mutex_unlock]; a BSSID update,
    when the change asks for one, is made with the tasklet not paused. *)
Theorem mt76_bss_info_changed_tasklet (mvif : mt76_vif)
    (info : ieee80211_bss_conf) (changed : Z) (d : mt76_dev) :
  let t := calls (mt76_bss_info_changed mvif info changed d) in
  paused_during is_set_beacon_enable 0 t = true /\
  disable_count 0 t = 0%nat /\
  (exists body, t = mutex_lock :: body ++ [mutex_unlock]) /\
  (Z.land changed BSS_CHANGED_BEACON_ENABLED <> 0 ->
   In (mt76_mac_set_beacon_enable (vif_idx mvif) (enable_beacon info)) t) /\
  (Z.land changed BSS_CHANGED_BSSID <> 0 ->
   In (mt76_mac_set_bssid (vif_idx mvif) (bssid info)) t /\
   paused_during is_set_bssid 0 t = false).
Proof.
  cbn zeta. rewrite mt76_bss_info_changed_calls.
  assert (H9 : Z.land changed BSS_CHANGED_BEACON_ENABLED <> 0 ->
               Z.testbit changed 9 = true).
  { intros H. apply Z.eqb_neq in H. unfold BSS_CHANGED_BEACON_ENABLED in H.
    rewrite land_BIT_testbit in H by lia.
    destruct (Z.testbit changed 9); [reflexivity | discriminate]. }
  assert (H7 : Z.land changed BSS_CHANGED_BSSID <> 0 ->
               Z.testbit changed 7 = true).
  { intros H. apply Z.eqb_neq in H. unfold BSS_CHANGED_BSSID in H.
    rewrite land_BIT_testbit in H by lia.
    destruct (Z.testbit changed 7); [reflexivity | discriminate]. }
  repeat split.
  - destruct (Z.testbit changed 7), (Z.testbit changed 6),
      (Z.testbit changed 9), (Z.testbit changed 3); reflexivity.
  - destruct (Z.testbit changed 7), (Z.testbit changed 6),
      (Z.testbit changed 9), (Z.testbit changed 3); reflexivity.
  - eexists. cbn [app]. rewrite !app_assoc. reflexivity.
  - intros H. rewrite (H9 H).
    apply in_or_app. right. apply in_or_app. right. apply in_or_app. right.
    apply in_or_app. left. right. left. reflexivity.
  - rewrite (H7 H). right. left. reflexivity.
  - rewrite (H7 H).
    destruct (Z.testbit changed 6), (Z.testbit changed 9),
      (Z.testbit changed 3); reflexivity.
Qed.

(** A change of beacon enable and BSSID together. *)
Lemma mt76_bss_info_changed_tasklet_witness :
  let info := {| bssid := [0; 17; 34; 51; 68; 85]; beacon_int := 100;
                 enable_beacon := true; use_short_slot := false |} in
  let t := calls (mt76_bss_info_changed (vif_with_key 0 (-1)) info
                    (Z.lor BSS_CHANGED_BEACON_ENABLED BSS_CHANGED_BSSID)
                    (dev0 8)) in
  In (mt76_mac_set_beacon_enable 0 true) t /\
  (In (mt76_mac_set_bssid 0 [0; 17; 34; 51; 68; 85]) t /\
   paused_during is_set_bssid 0 t = false).
Proof.
  split.
  - apply (mt76_bss_info_changed_tasklet (vif_with_key 0 (-1))
             {| bssid := [0; 17; 34; 51; 68; 85]; beacon_int := 100;
                enable_beacon := true; use_short_slot := false |}
             (Z.lor BSS_CHANGED_BEACON_ENABLED BSS_CHANGED_BSSID) (dev0 8)).
    cbn. discriminate.
  - apply (mt76_bss_info_changed_tasklet (vif_with_key 0 (-1))
             {| bssid := [0; 17; 34; 51; 68; 85]; beacon_int := 100;
                enable_beacon := true; use_short_slot := false |}
             (Z.lor BSS_CHANGED_BEACON_ENABLED BSS_CHANGED_BSSID) (dev0 8)).
    cbn. discriminate.
Defined.


(** ** The WCID bitmap *)

(** *** [ffs] *)

Lemma ffs_from_zero (n : nat) (x : Z) :
  forall pos, 0 <= pos -> ffs_from n pos x = 0 ->
  forall j, pos <= j < pos + Z.of_nat n -> Z.testbit x j = false.
Proof.
  induction n as [|n IH]; intros pos Hpos H j Hj.
  - lia.
  - cbn [ffs_from] in H. destruct (Z.testbit x pos) eqn:Hb; [lia|].
    destruct (Z.eq_dec j pos) as [->|Hne]; [assumption|].
    apply (IH (pos + 1)); [lia | assumption | lia].
Qed.

Lemma ffs_from_found (n : nat) (x : Z) :
  forall pos, 0 <= pos -> ffs_from n pos x <> 0 ->
  pos < ffs_from n pos x <= pos + Z.of_nat n /\
  Z.testbit x (ffs_from n pos x - 1) = true /\
  forall j, pos <= j < ffs_from n pos x - 1 -> Z.testbit x j = false.
Proof.
  induction n as [|n IH]; intros pos Hpos H.
  - cbn in H. contradiction.
  - cbn [ffs_from] in *. destruct (Z.testbit x pos) eqn:Hb.
    + replace (pos + 1 - 1) with pos by lia.
      split; [lia | split; [assumption | intros; lia]].
    + destruct (IH (pos + 1) ltac:(lia) H) as (Hr & Ht & Hl).
      split; [lia | split; [assumption|]].
      intros j Hj. destruct (Z.eq_dec j pos) as [->|Hne]; [assumption|].
      apply Hl. lia.
Qed.

Section Scan.

Variable BITS_PER_LONG : Z.
Hypothesis long_has_int : 32 <= BITS_PER_LONG.

(** What [ffs] sees of a bitmap word: the complement of its low 32 bits. *)
Lemma int_bits_not_ulong (w j : Z) :
  0 <= j < 32 ->
  Z.testbit (int_bits (not_ulong BITS_PER_LONG w)) j = negb (Z.testbit w j).
Proof.
  intros Hj. unfold int_bits, not_ulong.
  rewrite !Z.land_spec, Z.lnot_spec by lia.
  rewrite !Z.testbit_ones_nonneg by lia.
  replace (j <? BITS_PER_LONG) with true by (symmetry; apply Z.ltb_lt; lia).
  replace (j <? 32) with true by (symmetry; apply Z.ltb_lt; lia).
  rewrite !andb_true_r. reflexivity.
Qed.

(** [ffs(~w)] is 0 exactly when the low 32 bits of [w] are all set. *)
Lemma scan_full (w : Z) :
  ffs (int_bits (not_ulong BITS_PER_LONG w)) = 0 ->
  forall j, 0 <= j < 32 -> Z.testbit w j = true.
Proof.
  intros H j Hj.
  pose proof (ffs_from_zero 32 _ 0 ltac:(lia) H j
                ltac:(change (Z.of_nat 32) with 32; lia)) as Hb.
  rewrite int_bits_not_ulong in Hb by assumption.
  destruct (Z.testbit w j); [reflexivity | discriminate].
Qed.

(** Otherwise [ffs(~w) - 1] is the lowest clear bit among the low 32. *)
Lemma scan_found (w : Z) :
  let p := ffs (int_bits (not_ulong BITS_PER_LONG w)) - 1 in
  ffs (int_bits (not_ulong BITS_PER_LONG w)) <> 0 ->
  0 <= p < 32 /\
  Z.testbit w p = false /\
  forall j, 0 <= j < p -> Z.testbit w j = true.
Proof.
  intros p H. subst p.
  destruct (ffs_from_found 32 _ 0 ltac:(lia) H) as (Hr & Ht & Hl).
  fold (ffs (int_bits (not_ulong BITS_PER_LONG w))) in *.
  change (Z.of_nat 32) with 32 in Hr.
  rewrite int_bits_not_ulong in Ht by lia.
  split; [lia | split].
  - destruct (Z.testbit w _); [discriminate | reflexivity].
  - intros j Hj. specialize (Hl j ltac:(lia)).
    rewrite int_bits_not_ulong in Hl by lia.
    destruct (Z.testbit w j); [reflexivity | discriminate].
Qed.

(** *** Bits of the bitmap, word by word *)

Lemma wcid_mask_bit_head (w : Z) (rest : list Z) (k : Z) :
  0 <= k < BITS_PER_LONG ->
  wcid_mask_bit BITS_PER_LONG (w :: rest) k = Z.testbit w k.
Proof.
  intros Hk. unfold wcid_mask_bit.
  rewrite Z.div_small, Z.mod_small by lia. reflexivity.
Qed.

Lemma div_mod_shift (k : Z) :
  BITS_PER_LONG <= k ->
  k / BITS_PER_LONG = (k - BITS_PER_LONG) / BITS_PER_LONG + 1 /\
  k mod BITS_PER_LONG = (k - BITS_PER_LONG) mod BITS_PER_LONG /\
  0 <= (k - BITS_PER_LONG) / BITS_PER_LONG.
Proof.
  intros Hk.
  replace k with ((k - BITS_PER_LONG) + 1 * BITS_PER_LONG) at 1 3 by lia.
  rewrite Z.div_add, Z.mod_add by lia.
  repeat split. apply Z.div_pos; lia.
Qed.

Lemma wcid_mask_bit_tail (w : Z) (rest : list Z) (k : Z) :
  BITS_PER_LONG <= k ->
  wcid_mask_bit BITS_PER_LONG (w :: rest) k =
  wcid_mask_bit BITS_PER_LONG rest (k - BITS_PER_LONG).
Proof.
  intros Hk. unfold wcid_mask_bit.
  destruct (div_mod_shift k Hk) as (Hd & Hm & Hq).
  rewrite Hd, Hm, Z2Nat.inj_add by lia.
  rewrite Nat.add_comm. reflexivity.
Qed.

Lemma wcid_mask_bit_nil (k : Z) : wcid_mask_bit BITS_PER_LONG [] k = false.
Proof.
  unfold wcid_mask_bit. destruct (Z.to_nat _); apply Z.testbit_0_l.
Qed.

(** [w |= BIT(p)] sets bit [p] and no other. *)
Lemma lor_BIT_testbit (w p j : Z) :
  0 <= p -> 0 <= j ->
  Z.testbit (Z.lor w (BIT p)) j = Z.testbit w j || (j =? p).
Proof.
  intros Hp Hj. unfold BIT.
  rewrite Z.lor_spec, Z.shiftl_spec by assumption.
  destruct (Z.eqb_spec j p) as [->|Hne].
  - replace (p - p) with 0 by lia. reflexivity.
  - f_equal. destruct (Z.ltb_spec (j - p) 0).
    + apply Z.testbit_neg_r. assumption.
    + apply (Z.bits_above_log2 1 (j - p)); cbn; lia.
Qed.

(** [w &= ~BIT(p)] clears bit [p] and no other of the word. *)
Lemma land_not_BIT_testbit (w p j : Z) :
  0 <= p -> 0 <= j < BITS_PER_LONG ->
  Z.testbit (Z.land w (not_ulong BITS_PER_LONG (BIT p))) j =
  Z.testbit w j && negb (j =? p).
Proof.
  intros Hp Hj. unfold not_ulong, BIT.
  rewrite !Z.land_spec, Z.lnot_spec, Z.shiftl_spec by lia.
  rewrite Z.testbit_ones_nonneg by lia.
  replace (j <? BITS_PER_LONG) with true by (symmetry; apply Z.ltb_lt; lia).
  rewrite andb_true_r. f_equal.
  destruct (Z.eqb_spec j p) as [->|Hne].
  - replace (p - p) with 0 by lia. reflexivity.
  - f_equal. destruct (Z.ltb_spec (j - p) 0).
    + apply Z.testbit_neg_r. assumption.
    + apply (Z.bits_above_log2 1 (j - p)); cbn; lia.
Qed.

End Scan.

(** *** [mt76_wcid_alloc] *)

Section Alloc.

Variable BITS_PER_LONG : Z.
Hypothesis long_has_int : 32 <= BITS_PER_LONG.

Local Abbreviation bit := (wcid_mask_bit BITS_PER_LONG).

(** The loop of [mt76_wcid_alloc].  Either no word has a clear bit among its
    low 32 bits and the loop runs to the end without a write, or it stops at
    the first word that has one, sets the lowest such bit and leaves
    everything else alone.  [raw] is the position of that bit, counted from
    the first word of [mask]. *)
Lemma wcid_alloc_loop_spec (mask : list Z) :
  forall i i' p mask',
  wcid_alloc_loop BITS_PER_LONG i mask = (i', p, mask') ->
  length mask' = length mask /\
  ((i' = i + Z.of_nat (length mask) /\ p = 0 /\ mask' = mask /\
    forall k, 0 <= k < BITS_PER_LONG * Z.of_nat (length mask) ->
              k mod BITS_PER_LONG < 32 -> bit mask k = true)
   \/
   (i <= i' < i + Z.of_nat (length mask) /\ 0 <= p < 32 /\
    bit mask ((i' - i) * BITS_PER_LONG + p) = false /\
    (forall k, 0 <= k ->
       bit mask' k = bit mask k || (k =? (i' - i) * BITS_PER_LONG + p)) /\
    (forall k, 0 <= k < (i' - i) * BITS_PER_LONG + p ->
               k mod BITS_PER_LONG < 32 -> bit mask k = true))).
Proof.
  induction mask as [|w rest IH]; intros i i' p mask' H.
  - cbn in H. injection H as <- <- <-. split; [reflexivity|]. left.
    repeat split; try (cbn; lia).
  - cbn [wcid_alloc_loop] in H. cbv zeta in H.
    destruct (Z.eqb_spec (ffs (int_bits (not_ulong BITS_PER_LONG w))) 0)
      as [Hz|Hnz].
    + destruct (wcid_alloc_loop BITS_PER_LONG (i + 1) rest)
        as [[i1 p1] rest1] eqn:Hrec.
      injection H as <- <- <-.
      destruct (IH _ _ _ _ Hrec) as (Hlen & [(Hi & Hp & Hm & Hall) | Hfound]).
      * split; [cbn; congruence|]. left. subst rest1.
        repeat split; try assumption.
        { cbn [length]. lia. }
        intros k Hk Hlow. cbn [length] in Hk.
        destruct (Z.lt_ge_cases k BITS_PER_LONG) as [Hlt|Hge].
        -- rewrite wcid_mask_bit_head by lia.
           rewrite Z.mod_small in Hlow by lia.
           apply (scan_full BITS_PER_LONG long_has_int w Hz). lia.
        -- rewrite wcid_mask_bit_tail by lia.
           destruct (div_mod_shift BITS_PER_LONG long_has_int k Hge)
             as (_ & Hmod & _).
           apply Hall; [lia | rewrite <- Hmod; assumption].
      * destruct Hfound as (Hi & Hp & Hclear & Hset & Hbelow).
        split; [cbn; congruence|]. right.
        replace ((i1 - i) * BITS_PER_LONG + p1)
          with (((i1 - (i + 1)) * BITS_PER_LONG + p1) + BITS_PER_LONG) by lia.
        set (raw := (i1 - (i + 1)) * BITS_PER_LONG + p1) in *.
        assert (Hraw : 0 <= raw) by (subst raw; nia).
        repeat split; try lia.
        { cbn [length]. lia. }
        { rewrite wcid_mask_bit_tail by lia.
          replace (raw + BITS_PER_LONG - BITS_PER_LONG) with raw by lia.
          assumption. }
        { intros k Hk.
          destruct (Z.lt_ge_cases k BITS_PER_LONG) as [Hlt|Hge].
          - rewrite !wcid_mask_bit_head by lia.
            replace (k =? raw + BITS_PER_LONG) with false
              by (symmetry; apply Z.eqb_neq; lia).
            rewrite orb_false_r. reflexivity.
          - rewrite !wcid_mask_bit_tail by lia.
            rewrite Hset by lia. f_equal.
            destruct (Z.eqb_spec (k - BITS_PER_LONG) raw),
                     (Z.eqb_spec k (raw + BITS_PER_LONG)); try reflexivity; lia. }
        { intros k Hk Hlow.
          destruct (Z.lt_ge_cases k BITS_PER_LONG) as [Hlt|Hge].
          - rewrite wcid_mask_bit_head by lia.
            rewrite Z.mod_small in Hlow by lia.
            apply (scan_full BITS_PER_LONG long_has_int w Hz). lia.
          - rewrite wcid_mask_bit_tail by lia.
            destruct (div_mod_shift BITS_PER_LONG long_has_int k Hge)
              as (_ & Hmod & _).
            apply Hbelow; [lia | rewrite <- Hmod; assumption]. }
    + injection H as <- <- <-.
      destruct (scan_found BITS_PER_LONG long_has_int w Hnz)
        as (Hp & Hclear & Hbelow).
      set (p := ffs (int_bits (not_ulong BITS_PER_LONG w)) - 1) in *.
      split; [reflexivity|]. right.
      replace ((i - i) * BITS_PER_LONG + p) with p by lia.
      repeat split; try lia.
      { cbn [length]. lia. }
      { rewrite wcid_mask_bit_head by lia. assumption. }
      { intros k Hk.
        destruct (Z.lt_ge_cases k BITS_PER_LONG) as [Hlt|Hge].
        - rewrite !wcid_mask_bit_head by lia.
          apply lor_BIT_testbit; lia.
        - rewrite !wcid_mask_bit_tail by lia.
          replace (k =? p) with false by (symmetry; apply Z.eqb_neq; lia).
          rewrite orb_false_r. reflexivity. }
      { intros k Hk _. rewrite wcid_mask_bit_head by lia.
        apply Hbelow. lia. }
Qed.

(** [mt76_wcid_alloc] on a bitmap that covers the indices [0 .. 247].
    It answers -1 without touching a bit at or below 247, or it answers an
    index in [0, 247] whose bit was clear and is the only bit it sets.  In
    both cases every lower index that [ffs] can see was taken. *)
Lemma mt76_wcid_alloc_spec (mask mask' : list Z) (r : Z) :
  248 <= BITS_PER_LONG * Z.of_nat (length mask) ->
  mt76_wcid_alloc BITS_PER_LONG mask = (r, mask') ->
  length mask' = length mask /\
  ((r = -1 /\
    (forall k, 0 <= k <= 247 -> bit mask' k = bit mask k) /\
    (forall k, 0 <= k <= 247 -> k mod BITS_PER_LONG < 32 ->
               bit mask k = true))
   \/
   (0 <= r <= 247 /\
    bit mask r = false /\
    (forall k, 0 <= k -> bit mask' k = bit mask k || (k =? r)) /\
    (forall k, 0 <= k < r -> k mod BITS_PER_LONG < 32 ->
               bit mask k = true))).
Proof.
  intros Hsize H. unfold mt76_wcid_alloc in H.
  destruct (wcid_alloc_loop BITS_PER_LONG 0 mask) as [[i p] m] eqn:Hloop.
  destruct (wcid_alloc_loop_spec _ _ _ _ _ Hloop)
    as (Hlen & [(Hi & Hp & Hm & Hall) | (Hi & Hp & Hclear & Hset & Hbelow)]).
  - subst i p m.
    destruct (Z.gtb_spec ((0 + Z.of_nat (length mask)) * BITS_PER_LONG + 0) 247)
      as [Hgt|Hle]; [|lia].
    injection H as <- <-. split; [reflexivity|]. left.
    repeat split; intros; try reflexivity. apply Hall; [lia | assumption].
  - replace (i - 0) with i in * by lia.
    destruct (Z.gtb_spec (i * BITS_PER_LONG + p) 247) as [Hgt|Hle];
      injection H as <- <-; (split; [assumption|]).
    + left. repeat split.
      * intros k Hk. rewrite Hset by lia.
        replace (k =? i * BITS_PER_LONG + p) with false
          by (symmetry; apply Z.eqb_neq; lia).
        apply orb_false_r.
      * intros k Hk Hlow. apply Hbelow; [lia | assumption].
    + right. repeat split; try assumption; nia.
Qed.

(** The computed index is never negative, so [-1] is returned exactly when
    the computed index exceeds 247. *)
Lemma mt76_wcid_alloc_exhausted_iff (mask : list Z) :
  let '(i, idx, _) := wcid_alloc_loop BITS_PER_LONG 0 mask in
  fst (mt76_wcid_alloc BITS_PER_LONG mask) = -1 <->
  i * BITS_PER_LONG + idx > 247.
Proof.
  unfold mt76_wcid_alloc.
  destruct (wcid_alloc_loop BITS_PER_LONG 0 mask) as [[i p] m] eqn:Hloop.
  destruct (wcid_alloc_loop_spec _ _ _ _ _ Hloop)
    as (_ & [(Hi & Hp & _) | (Hi & Hp & _)]);
    destruct (Z.gtb_spec (i * BITS_PER_LONG + p) 247); cbn [fst];
    split; intros; try reflexivity; try lia; nia.
Qed.

(** Whatever the bitmap, the result is -1 or an index in [0, 247]. *)
Lemma mt76_wcid_alloc_range (mask : list Z) :
  -1 <= fst (mt76_wcid_alloc BITS_PER_LONG mask) <= 247.
Proof.
  unfold mt76_wcid_alloc.
  destruct (wcid_alloc_loop BITS_PER_LONG 0 mask) as [[i p] m] eqn:Hloop.
  destruct (wcid_alloc_loop_spec _ _ _ _ _ Hloop)
    as (_ & [(Hi & Hp & _) | (Hi & Hp & _)]);
    destruct (Z.gtb_spec (i * BITS_PER_LONG + p) 247); cbn [fst]; nia.
Qed.

End Alloc.

(** *** Release ([mt76_sta_remove]) *)

Section Release.

Variable BITS_PER_LONG : Z.
Hypothesis long_has_int : 32 <= BITS_PER_LONG.

Local Abbreviation bit := (wcid_mask_bit BITS_PER_LONG).

Lemma wcid_mask_release_head (w : Z) (rest : list Z) (idx : Z) :
  0 <= idx < BITS_PER_LONG ->
  wcid_mask_release BITS_PER_LONG idx (w :: rest) =
  Z.land w (not_ulong BITS_PER_LONG (BIT idx)) :: rest.
Proof.
  intros H. unfold wcid_mask_release.
  rewrite Z.div_small, Z.mod_small by lia. reflexivity.
Qed.

Lemma wcid_mask_release_tail (w : Z) (rest : list Z) (idx : Z) :
  BITS_PER_LONG <= idx ->
  wcid_mask_release BITS_PER_LONG idx (w :: rest) =
  w :: wcid_mask_release BITS_PER_LONG (idx - BITS_PER_LONG) rest.
Proof.
  intros H. unfold wcid_mask_release.
  destruct (div_mod_shift BITS_PER_LONG long_has_int idx H) as (Hd & Hm & Hq).
  rewrite Hd, Hm, Z2Nat.inj_add by lia.
  rewrite Nat.add_comm. reflexivity.
Qed.

(** The release statement clears the bit of [idx] and no other; the index
    of a held station is inside the array. *)
Lemma wcid_release_in_range (mask : list Z) :
  forall idx, 0 <= idx < BITS_PER_LONG * Z.of_nat (length mask) ->
  length (wcid_mask_release BITS_PER_LONG idx mask) = length mask /\
  forall k, 0 <= k ->
    bit (wcid_mask_release BITS_PER_LONG idx mask) k
    = bit mask k && negb (k =? idx).
Proof.
  induction mask as [|w rest IH]; intros idx Hidx.
  - cbn in Hidx. lia.
  - cbn [length] in Hidx.
    destruct (Z.lt_ge_cases idx BITS_PER_LONG) as [Hlt|Hge].
    + rewrite wcid_mask_release_head by lia.
      split; [reflexivity|]. intros k Hk.
      destruct (Z.lt_ge_cases k BITS_PER_LONG) as [Hklt|Hkge].
      * rewrite !wcid_mask_bit_head by lia.
        apply land_not_BIT_testbit; lia.
      * rewrite !wcid_mask_bit_tail by lia.
        replace (k =? idx) with false by (symmetry; apply Z.eqb_neq; lia).
        symmetry. apply andb_true_r.
    + rewrite wcid_mask_release_tail by lia.
      destruct (IH (idx - BITS_PER_LONG) ltac:(lia)) as (Hlen & Hbits).
      split; [cbn [length]; congruence|]. intros k Hk.
      destruct (Z.lt_ge_cases k BITS_PER_LONG) as [Hklt|Hkge].
      * rewrite !wcid_mask_bit_head by lia.
        replace (k =? idx) with false by (symmetry; apply Z.eqb_neq; lia).
        symmetry. apply andb_true_r.
      * rewrite !wcid_mask_bit_tail by lia.
        rewrite Hbits by lia. f_equal. f_equal.
        destruct (Z.eqb_spec (k - BITS_PER_LONG) (idx - BITS_PER_LONG)),
                 (Z.eqb_spec k idx); try reflexivity; lia.
Qed.

End Release.

(** *** The table under sequences of operations *)

Lemma NoDup_remove_Z (x : Z) (l : list Z) :
  NoDup l -> NoDup (remove Z.eq_dec x l).
Proof.
  induction 1 as [|a l Hnotin Hnd IH]; cbn.
  - constructor.
  - destruct (Z.eq_dec x a); [assumption|].
    constructor; [|assumption].
    intros Hin. apply in_remove in Hin. tauto.
Qed.

Lemma wcid_mask_bit_repeat_0 (bits : Z) (n : nat) (k : Z) :
  wcid_mask_bit bits (repeat 0 n) k = false.
Proof.
  unfold wcid_mask_bit.
  replace (nth (Z.to_nat (k / bits)) (repeat 0 n) 0) with 0.
  - apply Z.testbit_0_l.
  - symmetry. generalize (Z.to_nat (k / bits)) as m.
    induction n as [|n IH]; intros [|m]; cbn; auto.
Qed.

Section Table.

Variable BITS_PER_LONG : Z.
Hypothesis long_has_int : 32 <= BITS_PER_LONG.

Lemma wcid_table_init_ok (nwords : nat) :
  248 <= BITS_PER_LONG * Z.of_nat nwords ->
  wcid_table_ok BITS_PER_LONG (wcid_table_init nwords).
Proof.
  intros Hsize. unfold wcid_table_ok, wcid_table_init; cbn [tbl_mask tbl_held].
  rewrite repeat_length.
  split; [assumption | split; [constructor | split]].
  - intros k [].
  - intros k Hk. rewrite wcid_mask_bit_repeat_0.
    split; [intros [] | discriminate].
Qed.

Lemma wcid_step_ok (t t' : wcid_table) (op : wcid_op) :
  wcid_table_ok BITS_PER_LONG t ->
  wcid_step BITS_PER_LONG t op = Some t' ->
  wcid_table_ok BITS_PER_LONG t'.
Proof.
  intros (Hsize & Hnd & Hrange & Hbits) Hstep.
  destruct op as [|idx]; cbn [wcid_step] in Hstep.
  - destruct (mt76_wcid_alloc BITS_PER_LONG (tbl_mask t)) as [r mask'] eqn:Ha.
    injection Hstep as <-.
    destruct (mt76_wcid_alloc_spec BITS_PER_LONG long_has_int _ _ _ Hsize Ha)
      as (Hlen & [(Hr & Hsame & _) | (Hr & Hclear & Hset & _)]).
    + subst r. cbn [Z.ltb Z.compare tbl_mask tbl_held].
      unfold wcid_table_ok; cbn [tbl_mask tbl_held].
      rewrite Hlen.
      split; [assumption | split; [assumption | split; [assumption|]]].
      intros k Hk. rewrite Hsame by assumption. apply Hbits; assumption.
    + replace (r <? 0) with false by (symmetry; apply Z.ltb_ge; lia).
      unfold wcid_table_ok; cbn [tbl_mask tbl_held].
      rewrite Hlen. split; [assumption | split; [|split]].
      * constructor; [|assumption]. intros Hin.
        apply Hbits in Hin; [congruence | assumption].
      * intros k [<-|Hin]; [assumption | apply Hrange; assumption].
      * intros k Hk. rewrite Hset by lia. rewrite orb_true_iff, Z.eqb_eq.
        rewrite <- (Hbits k Hk). cbn [In]. intuition congruence.
  - destruct (existsb (Z.eqb idx) (tbl_held t)) eqn:Hheld; [|discriminate].
    injection Hstep as <-.
    apply existsb_exists in Hheld. destruct Hheld as (x & Hin & Hx).
    apply Z.eqb_eq in Hx. subst x.
    pose proof (Hrange idx Hin) as Hidx.
    destruct (wcid_release_in_range BITS_PER_LONG long_has_int (tbl_mask t)
                idx ltac:(lia)) as (Hlen & Hclr).
    unfold wcid_table_ok; cbn [tbl_mask tbl_held].
    rewrite Hlen. split; [assumption | split; [|split]].
    + apply NoDup_remove_Z. assumption.
    + intros k Hk. apply in_remove in Hk. apply Hrange. tauto.
    + intros k Hk. rewrite Hclr by lia.
      rewrite andb_true_iff, negb_true_iff, Z.eqb_neq.
      rewrite <- (Hbits k Hk). split.
      * intros Hin'. apply in_remove in Hin'. tauto.
      * intros (Hin' & Hne). apply in_in_remove; assumption.
Qed.

Lemma wcid_run_ok (ops : list wcid_op) :
  forall t t', wcid_table_ok BITS_PER_LONG t ->
  wcid_run BITS_PER_LONG t ops = Some t' ->
  wcid_table_ok BITS_PER_LONG t'.
Proof.
  induction ops as [|op ops IH]; intros t t' Hok Hrun; cbn in Hrun.
  - injection Hrun as <-. assumption.
  - destruct (wcid_step BITS_PER_LONG t op) as [t1|] eqn:Hstep; [|discriminate].
    apply (IH t1); [|assumption].
    apply (wcid_step_ok t t1 op); assumption.
Qed.

(** X1.  What every sequence of allocate and release operations on an empty
    bitmap of at least 248 bits keeps: no index is held twice, the indices
    held lie in [0, 247], and among the positions [0 .. 247] the bits set are
    exactly the indices held.  (The storage bits above 247, the rest of the
    last word, are not part of the allocation bitmap.) *)
Theorem wcid_table_invariant (nwords : nat) (ops : list wcid_op)
    (t : wcid_table) :
  248 <= BITS_PER_LONG * Z.of_nat nwords ->
  wcid_run BITS_PER_LONG (wcid_table_init nwords) ops = Some t ->
  wcid_table_ok BITS_PER_LONG t.
Proof.
  intros Hsize Hrun.
  apply (wcid_run_ok ops (wcid_table_init nwords) t); [|assumption].
  apply wcid_table_init_ok. assumption.
Qed.

End Table.

(** C1.  The allocation bitmap has one bit per index 0 .. 247.  For every
    sequence of allocate and release operations on the empty table (any word
    size of at least 32 bits, bitmap storage of at least 248 bits), at the
    point the sequence reaches: every index that was returned and not yet
    released lies in [0, 247]; an index in 0 .. 247 is held exactly when its
    bit is set in the bitmap; and an allocate that reports EXHAUSTED (-1) at
    this point leaves every bit of the bitmap as it was and hands out no
    index. *)
Theorem wcid_table_bitmap_is_held_set (BITS_PER_LONG : Z) (nwords : nat)
    (ops : list wcid_op) (t : wcid_table) :
  32 <= BITS_PER_LONG ->
  248 <= BITS_PER_LONG * Z.of_nat nwords ->
  wcid_run BITS_PER_LONG (wcid_table_init nwords) ops = Some t ->
  (forall k, In k (tbl_held t) -> 0 <= k <= 247) /\
  (forall k, 0 <= k <= 247 ->
     (In k (tbl_held t) <->
      wcid_mask_bit BITS_PER_LONG (tbl_mask t) k = true)) /\
  (fst (mt76_wcid_alloc BITS_PER_LONG (tbl_mask t)) = -1 ->
   (forall k, 0 <= k <= 247 ->
      wcid_mask_bit BITS_PER_LONG
        (snd (mt76_wcid_alloc BITS_PER_LONG (tbl_mask t))) k
      = wcid_mask_bit BITS_PER_LONG (tbl_mask t) k) /\
   exists t', wcid_step BITS_PER_LONG t allocate = Some t' /\
              tbl_held t' = tbl_held t).
Proof.
  intros Hlong Hsize Hrun.
  assert (Hok : wcid_table_ok BITS_PER_LONG t).
  { apply (wcid_run_ok BITS_PER_LONG Hlong ops (wcid_table_init nwords) t);
      [|assumption].
    apply wcid_table_init_ok. assumption. }
  destruct Hok as (Hsz & _ & Hrange & Hbits).
  split; [assumption | split; [assumption|]].
  intros Hfail.
  cbn [wcid_step].
  destruct (mt76_wcid_alloc BITS_PER_LONG (tbl_mask t)) as [r m] eqn:Ha.
  cbn [fst snd] in *. subst r.
  destruct (mt76_wcid_alloc_spec BITS_PER_LONG Hlong _ _ _ Hsz Ha)
    as (_ & [(_ & Hsame & _) | (Hr & _)]); [|lia].
  split; [assumption|].
  eexists. split; reflexivity.
Qed.

(** The 32-bit table of 8 words after 248 allocations: index 247 is held
    and its bit is set, and the next allocate reports EXHAUSTED. *)
Lemma wcid_table_bitmap_is_held_set_witness :
  (In 247 (map Z.of_nat (rev (seq 0 248))) <->
   wcid_mask_bit 32 (mask32_first 248) 247 = true) /\
  (exists t',
     wcid_step 32 {| tbl_mask := mask32_first 248;
                     tbl_held := map Z.of_nat (rev (seq 0 248)) |} allocate
     = Some t' /\
     tbl_held t' = map Z.of_nat (rev (seq 0 248))).
Proof.
  pose proof (wcid_table_bitmap_is_held_set 32 8 (repeat allocate 248)
                {| tbl_mask := mask32_first 248;
                   tbl_held := map Z.of_nat (rev (seq 0 248)) |}
                ltac:(lia) ltac:(vm_compute; discriminate)
                ltac:(vm_compute; reflexivity)) as H.
  destruct H as (_ & Hbits & Hfail).
  split; [apply Hbits; lia |].
  apply Hfail. vm_compute. reflexivity.
Defined.

(** *** Lowest index first *)

Lemma first_clear_from_some (bits : Z) (mask : list Z) (n : nat) :
  forall k0 k, first_clear_from bits mask n k0 = Some k ->
  k0 <= k < k0 + Z.of_nat n /\
  wcid_mask_bit bits mask k = false /\
  forall j, k0 <= j < k -> wcid_mask_bit bits mask j = true.
Proof.
  induction n as [|n IH]; intros k0 k H; cbn [first_clear_from] in H.
  - discriminate.
  - destruct (wcid_mask_bit bits mask k0) eqn:Hb.
    + destruct (IH _ _ H) as (Hr & Hc & Hl).
      split; [lia | split; [assumption|]].
      intros j Hj. destruct (Z.eq_dec j k0) as [->|Hne]; [assumption|].
      apply Hl. lia.
    + injection H as <-. split; [lia | split; [assumption | intros; lia]].
Qed.

(** With 32-bit words [ffs] sees every bit of a word, and
    [mt76_wcid_alloc] is lowest-index-first: when the lowest clear bit of
    the bitmap is [k] and [k <= 247], it returns [k] and sets bit [k] and
    no other. *)
Theorem mt76_wcid_alloc_lowest_free_32 (mask : list Z) (k : Z) :
  lowest_free_index 32 mask = Some k ->
  k <= 247 ->
  fst (mt76_wcid_alloc 32 mask) = k /\
  forall j, 0 <= j ->
    wcid_mask_bit 32 (snd (mt76_wcid_alloc 32 mask)) j
    = wcid_mask_bit 32 mask j || (j =? k).
Proof.
  intros Hlow Hk. unfold lowest_free_index in Hlow.
  destruct (first_clear_from_some _ _ _ _ _ Hlow) as (Hr & Hclr & Hbelow).
  rewrite Z2Nat.id in Hr by lia.
  unfold mt76_wcid_alloc.
  destruct (wcid_alloc_loop 32 0 mask) as [[i p] m] eqn:Hloop.
  assert (Hmod : forall j, j mod 32 < 32)
    by (intros j; apply Z.mod_pos_bound; lia).
  destruct (wcid_alloc_loop_spec 32 ltac:(lia) _ _ _ _ _ Hloop)
    as (_ & [(_ & _ & _ & Hall) | (Hi & Hp & Hc & Hset & Hb)]).
  - rewrite Hall in Hclr by (auto; lia). discriminate.
  - replace (i - 0) with i in * by lia.
    assert (Heq : i * 32 + p = k).
    { destruct (Z.lt_trichotomy (i * 32 + p) k) as [Hlt|[Heq|Hgt]].
      - rewrite Hbelow in Hc by lia. discriminate.
      - assumption.
      - rewrite Hb in Hclr by (auto; lia). discriminate. }
    rewrite Heq in *.
    destruct (Z.gtb_spec k 247) as [Hgt|_]; [lia|].
    cbn [fst snd]. split; [reflexivity | assumption].
Qed.

(** A bitmap whose first 40 indices are taken. *)
Lemma mt76_wcid_alloc_lowest_free_32_witness :
  fst (mt76_wcid_alloc 32 [Z.ones 32; Z.ones 8; 0; 0; 0; 0; 0; 0]) = 40.
Proof.
  apply (mt76_wcid_alloc_lowest_free_32
           [Z.ones 32; Z.ones 8; 0; 0; 0; 0; 0; 0] 40).
  - vm_compute. reflexivity.
  - lia.
Defined.

(** C5, on a kernel with 64-bit longs.  After 32 allocations the first word
    holds [0xffffffff]: the lowest free index is 32.  [ffs] takes an [int],
    sees the low half of [~mask[0]], which is 0, and the loop goes on to the
    next word: the call returns 64 and index 32 stays free. *)
Theorem mt76_wcid_alloc_64bit_skips_index_32 :
  wcid_run 64 (wcid_table_init 4) (repeat allocate 32)
    = Some {| tbl_mask := [Z.ones 32; 0; 0; 0];
              tbl_held := map Z.of_nat (rev (seq 0 32)) |} /\
  lowest_free_index 64 [Z.ones 32; 0; 0; 0] = Some 32 /\
  mt76_wcid_alloc 64 [Z.ones 32; 0; 0; 0] = (64, [Z.ones 32; 1; 0; 0]).
Proof.
  repeat split; vm_compute; reflexivity.
Qed.

(** *** Exhaustion *)

(** The storage bits above 247 (the rest of the last word) are not part of
    the allocation bitmap.  On 32-bit longs with 8 words, after 248
    allocations the indices 0 .. 247 are held; the next [mt76_wcid_alloc]
    finds bit 24 of word 7 clear, sets it, computes index 248 and answers
    -1.  Only this out-of-range bit of the last word is written; the bits
    0 .. 247 stay as they were.  [mt76_sta_add] passes the failure on as
    [-ENOSPC]. *)
Theorem exhausted_alloc_sets_bit_248 :
  let full := {| tbl_mask := mask32_first 248;
                 tbl_held := map Z.of_nat (rev (seq 0 248)) |} in
  let after := {| tbl_mask := mask32_first 249;
                  tbl_held := map Z.of_nat (rev (seq 0 248)) |} in
  wcid_run 32 (wcid_table_init 8) (repeat allocate 248) = Some full /\
  mt76_wcid_alloc 32 (mask32_first 248) = (-1, mask32_first 249) /\
  wcid_step 32 full allocate = Some after /\
  mask32_first 249 <> mask32_first 248 /\
  wcid_mask_bit 32 (tbl_mask after) 248 = true /\
  forallb (fun k => Bool.eqb (wcid_mask_bit 32 (tbl_mask after) k)
                             (wcid_mask_bit 32 (tbl_mask full) k))
          (map Z.of_nat (seq 0 248)) = true /\
  existsb (Z.eqb 248) (tbl_held after) = false /\
  (let d := {| macaddr := [0; 12; 67; 38; 96; 0]; state := 0;
               wcid_mask := mask32_first 248 |} in
   let r := mt76_sta_add 32 (vif_with_key 0 (-1)) [2; 0; 0; 0; 0; 1]
              (sta_with_key 0 0) d in
   fst (result r) = - ENOSPC /\
   wcid_mask (dev_after r) = mask32_first 249).
Proof.
  cbv zeta. repeat split; try (vm_compute; reflexivity).
  vm_compute. discriminate.
Qed.

(** On 64-bit longs the lowest-index-first statement fails. *)
Lemma alloc_64bit_not_lowest_free : ~ alloc_returns_lowest_free 64.
Proof.
  intros H.
  specialize (H [Z.ones 32; 0; 0; 0] 32 ltac:(vm_compute; reflexivity)
                ltac:(lia)).
  vm_compute in H. discriminate H.
Qed.

(** On 32-bit longs it holds for every bitmap. *)
Lemma alloc_32bit_lowest_free : alloc_returns_lowest_free 32.
Proof.
  intros mask k Hlow Hk.
  exact (proj1 (mt76_wcid_alloc_lowest_free_32 mask k Hlow Hk)).
Qed.

(** After the failed allocation, a release followed by an allocation hands
    the released index out again: the out-of-range bits only shorten the
    scan. *)
Lemma release_then_alloc_after_exhaustion :
  fst (mt76_wcid_alloc 32 (wcid_mask_release 32 100 (mask32_first 249)))
  = 100.
Proof. vm_compute. reflexivity. Qed.

(** *** The station callbacks use the bitmap through these two operations *)

Lemma mt76_sta_add_bitmap (bits : Z) (mvif : mt76_vif) (a : list Z)
    (msta : mt76_sta) (d : mt76_dev) :
  let r := mt76_sta_add bits mvif a msta d in
  let idx := fst (mt76_wcid_alloc bits (wcid_mask d)) in
  wcid_mask (dev_after r) = snd (mt76_wcid_alloc bits (wcid_mask d)) /\
  (idx < 0 -> result r = (- ENOSPC, msta)) /\
  (0 <= idx ->
   result r = (0, {| wcid := {| wcid_idx := idx; hw_key_idx := -1 |} |})).
Proof.
  unfold mt76_sta_add, mt76_wcid_alloc_dev, bind, get, put, emit, ret,
    result, dev_after.
  destruct (mt76_wcid_alloc bits (wcid_mask d)) as [idx m]. cbn [fst snd].
  destruct (Z.ltb_spec idx 0); cbn [fst snd];
    (split; [reflexivity | split; intros; [try reflexivity; lia|]]).
  - lia.
  - set (l := for_each _ _ _). destruct l as [[u d1] t1] eqn:El.
    reflexivity.
Qed.

Lemma mt76_sta_remove_bitmap (bits : Z) (msta : mt76_sta) (d : mt76_dev) :
  let r := mt76_sta_remove bits msta d in
  result r = 0 /\
  wcid_mask (dev_after r)
    = wcid_mask_release bits (wcid_idx (wcid msta)) (wcid_mask d).
Proof.
  split; reflexivity.
Qed.

(** ** Group slots and the allocator's range *)

(** Whatever the word size and the bitmap, [mt76_wcid_alloc] returns nothing
    above 247. *)
Lemma mt76_wcid_alloc_le_247 (bits : Z) (mask : list Z) :
  fst (mt76_wcid_alloc bits mask) <= 247.
Proof.
  unfold mt76_wcid_alloc.
  destruct (wcid_alloc_loop bits 0 mask) as [[i p] m].
  destruct (Z.gtb_spec (i * bits + p) 247); cbn [fst]; lia.
Qed.

(** C4, as stated, fails.  A station interface with a universally
    administered address has interface index 8 and group slot 246, an index
    [mt76_wcid_alloc] hands out once 0 .. 245 are taken (32-bit longs).  Two
    access point interfaces with the addresses 02:... and 22:... both get
    interface index 1 and group slot 253. *)
Lemma group_wcid_idx_collides :
  let d := dev0 8 in
  let sta_if := {| addr := [0; 12; 67; 38; 96; 0];
                   type := NL80211_IFTYPE_STATION |} in
  let ap_a := {| addr := [2; 12; 67; 38; 96; 0];
                 type := NL80211_IFTYPE_AP |} in
  let ap_b := {| addr := [34; 12; 67; 38; 96; 0];
                 type := NL80211_IFTYPE_AP |} in
  wcid_idx (group_wcid (snd (result (mt76_add_interface sta_if d)))) = 246 /\
  wcid_run 32 (wcid_table_init 8) (repeat allocate 246)
    = Some {| tbl_mask := mask32_first 246;
              tbl_held := map Z.of_nat (rev (seq 0 246)) |} /\
  fst (mt76_wcid_alloc 32 (mask32_first 246)) = 246 /\
  addr ap_a <> addr ap_b /\
  wcid_idx (group_wcid (snd (result (mt76_add_interface ap_a d)))) = 253 /\
  wcid_idx (group_wcid (snd (result (mt76_add_interface ap_b d)))) = 253 /\
  ~ group_wcid_idx_never_collides.
Proof.
  cbv zeta.
  split; [vm_compute; reflexivity | split; [vm_compute; reflexivity |
    split; [vm_compute; reflexivity | split; [cbn; discriminate |
    split; [vm_compute; reflexivity | split; [vm_compute; reflexivity|]]]]]].
  intros H.
  destruct (H (dev0 8) {| addr := [0; 12; 67; 38; 96; 0];
                          type := NL80211_IFTYPE_STATION |})
    as (_ & Halloc & _).
  apply (Halloc 32 (mask32_first 246)). vm_compute. reflexivity.
Qed.

(** C4 (as the code has it).  The group slot of an interface has index
    254 minus the interface index.  The interface index lies in [0, 16], so
    the group index lies in [238, 254].  For an interface index of at most 6
    the group index is above 247 and differs from everything
    [mt76_wcid_alloc] returns.  Interfaces with different interface indices
    have different group indices. *)
Theorem group_wcid_idx_of_interface (d : mt76_dev) (vif : ieee80211_vif) :
  let mvif := snd (result (mt76_add_interface vif d)) in
  let g := wcid_idx (group_wcid mvif) in
  g = 254 - vif_idx mvif /\
  0 <= vif_idx mvif <= 16 /\
  238 <= g <= 254 /\
  (vif_idx mvif <= 6 ->
   forall bits mask, fst (mt76_wcid_alloc bits mask) <> g) /\
  (forall d' vif',
     let mvif' := snd (result (mt76_add_interface vif' d')) in
     vif_idx mvif' <> vif_idx mvif ->
     wcid_idx (group_wcid mvif') <> g).
Proof.
  cbv zeta. rewrite mt76_add_interface_result.
  cbn [result fst snd vif_idx group_wcid wcid_idx].
  pose proof (derived_vif_idx_range (nth 0 (macaddr d) 0)
                (nth 0 (addr vif) 0) (type vif)) as Hr.
  split; [reflexivity | split; [assumption | split; [lia | split]]].
  - intros Hlow bits mask.
    pose proof (mt76_wcid_alloc_le_247 bits mask). lia.
  - intros d' vif'. rewrite mt76_add_interface_result.
    cbn [result fst snd vif_idx group_wcid wcid_idx]. lia.
Qed.

(** An access point interface on the device's own address (index 0, group
    slot 254) against the allocator on a full 32-bit bitmap and against a
    station interface (index 8). *)
Lemma group_wcid_idx_of_interface_witness :
  let ap := {| addr := [0; 12; 67; 38; 96; 0]; type := NL80211_IFTYPE_AP |} in
  let sta_if := {| addr := [0; 12; 67; 38; 96; 0];
                   type := NL80211_IFTYPE_STATION |} in
  fst (mt76_wcid_alloc 32 (mask32_first 247))
    <> wcid_idx (group_wcid (snd (result (mt76_add_interface ap (dev0 8)))))
  /\
  wcid_idx (group_wcid (snd (result (mt76_add_interface sta_if (dev0 8)))))
    <> wcid_idx (group_wcid (snd (result (mt76_add_interface ap (dev0 8))))).
Proof.
  split.
  - apply (group_wcid_idx_of_interface (dev0 8)
             {| addr := [0; 12; 67; 38; 96; 0]; type := NL80211_IFTYPE_AP |}).
    vm_compute. discriminate.
  - pose proof (group_wcid_idx_of_interface (dev0 8)
                  {| addr := [0; 12; 67; 38; 96; 0];
                     type := NL80211_IFTYPE_AP |}) as H.
    cbv zeta in H. destruct H as (_ & _ & _ & _ & H).
    apply (H (dev0 8) {| addr := [0; 12; 67; 38; 96; 0];
                         type := NL80211_IFTYPE_STATION |}).
    vm_compute. discriminate.
Defined.

(** * Further properties of the code *)

(** ** The allocator and the station callbacks *)

(** Two allocations, a release of the first index and another allocation
    on the 32-bit bitmap of 8 words. *)
Lemma wcid_table_invariant_witness :
  wcid_table_ok 32 {| tbl_mask := [3; 0; 0; 0; 0; 0; 0; 0];
                      tbl_held := [0; 1] |}.
Proof.
  apply (wcid_table_invariant 32 ltac:(lia) 8
           [allocate; allocate; release 0; allocate]).
  - vm_compute. discriminate.
  - vm_compute. reflexivity.
Defined.

Section AllocMore.

Variable BITS_PER_LONG : Z.
Hypothesis long_has_int : 32 <= BITS_PER_LONG.

Local Abbreviation bit := (wcid_mask_bit BITS_PER_LONG).

(** X2.  On a bitmap that covers the indices 0 .. 247, [mt76_wcid_alloc]
    returns -1 or an index in [0, 247].  An index it returns was free
    before the call and is taken after it, and no other bit of the bitmap
    changes; when it returns -1 no bit at 0 .. 247 changes.  The number of
    words stays the same. *)
Theorem mt76_wcid_alloc_fresh_index (mask : list Z) :
  248 <= BITS_PER_LONG * Z.of_nat (length mask) ->
  let r := fst (mt76_wcid_alloc BITS_PER_LONG mask) in
  let mask' := snd (mt76_wcid_alloc BITS_PER_LONG mask) in
  length mask' = length mask /\
  (r = -1 \/ 0 <= r <= 247) /\
  (0 <= r ->
   bit mask r = false /\ bit mask' r = true /\
   forall k, 0 <= k -> k <> r -> bit mask' k = bit mask k) /\
  (r = -1 -> forall k, 0 <= k <= 247 -> bit mask' k = bit mask k).
Proof.
  intros Hsize r mask'. subst r mask'.
  destruct (mt76_wcid_alloc BITS_PER_LONG mask) as [r mask'] eqn:Ha.
  cbn [fst snd].
  destruct (mt76_wcid_alloc_spec BITS_PER_LONG long_has_int _ _ _ Hsize Ha)
    as (Hlen & [(Hr & Hsame & _) | (Hr & Hclear & Hset & _)]).
  - split; [assumption | split; [left; assumption | split]].
    + intros Hpos. lia.
    + intros _. assumption.
  - split; [assumption | split; [right; assumption | split]].
    + intros _. split; [assumption | split].
      * rewrite Hset by lia. rewrite Z.eqb_refl. apply orb_true_r.
      * intros k Hk Hne. rewrite Hset by assumption.
        replace (k =? r) with false by (symmetry; apply Z.eqb_neq; assumption).
        apply orb_false_r.
    + intros Hneg. lia.
Qed.

(** X3.  When every index 0 .. 247 is taken, [mt76_sta_add] fails with
    [-ENOSPC]: it takes and releases the mutex and makes no other call (no
    hardware setup, no queue, nothing published), it leaves the station
    record as it was and no bit at 0 .. 247 of the bitmap changes.
    Conversely, when it fails, every index 0 .. 247 that [ffs] can see
    (position below 32 in its word) is taken. *)
Theorem mt76_sta_add_exhausted (mvif : mt76_vif) (a : list Z)
    (msta : mt76_sta) (d : mt76_dev) :
  248 <= BITS_PER_LONG * Z.of_nat (length (wcid_mask d)) ->
  let r := mt76_sta_add BITS_PER_LONG mvif a msta d in
  ((forall k, 0 <= k <= 247 -> bit (wcid_mask d) k = true) ->
   result r = (- ENOSPC, msta) /\
   calls r = [mutex_lock; mutex_unlock] /\
   forall k, 0 <= k <= 247 ->
     bit (wcid_mask (dev_after r)) k = bit (wcid_mask d) k) /\
  (fst (result r) <> 0 ->
   forall k, 0 <= k <= 247 -> k mod BITS_PER_LONG < 32 ->
     bit (wcid_mask d) k = true).
Proof.
  intros Hsize r. subst r.
  unfold mt76_sta_add, mt76_wcid_alloc_dev, bind, get, put, emit, ret,
    result, dev_after, calls.
  destruct (mt76_wcid_alloc BITS_PER_LONG (wcid_mask d)) as [idx m] eqn:Ha.
  destruct (mt76_wcid_alloc_spec BITS_PER_LONG long_has_int _ _ _ Hsize Ha)
    as (Hlen & [(Hr & Hsame & Hfull) | (Hr & Hclear & Hset & _)]).
  - subst idx. cbn [Z.ltb Z.compare fst snd app wcid_mask set_wcid_mask].
    split.
    + intros _. split; [reflexivity | split; [reflexivity | assumption]].
    + intros _. assumption.
  - replace (idx <? 0) with false by (symmetry; apply Z.ltb_ge; lia).
    split.
    + intros Hall. rewrite Hall in Hclear by assumption. discriminate.
    + set (l := for_each _ _ _). destruct l as [[u d1] t1].
      cbn [fst snd]. intros Hne. contradiction.
Qed.

(** X4.  A station that [mt76_sta_add] accepted and that is removed again
    with [mt76_sta_remove] leaves every bit of the bitmap as it was before
    the two calls: the station's index is free again and no other index is
    touched.  In between, exactly the station's bit is set in addition. *)
Theorem mt76_sta_add_remove_roundtrip (mvif : mt76_vif) (a : list Z)
    (msta : mt76_sta) (d : mt76_dev) :
  248 <= BITS_PER_LONG * Z.of_nat (length (wcid_mask d)) ->
  let r1 := mt76_sta_add BITS_PER_LONG mvif a msta d in
  let msta1 := snd (result r1) in
  let r2 := mt76_sta_remove BITS_PER_LONG msta1 (dev_after r1) in
  fst (result r1) = 0 ->
  0 <= wcid_idx (wcid msta1) <= 247 /\
  hw_key_idx (wcid msta1) = -1 /\
  bit (wcid_mask d) (wcid_idx (wcid msta1)) = false /\
  bit (wcid_mask (dev_after r1)) (wcid_idx (wcid msta1)) = true /\
  forall k, 0 <= k ->
    bit (wcid_mask (dev_after r2)) k = bit (wcid_mask d) k.
Proof.
  intros Hsize r1 msta1 r2 Hok.
  pose proof (mt76_sta_add_bitmap BITS_PER_LONG mvif a msta d) as Hadd.
  cbv zeta in Hadd. fold r1 in Hadd. destruct Hadd as (Hmask & Hfail & Hgood).
  destruct (mt76_wcid_alloc BITS_PER_LONG (wcid_mask d)) as [idx m] eqn:Ha.
  cbn [fst snd] in *.
  destruct (mt76_wcid_alloc_spec BITS_PER_LONG long_has_int _ _ _ Hsize Ha)
    as (Hlen & [(Hr & _) | (Hr & Hclear & Hset & _)]).
  - rewrite Hfail in Hok by lia. cbn in Hok. discriminate.
  - assert (Hm1 : msta1 = {| wcid := {| wcid_idx := idx;
                                        hw_key_idx := -1 |} |}).
    { unfold msta1. rewrite Hgood by lia. reflexivity. }
    rewrite Hm1. cbn [wcid wcid_idx hw_key_idx].
    split; [assumption | split; [reflexivity | split; [assumption | split]]].
    + rewrite Hmask, Hset by lia. rewrite Z.eqb_refl. apply orb_true_r.
    + intros k Hk.
      pose proof (mt76_sta_remove_bitmap BITS_PER_LONG msta1 (dev_after r1))
        as Hrem.
      cbv zeta in Hrem. fold r2 in Hrem. destruct Hrem as (_ & Hrem).
      rewrite Hrem, Hmask, Hm1. cbn [wcid wcid_idx].
      destruct (wcid_release_in_range BITS_PER_LONG long_has_int m idx
                  ltac:(lia)) as (_ & Hclr).
      rewrite Hclr, Hset by assumption.
      destruct (Z.eqb_spec k idx) as [->|Hne]; cbn [negb].
      * rewrite Hclear. reflexivity.
      * rewrite orb_false_r, andb_true_r. reflexivity.
Qed.

(** X5.  [mt76_wcid_alloc] hands out only positions below 32 of a word:
    a returned index [r] has [r % BITS_PER_LONG < 32].  With 64-bit longs
    the indices 32 .. 63, 96 .. 127, 160 .. 191 and 224 .. 247 are never
    returned, whatever the bitmap holds. *)
Theorem mt76_wcid_alloc_low_half_only (mask : list Z) :
  let r := fst (mt76_wcid_alloc BITS_PER_LONG mask) in
  0 <= r -> r mod BITS_PER_LONG < 32.
Proof.
  intros r. subst r. unfold mt76_wcid_alloc.
  destruct (wcid_alloc_loop BITS_PER_LONG 0 mask) as [[i p] m] eqn:Hloop.
  destruct (wcid_alloc_loop_spec BITS_PER_LONG long_has_int _ _ _ _ _ Hloop)
    as (_ & [(Hi & Hp & _) | (Hi & Hp & _)]);
    destruct (Z.gtb_spec (i * BITS_PER_LONG + p) 247); cbn [fst];
    intros Hr; try lia.
  - subst p. rewrite Z.add_0_r, Z.mod_mul by lia. lia.
  - rewrite Z.add_comm, Z.mod_add by lia. rewrite Z.mod_small by lia. lia.
Qed.

End AllocMore.

(** X6.  With 32-bit longs, the allocation that follows the release of an
    index [idx] never fails and never returns an index above [idx]; when
    all lower indices are taken it returns [idx] itself, so a station that
    is removed from a full table frees the slot the next station gets. *)
Theorem wcid_release_then_alloc_32 (mask : list Z) (idx : Z) :
  0 <= idx <= 247 ->
  idx < 32 * Z.of_nat (length mask) ->
  let r := fst (mt76_wcid_alloc 32 (wcid_mask_release 32 idx mask)) in
  0 <= r <= idx /\
  ((forall j, 0 <= j < idx -> wcid_mask_bit 32 mask j = true) -> r = idx).
Proof.
  intros Hidx Hlen r. subst r.
  destruct (wcid_release_in_range 32 ltac:(lia) mask idx ltac:(lia))
    as (Hl & Hclr).
  set (m := wcid_mask_release 32 idx mask) in *.
  assert (Hfree : wcid_mask_bit 32 m idx = false).
  { rewrite Hclr by lia. rewrite Z.eqb_refl. apply andb_false_r. }
  assert (Hmod : forall j, j mod 32 < 32)
    by (intros j; apply Z.mod_pos_bound; lia).
  unfold mt76_wcid_alloc.
  destruct (wcid_alloc_loop 32 0 m) as [[i p] m'] eqn:Hloop.
  destruct (wcid_alloc_loop_spec 32 ltac:(lia) _ _ _ _ _ Hloop)
    as (_ & [(_ & _ & _ & Hall) | (Hi & Hp & Hc & _ & Hbelow)]).
  - rewrite Hall in Hfree by (auto; lia). discriminate.
  - replace (i - 0) with i in * by lia.
    assert (Hle : i * 32 + p <= idx).
    { destruct (Z.le_gt_cases (i * 32 + p) idx) as [H|H]; [assumption|].
      rewrite Hbelow in Hfree by (auto; lia). discriminate. }
    destruct (Z.gtb_spec (i * 32 + p) 247) as [Hgt|_]; [lia|].
    cbn [fst]. split; [lia|].
    intros Hlow.
    destruct (Z.eq_dec (i * 32 + p) idx) as [Heq|Hne]; [assumption|].
    rewrite Hclr in Hc by lia.
    rewrite Hlow in Hc by lia.
    replace (i * 32 + p =? idx) with false in Hc
      by (symmetry; apply Z.eqb_neq; assumption).
    discriminate.
Qed.

(** In the 32-bit table with 0 .. 247 taken every bit at 0 .. 247 is
    set. *)
Lemma mask32_first_248_full (k : Z) :
  0 <= k <= 247 -> wcid_mask_bit 32 (mask32_first 248) k = true.
Proof.
  intros Hk. unfold wcid_mask_bit.
  assert (Hq : 0 <= k / 32 < 8).
  { split; [apply Z.div_pos; lia | apply Z.div_lt_upper_bound; lia]. }
  pose proof (Z.mod_pos_bound k 32 ltac:(lia)) as Hm.
  pose proof (Z.div_mod k 32 ltac:(lia)) as Hdm.
  assert (Hc : k / 32 = 0 \/ k / 32 = 1 \/ k / 32 = 2 \/ k / 32 = 3 \/
               k / 32 = 4 \/ k / 32 = 5 \/ k / 32 = 6 \/ k / 32 = 7) by lia.
  destruct Hc as [H|[H|[H|[H|[H|[H|[H|H]]]]]]]; rewrite H in *;
    match goal with
    | |- context [nth ?a ?b ?c] =>
        let v := eval vm_compute in (nth a b c) in
        change (nth a b c) with v
    end;
    try change 4294967295 with (Z.ones 32);
    try change 16777215 with (Z.ones 24);
    rewrite Z.testbit_ones_nonneg by lia; apply Z.ltb_lt; lia.
Qed.

(** Index 100 is released from the full 32-bit table. *)
Lemma wcid_release_then_alloc_32_witness :
  fst (mt76_wcid_alloc 32 (wcid_mask_release 32 100 (mask32_first 248)))
  = 100.
Proof.
  apply (wcid_release_then_alloc_32 (mask32_first 248) 100);
    [lia | vm_compute; reflexivity |].
  intros j Hj. apply mask32_first_248_full. lia.
Defined.

(** The 32-bit table of 8 words: empty, with 0 .. 247 taken, and after 32
    allocations on 64-bit longs. *)
Lemma mt76_wcid_alloc_fresh_index_witness :
  wcid_mask_bit 32 (repeat 0 8) (fst (mt76_wcid_alloc 32 (repeat 0 8)))
  = false.
Proof.
  apply (mt76_wcid_alloc_fresh_index 32 ltac:(lia) (repeat 0 8)).
  - vm_compute. discriminate.
  - vm_compute. discriminate.
Defined.

Lemma mt76_sta_add_exhausted_witness :
  let r := mt76_sta_add 32 (vif_with_key 0 (-1)) [2; 0; 0; 0; 0; 1]
             (sta_with_key 0 0)
             {| macaddr := [0; 12; 67; 38; 96; 0]; state := 0;
                wcid_mask := mask32_first 248 |} in
  result r = (- ENOSPC, sta_with_key 0 0) /\
  calls r = [mutex_lock; mutex_unlock].
Proof.
  pose proof (mt76_sta_add_exhausted 32 ltac:(lia) (vif_with_key 0 (-1))
                [2; 0; 0; 0; 0; 1] (sta_with_key 0 0)
                {| macaddr := [0; 12; 67; 38; 96; 0]; state := 0;
                   wcid_mask := mask32_first 248 |}
                ltac:(vm_compute; discriminate)) as H.
  cbv zeta in H. destruct H as (H & _).
  destruct (H mask32_first_248_full) as (Hres & Hcalls & _).
  split; assumption.
Defined.

Lemma mt76_sta_add_remove_roundtrip_witness :
  let r1 := mt76_sta_add 32 (vif_with_key 0 (-1)) [2; 0; 0; 0; 0; 1]
              (sta_with_key 0 0) (dev0 8) in
  let r2 := mt76_sta_remove 32 (snd (result r1)) (dev_after r1) in
  wcid_mask_bit 32 (wcid_mask (dev_after r1)) (wcid_idx (wcid (snd (result r1))))
    = true /\
  wcid_mask_bit 32 (wcid_mask (dev_after r2)) 0
    = wcid_mask_bit 32 (wcid_mask (dev0 8)) 0.
Proof.
  pose proof (mt76_sta_add_remove_roundtrip 32 ltac:(lia)
                (vif_with_key 0 (-1)) [2; 0; 0; 0; 0; 1] (sta_with_key 0 0)
                (dev0 8) ltac:(vm_compute; discriminate)) as H.
  cbv zeta in H.
  destruct (H ltac:(vm_compute; reflexivity)) as (_ & _ & _ & Hset & Hall).
  split; [exact Hset | exact (Hall 0 ltac:(lia))].
Defined.

Lemma mt76_wcid_alloc_low_half_only_witness :
  fst (mt76_wcid_alloc 64 [Z.ones 32; 0; 0; 0]) mod 64 < 32.
Proof.
  apply (mt76_wcid_alloc_low_half_only 64 ltac:(lia) [Z.ones 32; 0; 0; 0]).
  vm_compute. discriminate.
Defined.

(** ** Start, stop, scan and the receive gate *)

(** Other flags of a word are not changed by [set_bit] and [clear_bit]. *)
Lemma set_bit_testbit (nr flags j : Z) :
  0 <= nr ->
  test_bit j (set_bit nr flags) = test_bit j flags || (j =? nr).
Proof.
  intros Hnr. unfold test_bit, set_bit.
  destruct (Z.ltb_spec j 0) as [Hneg|Hpos].
  - rewrite !Z.testbit_neg_r by assumption.
    symmetry. apply Z.eqb_neq. lia.
  - apply lor_BIT_testbit; assumption.
Qed.

Lemma clear_bit_testbit (nr flags j : Z) :
  0 <= nr ->
  test_bit j (clear_bit nr flags) = test_bit j flags && negb (j =? nr).
Proof.
  intros Hnr. unfold test_bit, clear_bit, BIT.
  destruct (Z.ltb_spec j 0) as [Hneg|Hpos].
  - rewrite !Z.testbit_neg_r by assumption. reflexivity.
  - rewrite Z.ldiff_spec, Z.shiftl_spec by assumption. f_equal.
    destruct (Z.eqb_spec j nr) as [->|Hne].
    + replace (nr - nr) with 0 by lia. reflexivity.
    + f_equal. destruct (Z.ltb_spec (j - nr) 0).
      * apply Z.testbit_neg_r. assumption.
      * apply (Z.bits_above_log2 1 (j - nr)); cbn; lia.
Qed.

Lemma clear_set_bit (nr flags : Z) :
  0 <= nr -> test_bit nr flags = false ->
  clear_bit nr (set_bit nr flags) = flags.
Proof.
  intros Hnr Hclear. apply Z.bits_inj'. intros j Hj.
  fold (test_bit j (clear_bit nr (set_bit nr flags))).
  fold (test_bit j flags).
  rewrite clear_bit_testbit, set_bit_testbit by assumption.
  destruct (Z.eqb_spec j nr) as [->|Hne]; cbn [negb].
  - rewrite Hclear. reflexivity.
  - rewrite orb_false_r, andb_true_r. reflexivity.
Qed.

(** The one call [mt76_rx] makes. *)
Lemma mt76_rx_calls (nr : Z) (skb : sk_buff) (d : mt76_dev) :
  calls (mt76_rx nr skb d) =
  if test_bit nr (state d) then [ieee80211_rx skb] else [dev_kfree_skb skb].
Proof.
  unfold mt76_rx, bind, get, emit, calls. cbn [fst snd app].
  destruct (test_bit nr (state d)); reflexivity.
Qed.

(** X7.  [mt76_start] returns 0 exactly when both bring-up steps answer 0.
    Then it has scheduled the calibration work and enabled NAPI before it
    sets the RUNNING flag, and it changes no other flag.  When the MAC
    bring-up fails the PHY is not started; when either step fails the error
    is returned, the device is as before (not RUNNING unless it was) and the
    mutex is released. *)
Theorem mt76_start_outcomes (nr : Z) (hw : hw_results) (d : mt76_dev) :
  0 <= nr ->
  let r := mt76_start nr hw d in
  (result r = 0 <-> mac_start_ret hw = 0 /\ phy_start_ret hw = 0) /\
  (result r = 0 ->
   calls r = [mutex_lock; mt76_mac_start; mt76_phy_start;
              ieee80211_queue_delayed_work; napi_enable; mutex_unlock] /\
   test_bit nr (state (dev_after r)) = true /\
   forall j, j <> nr ->
     test_bit j (state (dev_after r)) = test_bit j (state d)) /\
  (mac_start_ret hw <> 0 ->
   result r = mac_start_ret hw /\
   calls r = [mutex_lock; mt76_mac_start; mutex_unlock] /\
   dev_after r = d) /\
  (mac_start_ret hw = 0 -> phy_start_ret hw <> 0 ->
   result r = phy_start_ret hw /\
   calls r = [mutex_lock; mt76_mac_start; mt76_phy_start; mutex_unlock] /\
   dev_after r = d).
Proof.
  intros Hnr r. subst r.
  unfold mt76_start, bind, ask, emit, get, put, ret, result, dev_after, calls.
  cbn [fst snd app].
  destruct (Z.eqb_spec (mac_start_ret hw) 0) as [E1|E1]; cbn [negb fst snd app].
  - destruct (Z.eqb_spec (phy_start_ret hw) 0) as [E2|E2];
      cbn [negb fst snd app state set_state].
    + split; [tauto | split; [|split; [tauto | tauto]]].
      intros _. split; [reflexivity | split].
      * rewrite set_bit_testbit by assumption.
        rewrite Z.eqb_refl. apply orb_true_r.
      * intros j Hj. rewrite set_bit_testbit by assumption.
        replace (j =? nr) with false by (symmetry; apply Z.eqb_neq; assumption).
        apply orb_false_r.
    + split; [tauto | split; [tauto | split; [tauto|]]].
      intros _ _. repeat split.
  - split; [tauto | split; [tauto | split; [|tauto]]].
    intros _. repeat split.
Qed.

Lemma mt76_start_outcomes_witness :
  result (mt76_start 1 hw_ok (dev0 8)) = 0 /\
  test_bit 1 (state (dev_after (mt76_start 1 hw_ok (dev0 8)))) = true.
Proof.
  pose proof (mt76_start_outcomes 1 hw_ok (dev0 8) ltac:(lia)) as H.
  cbv zeta in H. destruct H as (Hiff & Hok & _).
  assert (H0 : result (mt76_start 1 hw_ok (dev0 8)) = 0).
  { apply Hiff. split; reflexivity. }
  split; [exact H0 | exact (proj1 (proj2 (Hok H0)))].
Defined.

(** X8.  The receive gate follows start and stop: after [mt76_stop] a frame
    is freed and not delivered; after a [mt76_start] that returned 0 it is
    delivered; after a [mt76_start] that failed, [mt76_rx] does what it did
    before the attempt. *)
Theorem mt76_rx_follows_start_stop (nr : Z) (hw : hw_results)
    (d : mt76_dev) (skb : sk_buff) :
  0 <= nr ->
  calls (mt76_rx nr skb (dev_after (mt76_stop nr d))) = [dev_kfree_skb skb] /\
  (result (mt76_start nr hw d) = 0 ->
   calls (mt76_rx nr skb (dev_after (mt76_start nr hw d)))
   = [ieee80211_rx skb]) /\
  (result (mt76_start nr hw d) <> 0 ->
   calls (mt76_rx nr skb (dev_after (mt76_start nr hw d)))
   = calls (mt76_rx nr skb d)).
Proof.
  intros Hnr. rewrite !mt76_rx_calls.
  pose proof (mt76_start_sets_running nr hw d Hnr) as Hs. cbv zeta in Hs.
  destruct Hs as (Hok & Hfail).
  split; [|split].
  - rewrite mt76_stop_clears_running by assumption. reflexivity.
  - intros H0. rewrite (Hok H0). reflexivity.
  - intros H0. rewrite (Hfail H0). reflexivity.
Qed.

Lemma mt76_rx_follows_start_stop_witness :
  calls (mt76_rx 1 7 (dev_after (mt76_stop 1 (dev0 8)))) = [dev_kfree_skb 7]
  /\
  calls (mt76_rx 1 7 (dev_after (mt76_start 1 hw_ok (dev0 8))))
  = [ieee80211_rx 7].
Proof.
  pose proof (mt76_rx_follows_start_stop 1 hw_ok (dev0 8) 7 ltac:(lia)) as H.
  destruct H as (Hstop & Hok & _).
  split; [exact Hstop | apply Hok; reflexivity].
Defined.

(** X9.  A software scan sets the SCANNING flag and nothing else of the
    flag word, so frames are delivered or dropped during a scan as before
    it.  [mt76_sw_scan] followed by [mt76_sw_scan_complete] disables and
    enables the tasklet once each, leaves SCANNING clear and, when SCANNING
    was clear before, leaves the device exactly as it was. *)
Theorem mt76_sw_scan_round_trip (scanning running : Z) (d : mt76_dev)
    (skb : sk_buff) :
  0 <= scanning -> 0 <= running -> scanning <> running ->
  let r1 := mt76_sw_scan scanning d in
  let r2 := then_ (mt76_sw_scan scanning) (mt76_sw_scan_complete scanning) d in
  test_bit scanning (state (dev_after r1)) = true /\
  calls (mt76_rx running skb (dev_after r1)) = calls (mt76_rx running skb d)
  /\
  calls r2 = [tasklet_disable; tasklet_enable] /\
  test_bit scanning (state (dev_after r2)) = false /\
  (test_bit scanning (state d) = false -> dev_after r2 = d).
Proof.
  intros Hs Hr Hne r1 r2. subst r1 r2.
  rewrite !mt76_rx_calls.
  unfold then_, mt76_sw_scan, mt76_sw_scan_complete, bind, emit, get, put,
    dev_after, calls.
  cbn [fst snd app state set_state].
  split; [|split; [|split; [|split]]].
  - rewrite set_bit_testbit by assumption.
    rewrite Z.eqb_refl. apply orb_true_r.
  - rewrite set_bit_testbit by assumption.
    replace (running =? scanning) with false
      by (symmetry; apply Z.eqb_neq; lia).
    rewrite orb_false_r. reflexivity.
  - reflexivity.
  - rewrite clear_bit_testbit by assumption.
    rewrite Z.eqb_refl. apply andb_false_r.
  - intros Hclear. unfold set_state. cbn [macaddr state wcid_mask].
    rewrite clear_set_bit by assumption. destruct d; reflexivity.
Qed.

Lemma mt76_sw_scan_round_trip_witness :
  dev_after (then_ (mt76_sw_scan 2) (mt76_sw_scan_complete 2) (dev0 8))
  = dev0 8.
Proof.
  pose proof (mt76_sw_scan_round_trip 2 1 (dev0 8) 7
                ltac:(lia) ltac:(lia) ltac:(lia)) as H.
  cbv zeta in H. destruct H as (_ & _ & _ & _ & H).
  apply H. reflexivity.
Defined.

(** X10.  A beacon or BSS change that arrives during a software scan does
    not let the pre-TBTT tasklet run: after [mt76_sw_scan] the tasklet is
    disabled before and after every call [mt76_bss_info_changed] makes, and
    the disable count is 1 again when it returns (its own
    [tasklet_disable]/[tasklet_enable] pair nests). *)
Theorem beacon_change_during_scan_keeps_tasklet_paused (scanning : Z)
    (mvif : mt76_vif) (info : ieee80211_bss_conf) (changed : Z)
    (d : mt76_dev) :
  let t := calls (then_ (mt76_sw_scan scanning)
                    (mt76_bss_info_changed mvif info changed) d) in
  exists t', t = tasklet_disable :: t' /\
             stays_paused 1 t' = true /\
             disable_count 1 t' = 1%nat.
Proof.
  cbv zeta.
  exists (calls (mt76_bss_info_changed mvif info changed
                   (set_state d (set_bit scanning (state d))))).
  split.
  - cbv [then_ mt76_sw_scan bind emit get put calls fst snd app].
    destruct (mt76_bss_info_changed mvif info changed _) as [[u d2] t2].
    reflexivity.
  - rewrite mt76_bss_info_changed_calls.
    destruct (Z.testbit changed 7), (Z.testbit changed 6),
      (Z.testbit changed 9), (Z.testbit changed 3); split; reflexivity.
Qed.

(** ** Sequences of key operations *)

(** The records [mt76_set_key] leaves, whatever the lower layers answer;
    the device is not written. *)
Lemma mt76_set_key_records (hw : hw_results) (cmd : set_key_cmd)
    (mvif : mt76_vif) (msta : option mt76_sta) (key : ieee80211_key_conf)
    (d : mt76_dev) :
  let r := mt76_set_key hw cmd mvif msta key d in
  let w := key_slot mvif msta in
  key_slot (sk_vif (result r)) (sk_sta (result r)) =
    match cmd with
    | SET_KEY => set_hw_key_idx w (keyidx key)
    | DISABLE_KEY =>
        if keyidx key =? hw_key_idx w then set_hw_key_idx w (-1) else w
    end /\
  keyidx (sk_key (result r)) = keyidx key /\
  (match msta with Some _ => sk_vif (result r) = mvif | None => True end) /\
  (sk_sta (result r) = None <-> msta = None) /\
  dev_after r = d.
Proof.
  destruct cmd, msta as [s|]; run_set_key.
  - repeat split; intros; congruence.
  - split_ifs; key_simpl; repeat split; intros; congruence.
  - destruct (keyidx key =? hw_key_idx (wcid s)); key_simpl;
      repeat split; intros; try congruence;
      try (destruct s as [[i k]]; reflexivity).
  - destruct (keyidx key =? hw_key_idx (group_wcid mvif)); key_simpl;
      split_ifs; key_simpl; repeat split; intros; try congruence;
      try (destruct mvif as [vi [i k]]; reflexivity).
Qed.

(** X11.  Sequences of key operations on one slot (a station's or an
    interface's group slot), whatever the hardware answers each time:
    install followed by removal of the same key leaves the slot without
    key ([hw_key_idx = -1]); after install of key [a] and install of key
    [b], a late removal of [a] is ignored and the slot keeps [b]; a second
    removal of the same key changes nothing. *)
Theorem mt76_set_key_sequences (hw1 hw2 hw3 : hw_results) (mvif : mt76_vif)
    (msta : option mt76_sta) (a b : ieee80211_key_conf) (d : mt76_dev) :
  let slot r := key_slot (sk_vif (result r)) (sk_sta (result r)) in
  let r1 := mt76_set_key hw1 SET_KEY mvif msta a d in
  let r2 := mt76_set_key hw2 DISABLE_KEY (sk_vif (result r1))
              (sk_sta (result r1)) (sk_key (result r1)) d in
  let r2' := mt76_set_key hw2 SET_KEY (sk_vif (result r1))
               (sk_sta (result r1)) b d in
  let r3' := mt76_set_key hw3 DISABLE_KEY (sk_vif (result r2'))
               (sk_sta (result r2')) (sk_key (result r1)) d in
  let r3 := mt76_set_key hw3 DISABLE_KEY (sk_vif (result r2))
              (sk_sta (result r2)) (sk_key (result r1)) d in
  hw_key_idx (slot r2) = -1 /\
  (keyidx a <> keyidx b -> hw_key_idx (slot r3') = keyidx b) /\
  slot r3 = slot r2 /\
  wcid_idx (slot r2) = wcid_idx (key_slot mvif msta).
Proof.
  cbv zeta.
  set (r1 := mt76_set_key hw1 SET_KEY mvif msta a d).
  destruct (mt76_set_key_records hw1 SET_KEY mvif msta a d)
    as (H1 & K1 & _). fold r1 in H1, K1.
  set (r2 := mt76_set_key hw2 DISABLE_KEY _ _ _ d).
  destruct (mt76_set_key_records hw2 DISABLE_KEY (sk_vif (result r1))
              (sk_sta (result r1)) (sk_key (result r1)) d) as (H2 & _).
  fold r2 in H2.
  set (r2' := mt76_set_key hw2 SET_KEY _ _ b d).
  destruct (mt76_set_key_records hw2 SET_KEY (sk_vif (result r1))
              (sk_sta (result r1)) b d) as (H2' & _).
  fold r2' in H2'.
  destruct (mt76_set_key_records hw3 DISABLE_KEY (sk_vif (result r2'))
              (sk_sta (result r2')) (sk_key (result r1)) d) as (H3' & _).
  destruct (mt76_set_key_records hw3 DISABLE_KEY (sk_vif (result r2))
              (sk_sta (result r2)) (sk_key (result r1)) d) as (H3 & _).
  rewrite H1 in H2, H2'. rewrite K1 in *.
  unfold set_hw_key_idx in *. cbn [hw_key_idx wcid_idx] in *.
  rewrite Z.eqb_refl in H2.
  split; [|split; [|split]].
  - rewrite H2. reflexivity.
  - intros Hne. rewrite H3', H2'. cbn [hw_key_idx wcid_idx].
    replace (keyidx a =? keyidx b) with false
      by (symmetry; apply Z.eqb_neq; assumption).
    reflexivity.
  - rewrite H3, H2. cbn [hw_key_idx wcid_idx].
    destruct (keyidx a =? -1); reflexivity.
  - rewrite H2. reflexivity.
Qed.

Lemma mt76_set_key_sequences_witness :
  hw_key_idx
    (key_slot
       (sk_vif (result
          (mt76_set_key hw_ok DISABLE_KEY
             (sk_vif (result (mt76_set_key hw_ok SET_KEY
                (sk_vif (result (mt76_set_key hw_ok SET_KEY
                   (vif_with_key 0 (-1)) None (key_conf 1) (dev0 8))))
                (sk_sta (result (mt76_set_key hw_ok SET_KEY
                   (vif_with_key 0 (-1)) None (key_conf 1) (dev0 8))))
                (key_conf 2) (dev0 8))))
             (sk_sta (result (mt76_set_key hw_ok SET_KEY
                (sk_vif (result (mt76_set_key hw_ok SET_KEY
                   (vif_with_key 0 (-1)) None (key_conf 1) (dev0 8))))
                (sk_sta (result (mt76_set_key hw_ok SET_KEY
                   (vif_with_key 0 (-1)) None (key_conf 1) (dev0 8))))
                (key_conf 2) (dev0 8))))
             (sk_key (result (mt76_set_key hw_ok SET_KEY
                (vif_with_key 0 (-1)) None (key_conf 1) (dev0 8))))
             (dev0 8))))
       None)
  = 2.
Proof.
  pose proof (mt76_set_key_sequences hw_ok hw_ok hw_ok (vif_with_key 0 (-1))
                None (key_conf 1) (key_conf 2) (dev0 8)) as H.
  cbv zeta in H. destruct H as (_ & H & _).
  apply H. cbn. discriminate.
Defined.

Section KeyCalls.

Variable hw : hw_results.

(** X12.  A key operation that names a station works on the station's slot
    only: it makes exactly one call, the per-WCID key operation on the
    station's index (with the key on install, with [NULL] on removal), it
    returns what that call answers, it never calls the shared-key setup and
    it leaves the interface record, with its group slot, as it was. *)
Theorem mt76_set_key_station_only (cmd : set_key_cmd) (mvif : mt76_vif)
    (s : mt76_sta) (key : ieee80211_key_conf) (d : mt76_dev) :
  let r := mt76_set_key hw cmd mvif (Some s) key d in
  let keyp := match cmd with
              | SET_KEY => Some (sk_key (result r))
              | DISABLE_KEY => None
              end in
  calls r = [mt76_mac_wcid_set_key (wcid_idx (wcid s)) keyp] /\
  sk_ret (result r) = wcid_set_key_ret hw (wcid_idx (wcid s)) keyp /\
  existsb is_shared_key_setup (calls r) = false /\
  sk_vif (result r) = mvif.
Proof.
  destruct cmd; run_set_key.
  - repeat split.
  - destruct (keyidx key =? hw_key_idx (wcid s)); key_simpl; repeat split.
Qed.

(** X13.  A removal of a group key with a key index other than -1 never
    calls the per-WCID key operation, whether or not the index is the one
    the group slot holds: the slot's [hw_key_idx] is compared with the key
    index after it has been reset.  The only call is the shared-key setup
    with [NULL], and its answer is returned. *)
Theorem mt76_set_key_group_removal_calls (mvif : mt76_vif)
    (key : ieee80211_key_conf) (d : mt76_dev) :
  keyidx key <> -1 ->
  let r := mt76_set_key hw DISABLE_KEY mvif None key d in
  calls r = [mt76_mac_shared_key_setup (vif_idx mvif) (keyidx key) None] /\
  existsb is_wcid_set_key (calls r) = false /\
  sk_ret (result r)
  = shared_key_setup_ret hw (vif_idx mvif) (keyidx key) None.
Proof.
  intros Hk. run_set_key.
  destruct (Z.eqb_spec (keyidx key) (hw_key_idx (group_wcid mvif)))
    as [Heq|Hne]; key_simpl.
  - destruct (Z.eqb_spec (-1) (keyidx key)) as [E|E]; [congruence|].
    key_simpl. repeat split.
  - destruct (Z.eqb_spec (hw_key_idx (group_wcid mvif)) (keyidx key))
      as [E|E]; [congruence|].
    key_simpl. repeat split.
Qed.

End KeyCalls.

Lemma mt76_set_key_group_removal_calls_witness :
  calls (mt76_set_key hw_ok DISABLE_KEY (vif_with_key 0 1) None (key_conf 1)
           (dev0 8))
  = [mt76_mac_shared_key_setup 0 1 None].
Proof.
  apply (mt76_set_key_group_removal_calls hw_ok (vif_with_key 0 1)
           (key_conf 1) (dev0 8)).
  cbn. discriminate.
Defined.

(** ** Interface indices *)

(** The address offset of two addresses under the same device address
    differs exactly in the bits 2 .. 4 in which the addresses differ. *)
Lemma addr_offset_xor (m a b : Z) :
  Z.lxor (Z.land (Z.shiftr (Z.lxor m a) 2) 7)
         (Z.land (Z.shiftr (Z.lxor m b) 2) 7)
  = Z.land (Z.shiftr (Z.lxor a b) 2) 7.
Proof.
  apply Z.bits_inj'. intros j Hj.
  rewrite Z.lxor_spec, !Z.land_spec, !Z.shiftr_spec, !Z.lxor_spec by assumption.
  destruct (Z.testbit m (j + 2)), (Z.testbit a (j + 2)),
    (Z.testbit b (j + 2)), (Z.testbit 7 j); reflexivity.
Qed.

(** X14.  Two interfaces of the same role on one device, both with the
    locally administered bit set in their address, get the same interface
    index (and so the same group slot) exactly when the first bytes of
    their addresses agree in the bits 2 .. 4; all other address bits and
    bytes are ignored. *)
Theorem mt76_add_interface_same_idx_iff (d : mt76_dev)
    (t : nl80211_iftype) (a b : list Z) :
  let ia := vif_idx (snd (result (mt76_add_interface
                                    {| addr := a; type := t |} d))) in
  let ib := vif_idx (snd (result (mt76_add_interface
                                    {| addr := b; type := t |} d))) in
  Z.testbit (nth 0 a 0) 1 = true ->
  Z.testbit (nth 0 b 0) 1 = true ->
  (ia = ib <-> Z.land (Z.shiftr (Z.lxor (nth 0 a 0) (nth 0 b 0)) 2) 7 = 0).
Proof.
  cbv zeta. rewrite !mt76_add_interface_result.
  cbn [result fst snd vif_idx addr type]. intros Ha Hb.
  unfold derived_vif_idx. rewrite Ha, Hb.
  rewrite <- addr_offset_xor with (m := nth 0 (macaddr d) 0).
  rewrite Z.lxor_eq_0_iff.
  change 7 with (Z.ones 3).
  rewrite !Z.land_ones, !Z.shiftr_div_pow2 by lia.
  change (2 ^ 2) with 4. change (2 ^ 3) with 8.
  split; intros H; lia.
Qed.

(** The addresses 02:... and 22:... differ in bit 5 only. *)
Lemma mt76_add_interface_same_idx_iff_witness :
  vif_idx (snd (result (mt76_add_interface
     {| addr := [2; 12; 67; 38; 96; 0]; type := NL80211_IFTYPE_AP |}
     (dev0 8))))
  = vif_idx (snd (result (mt76_add_interface
     {| addr := [34; 12; 67; 38; 96; 0]; type := NL80211_IFTYPE_AP |}
     (dev0 8)))).
Proof.
  apply (mt76_add_interface_same_idx_iff (dev0 8) NL80211_IFTYPE_AP
           [2; 12; 67; 38; 96; 0] [34; 12; 67; 38; 96; 0]);
    reflexivity.
Defined.

(** X15.  The interface index by role: a station interface gets an index in
    [8, 16], every other type an index in [0, 8]; an address without the
    locally administered bit gets 8 or 0.  The bounds are reached: the
    offset 7 gives index 8 to an access point and 16 to a station, so the
    two ranges meet at 8 and the station range goes beyond 15. *)
Theorem mt76_add_interface_idx_by_role (d : mt76_dev) (vif : ieee80211_vif) :
  let i := vif_idx (snd (result (mt76_add_interface vif d))) in
  (type vif = NL80211_IFTYPE_STATION -> 8 <= i <= 16) /\
  (type vif <> NL80211_IFTYPE_STATION -> 0 <= i <= 8) /\
  (Z.testbit (nth 0 (addr vif) 0) 1 = false -> i = 0 \/ i = 8) /\
  (Z.testbit (nth 0 (addr vif) 0) 1 = true ->
   Z.land (Z.shiftr (Z.lxor (nth 0 (macaddr d) 0) (nth 0 (addr vif) 0)) 2) 7
     = 7 ->
   (type vif = NL80211_IFTYPE_STATION -> i = 16) /\
   (type vif <> NL80211_IFTYPE_STATION -> i = 8)).
Proof.
  cbv zeta. rewrite mt76_add_interface_result.
  cbn [result fst snd vif_idx]. unfold derived_vif_idx.
  change 7 with (Z.ones 3) at 1.
  rewrite Z.land_ones, Z.shiftr_div_pow2 by lia.
  change (2 ^ 2) with 4. change (2 ^ 3) with 8.
  pose proof (Z.mod_pos_bound
                (Z.lxor (nth 0 (macaddr d) 0) (nth 0 (addr vif) 0) / 4) 8
                ltac:(lia)) as Hm.
  destruct (Z.testbit (nth 0 (addr vif) 0) 1);
    destruct (type vif); cbn [is_station];
    repeat split; intros; try discriminate; try congruence; try lia.
Qed.

Lemma mt76_add_interface_idx_by_role_witness :
  vif_idx (snd (result (mt76_add_interface
     {| addr := [30; 12; 67; 38; 96; 0]; type := NL80211_IFTYPE_STATION |}
     (dev0 8)))) = 16 /\
  vif_idx (snd (result (mt76_add_interface
     {| addr := [30; 12; 67; 38; 96; 0]; type := NL80211_IFTYPE_AP |}
     (dev0 8)))) = 8.
Proof.
  split.
  - apply (mt76_add_interface_idx_by_role (dev0 8)
             {| addr := [30; 12; 67; 38; 96; 0];
                type := NL80211_IFTYPE_STATION |});
      reflexivity.
  - apply (mt76_add_interface_idx_by_role (dev0 8)
             {| addr := [30; 12; 67; 38; 96; 0];
                type := NL80211_IFTYPE_AP |});
      [reflexivity | reflexivity | discriminate].
Defined.

(** ** Configuration ([mt76_config]) *)

(** X16.  [mt76_config] works between [mutex_lock] and [mutex_unlock].
    A channel change stops the queues, calls [mt76_set_channel] and wakes
    the queues again, also when [mt76_set_channel] fails, and returns its
    answer; without a channel change 0 is returned and none of the three
    calls is made.  The transmit power is handed to the PHY exactly when the
    power changed and the device is RUNNING; the configured power is stored
    in both cases.  The flag word and the receive filter are not written. *)
Theorem mt76_config_calls (running set_channel_ret power_level changed : Z)
    (dev : More.mt76_dev) :
  let r := More.mt76_config running set_channel_ret power_level changed dev in
  let power := Z.testbit changed 5 in
  let channel := Z.testbit changed 6 in
  snd r =
    [More.core mutex_lock]
    ++ (if power && test_bit running (More.state dev)
        then [More.mt76_phy_set_txpower] else [])
    ++ (if channel
        then [More.ieee80211_stop_queues; More.mt76_set_channel;
              More.ieee80211_wake_queues]
        else [])
    ++ [More.core mutex_unlock] /\
  fst (fst r) = (if channel then set_channel_ret else 0) /\
  More.txpower_conf (snd (fst r))
    = (if power then power_level else More.txpower_conf dev) /\
  More.state (snd (fst r)) = More.state dev /\
  More.rxfilter (snd (fst r)) = More.rxfilter dev /\
  More.txpower_cur (snd (fst r)) = More.txpower_cur dev.
Proof.
  cbv zeta. unfold More.mt76_config, More.IEEE80211_CONF_CHANGE_POWER,
    More.IEEE80211_CONF_CHANGE_CHANNEL.
  rewrite !land_BIT_testbit by lia. rewrite !negb_involutive.
  destruct (Z.testbit changed 5), (Z.testbit changed 6);
    cbn [More.state More.txpower_conf More.rxfilter More.txpower_cur andb];
    destruct (test_bit running (More.state dev));
    cbn [fst snd app More.state More.txpower_conf More.rxfilter
         More.txpower_cur];
    repeat split.
Qed.

(** ** Receive filter ([mt76_configure_filter]) *)

Lemma BIT_testbit (n j : Z) :
  0 <= n -> 0 <= j -> Z.testbit (BIT n) j = (j =? n).
Proof.
  intros Hn Hj. unfold BIT. rewrite Z.shiftl_spec by assumption.
  destruct (Z.eqb_spec j n) as [->|Hne].
  - replace (n - n) with 0 by lia. reflexivity.
  - destruct (Z.ltb_spec (j - n) 0).
    + apply Z.testbit_neg_r. assumption.
    + apply (Z.bits_above_log2 1 (j - n)); cbn; lia.
Qed.

Lemma u32_testbit (x j : Z) :
  0 <= j -> Z.testbit (More.u32 x) j = Z.testbit x j && (j <? 32).
Proof.
  intros Hj. unfold More.u32.
  rewrite Z.land_spec, Z.testbit_ones_nonneg by lia. reflexivity.
Qed.

(** One [MT76_FILTER]: the flag is collected, and the bits of the mask
    are set in the filter word exactly when the collected flags do not
    have the flag. *)
Lemma MT76_FILTER_spec (tf fif hw flags rx : Z) :
  fst (More.MT76_FILTER tf fif hw (flags, rx)) = Z.lor flags (Z.land tf fif)
  /\
  forall j, 0 <= j ->
    Z.testbit (snd (More.MT76_FILTER tf fif hw (flags, rx))) j =
    (j <? 32) &&
    (if Z.testbit hw j
     then Z.land (Z.lor flags (Z.land tf fif)) fif =? 0
     else Z.testbit rx j).
Proof.
  unfold More.MT76_FILTER. cbn [fst snd]. split; [reflexivity|].
  intros j Hj.
  rewrite u32_testbit, Z.lor_spec, u32_testbit, Z.land_spec, Z.lnot_spec
    by assumption.
  destruct (Z.land (Z.lor flags (Z.land tf fif)) fif =? 0).
  - rewrite Z.mul_1_l.
    destruct (Z.testbit hw j), (Z.testbit rx j), (j <? 32); reflexivity.
  - rewrite Z.mul_0_l, Z.testbit_0_l.
    destruct (Z.testbit hw j), (Z.testbit rx j), (j <? 32); reflexivity.
Qed.

(** The flags collected after the five macros, bit by bit. *)
Lemma collected_flags_testbit (tf j : Z) :
  0 <= j ->
  Z.testbit
    (Z.lor (Z.lor (Z.lor (Z.lor (Z.lor 0 (Z.land tf More.FIF_PROMISC_IN_BSS))
                                (Z.land tf More.FIF_FCSFAIL))
                         (Z.land tf More.FIF_PLCPFAIL))
                  (Z.land tf More.FIF_CONTROL))
           (Z.land tf More.FIF_PSPOLL)) j
  = Z.testbit tf j &&
    ((j =? 0) || (j =? 2) || (j =? 3) || (j =? 5) || (j =? 7)).
Proof.
  intros Hj.
  unfold More.FIF_PROMISC_IN_BSS, More.FIF_FCSFAIL, More.FIF_PLCPFAIL,
    More.FIF_CONTROL, More.FIF_PSPOLL.
  rewrite !Z.lor_spec, !Z.land_spec, !BIT_testbit, Z.testbit_0_l by lia.
  destruct (Z.testbit tf j), (j =? 0), (j =? 2), (j =? 3), (j =? 5),
    (j =? 7); reflexivity.
Qed.

(** The flags [mt76_configure_filter] reports back. *)
Lemma mt76_configure_filter_reported (m : More.rx_filtr_cfg)
    (total_flags : Z) (dev : More.mt76_dev) :
  fst (fst (More.mt76_configure_filter m total_flags dev)) =
    Z.land total_flags
      (Z.lor More.FIF_PROMISC_IN_BSS
         (Z.lor More.FIF_FCSFAIL
            (Z.lor More.FIF_PLCPFAIL
               (Z.lor More.FIF_CONTROL More.FIF_PSPOLL)))).
Proof.
  unfold More.mt76_configure_filter.
  repeat match goal with
  | |- context [More.MT76_FILTER ?a ?b ?c (?f, ?x)] =>
      let H := fresh "S" in
      pose proof (proj1 (MT76_FILTER_spec a b c f x)) as H;
      destruct (More.MT76_FILTER a b c (f, x)) as [? ?];
      cbn [fst] in H; subst
  end.
  cbn [fst snd].
  apply Z.bits_inj'. intros j Hj.
  rewrite collected_flags_testbit by assumption.
  unfold More.FIF_PROMISC_IN_BSS, More.FIF_FCSFAIL, More.FIF_PLCPFAIL,
    More.FIF_CONTROL, More.FIF_PSPOLL.
  rewrite Z.land_spec, !Z.lor_spec, !BIT_testbit by lia.
  destruct (Z.testbit total_flags j), (j =? 0), (j =? 2), (j =? 3),
    (j =? 5), (j =? 7); reflexivity.
Qed.

(** X17.  [mt76_configure_filter] reports back, in [*total_flags], the
    requested flags restricted to the five it supports
    ([PROMISC_IN_BSS], [FCSFAIL], [PLCPFAIL], [CONTROL], [PSPOLL]); every
    other requested flag is cleared.  It writes the new filter word to
    [MT_RX_FILTR_CFG] under the mutex and leaves the other device fields as
    they were. *)
Theorem mt76_configure_filter_flags (m : More.rx_filtr_cfg)
    (total_flags : Z) (dev : More.mt76_dev) :
  let r := More.mt76_configure_filter m total_flags dev in
  fst (fst r) =
    Z.land total_flags
      (Z.lor More.FIF_PROMISC_IN_BSS
         (Z.lor More.FIF_FCSFAIL
            (Z.lor More.FIF_PLCPFAIL
               (Z.lor More.FIF_CONTROL More.FIF_PSPOLL)))) /\
  snd r = [More.core mutex_lock;
           More.mt76_wr More.MT_RX_FILTR_CFG (More.rxfilter (snd (fst r)));
           More.core mutex_unlock] /\
  More.state (snd (fst r)) = More.state dev /\
  More.txpower_conf (snd (fst r)) = More.txpower_conf dev /\
  More.txpower_cur (snd (fst r)) = More.txpower_cur dev.
Proof.
  cbv zeta. split; [apply mt76_configure_filter_reported|].
  unfold More.mt76_configure_filter.
  repeat match goal with
  | |- context [More.MT76_FILTER ?a ?b ?c (?f, ?x)] =>
      destruct (More.MT76_FILTER a b c (f, x)) as [? ?]
  end.
  cbn [fst snd More.state More.txpower_conf More.txpower_cur More.rxfilter].
  repeat split.
Qed.

(** The test of one [MT76_FILTER] on the collected flags. *)
Lemma filter_flag_test (flags tf k : Z) :
  0 <= k ->
  (Z.land (Z.lor flags (Z.land tf (BIT k))) (BIT k) =? 0)
  = negb (Z.testbit flags k || Z.testbit tf k).
Proof.
  intros Hk. rewrite land_BIT_testbit by assumption.
  rewrite Z.lor_spec, Z.land_spec, BIT_testbit by assumption.
  rewrite Z.eqb_refl, andb_true_r. reflexivity.
Qed.

(** The filter word after the five macros, bit by bit: the last macro whose
    mask has the bit decides. *)
Lemma mt76_configure_filter_bits (m : More.rx_filtr_cfg) (tf : Z)
    (dev : More.mt76_dev) (j : Z) :
  0 <= j ->
  Z.testbit
    (More.rxfilter (snd (fst (More.mt76_configure_filter m tf dev)))) j =
  (j <? 32) &&
  (if Z.testbit (More.MT_RX_FILTR_CFG_PSPOLL m) j
   then negb (Z.testbit tf 7)
   else if Z.testbit (More.control_mask m) j
   then negb (Z.testbit tf 5)
   else if Z.testbit (More.MT_RX_FILTR_CFG_PHY_ERR m) j
   then negb (Z.testbit tf 3)
   else if Z.testbit (More.MT_RX_FILTR_CFG_CRC_ERR m) j
   then negb (Z.testbit tf 2)
   else if Z.testbit (More.MT_RX_FILTR_CFG_PROMISC m) j
   then negb (Z.testbit tf 0)
   else Z.testbit (More.rxfilter dev) j
        && negb (Z.testbit (More.MT_RX_FILTR_CFG_OTHER_BSS m) j)).
Proof.
  intros Hj. unfold More.mt76_configure_filter.
  set (rx0 := More.u32 (Z.land (More.rxfilter dev)
                          (Z.lnot (More.MT_RX_FILTR_CFG_OTHER_BSS m)))).
  destruct (MT76_FILTER_spec tf More.FIF_PROMISC_IN_BSS
              (More.MT_RX_FILTR_CFG_PROMISC m) 0 rx0) as (F1 & B1).
  destruct (More.MT76_FILTER tf More.FIF_PROMISC_IN_BSS _ (0, rx0))
    as [f1 x1]. cbn [fst snd] in F1, B1.
  destruct (MT76_FILTER_spec tf More.FIF_FCSFAIL
              (More.MT_RX_FILTR_CFG_CRC_ERR m) f1 x1) as (F2 & B2).
  destruct (More.MT76_FILTER tf More.FIF_FCSFAIL _ (f1, x1)) as [f2 x2].
  cbn [fst snd] in F2, B2.
  destruct (MT76_FILTER_spec tf More.FIF_PLCPFAIL
              (More.MT_RX_FILTR_CFG_PHY_ERR m) f2 x2) as (F3 & B3).
  destruct (More.MT76_FILTER tf More.FIF_PLCPFAIL _ (f2, x2)) as [f3 x3].
  cbn [fst snd] in F3, B3.
  destruct (MT76_FILTER_spec tf More.FIF_CONTROL (More.control_mask m) f3 x3)
    as (F4 & B4).
  destruct (More.MT76_FILTER tf More.FIF_CONTROL _ (f3, x3)) as [f4 x4].
  cbn [fst snd] in F4, B4.
  destruct (MT76_FILTER_spec tf More.FIF_PSPOLL
              (More.MT_RX_FILTR_CFG_PSPOLL m) f4 x4) as (F5 & B5).
  destruct (More.MT76_FILTER tf More.FIF_PSPOLL _ (f4, x4)) as [f5 x5].
  cbn [fst snd] in F5, B5.
  cbn [fst snd More.rxfilter].
  rewrite B5, B4, B3, B2, B1 by assumption.
  unfold rx0. rewrite u32_testbit, Z.land_spec, Z.lnot_spec by assumption.
  unfold More.FIF_PROMISC_IN_BSS, More.FIF_FCSFAIL, More.FIF_PLCPFAIL,
    More.FIF_CONTROL, More.FIF_PSPOLL in *.
  rewrite !filter_flag_test by lia.
  assert (T1 : Z.testbit f1 2 = false /\ Z.testbit f2 3 = false /\
               Z.testbit f3 5 = false /\ Z.testbit f4 7 = false).
  { subst f4 f3 f2 f1.
    rewrite !Z.lor_spec, !Z.land_spec, !BIT_testbit, !Z.testbit_0_l by lia.
    cbn [Z.eqb Pos.eqb]. rewrite !andb_false_r. repeat split. }
  destruct T1 as (T1 & T2 & T3 & T4).
  rewrite T1, T2, T3, T4, Z.testbit_0_l. cbn [orb].
  generalize (negb (Z.testbit tf 7)), (negb (Z.testbit tf 5)),
    (negb (Z.testbit tf 3)), (negb (Z.testbit tf 2)),
    (negb (Z.testbit tf 0)).
  intros c5 c4 c3 c2 c1.
  destruct (j <? 32), (Z.testbit (More.MT_RX_FILTR_CFG_PSPOLL m) j),
    (Z.testbit (More.control_mask m) j),
    (Z.testbit (More.MT_RX_FILTR_CFG_PHY_ERR m) j),
    (Z.testbit (More.MT_RX_FILTR_CFG_CRC_ERR m) j),
    (Z.testbit (More.MT_RX_FILTR_CFG_PROMISC m) j),
    (Z.testbit (More.rxfilter dev) j),
    (Z.testbit (More.MT_RX_FILTR_CFG_OTHER_BSS m) j);
    reflexivity.
Qed.

(** Disjoint masks share no bit. *)
Lemma disjoint_bits (a b j : Z) :
  Z.land a b = 0 -> Z.testbit a j = true -> Z.testbit b j = false.
Proof.
  intros H Ha.
  assert (Hb : Z.testbit (Z.land a b) j = false)
    by (rewrite H; apply Z.testbit_0_l).
  rewrite Z.land_spec, Ha in Hb. exact Hb.
Qed.

(** X18.  When the six hardware masks are pairwise disjoint, each supported
    flag switches its own mask in the filter word: after
    [mt76_configure_filter] a bit of a mask is set exactly when the flag is
    not requested.  The bits of [OTHER_BSS] are always cleared, and a bit
    that belongs to none of the masks keeps its value.  (Bits 0 .. 31; the
    word is a [u32].) *)
Theorem mt76_configure_filter_rxfilter (m : More.rx_filtr_cfg)
    (total_flags : Z) (dev : More.mt76_dev) (j : Z) :
  ForallOrdPairs (fun a b => Z.land a b = 0)
    [More.MT_RX_FILTR_CFG_OTHER_BSS m; More.MT_RX_FILTR_CFG_PROMISC m;
     More.MT_RX_FILTR_CFG_CRC_ERR m; More.MT_RX_FILTR_CFG_PHY_ERR m;
     More.control_mask m; More.MT_RX_FILTR_CFG_PSPOLL m] ->
  0 <= j < 32 ->
  let rx' := More.rxfilter
               (snd (fst (More.mt76_configure_filter m total_flags dev))) in
  (Z.testbit (More.MT_RX_FILTR_CFG_OTHER_BSS m) j = true ->
   Z.testbit rx' j = false) /\
  (Z.testbit (More.MT_RX_FILTR_CFG_PROMISC m) j = true ->
   Z.testbit rx' j = negb (Z.testbit total_flags 0)) /\
  (Z.testbit (More.MT_RX_FILTR_CFG_CRC_ERR m) j = true ->
   Z.testbit rx' j = negb (Z.testbit total_flags 2)) /\
  (Z.testbit (More.MT_RX_FILTR_CFG_PHY_ERR m) j = true ->
   Z.testbit rx' j = negb (Z.testbit total_flags 3)) /\
  (Z.testbit (More.control_mask m) j = true ->
   Z.testbit rx' j = negb (Z.testbit total_flags 5)) /\
  (Z.testbit (More.MT_RX_FILTR_CFG_PSPOLL m) j = true ->
   Z.testbit rx' j = negb (Z.testbit total_flags 7)) /\
  (Z.testbit (More.MT_RX_FILTR_CFG_OTHER_BSS m) j = false ->
   Z.testbit (More.MT_RX_FILTR_CFG_PROMISC m) j = false ->
   Z.testbit (More.MT_RX_FILTR_CFG_CRC_ERR m) j = false ->
   Z.testbit (More.MT_RX_FILTR_CFG_PHY_ERR m) j = false ->
   Z.testbit (More.control_mask m) j = false ->
   Z.testbit (More.MT_RX_FILTR_CFG_PSPOLL m) j = false ->
   Z.testbit rx' j = Z.testbit (More.rxfilter dev) j).
Proof.
  intros Hdis Hj rx'. subst rx'.
  rewrite mt76_configure_filter_bits by lia.
  replace (j <? 32) with true by (symmetry; apply Z.ltb_lt; lia).
  cbn [andb].
  repeat match goal with
  | H : ForallOrdPairs _ (_ :: _) |- _ => inversion H; subst; clear H
  | H : ForallOrdPairs _ [] |- _ => clear H
  | H : Forall _ (_ :: _) |- _ => inversion H; subst; clear H
  | H : Forall _ [] |- _ => clear H
  end.
  repeat match goal with
  | H : Z.land ?a ?b = 0 |- _ =>
      pose proof (disjoint_bits a b j H);
      pose proof (disjoint_bits b a j
                    ltac:(rewrite Z.land_comm; exact H));
      clear H
  end.
  destruct (Z.testbit (More.MT_RX_FILTR_CFG_OTHER_BSS m) j) eqn:EO,
    (Z.testbit (More.MT_RX_FILTR_CFG_PROMISC m) j) eqn:E1,
    (Z.testbit (More.MT_RX_FILTR_CFG_CRC_ERR m) j) eqn:E2,
    (Z.testbit (More.MT_RX_FILTR_CFG_PHY_ERR m) j) eqn:E3,
    (Z.testbit (More.control_mask m) j) eqn:E4,
    (Z.testbit (More.MT_RX_FILTR_CFG_PSPOLL m) j) eqn:E5;
    repeat split; intros; try discriminate; try reflexivity;
    try (exfalso;
         repeat match goal with
         | H : true = true -> _ |- _ => specialize (H eq_refl)
         end; congruence);
    try (cbn [negb]; apply andb_false_r);
    try (cbn [negb]; apply andb_true_r).
Qed.

(** The masks at bits 3, 2, 0, 1, 8 .. 11 with 14 and 16, and 13. *)
Lemma mt76_configure_filter_rxfilter_witness :
  let m := {| More.MT_RX_FILTR_CFG_OTHER_BSS := BIT 3;
              More.MT_RX_FILTR_CFG_PROMISC := BIT 2;
              More.MT_RX_FILTR_CFG_CRC_ERR := BIT 0;
              More.MT_RX_FILTR_CFG_PHY_ERR := BIT 1;
              More.MT_RX_FILTR_CFG_ACK := BIT 10;
              More.MT_RX_FILTR_CFG_CTS := BIT 11;
              More.MT_RX_FILTR_CFG_CFEND := BIT 9;
              More.MT_RX_FILTR_CFG_CFACK := BIT 8;
              More.MT_RX_FILTR_CFG_BA := BIT 14;
              More.MT_RX_FILTR_CFG_CTRL_RSV := BIT 16;
              More.MT_RX_FILTR_CFG_PSPOLL := BIT 13 |} in
  let dev := {| More.state := 0; More.txpower_conf := 0;
                More.txpower_cur := 0; More.rxfilter := 0 |} in
  Z.testbit
    (More.rxfilter (snd (fst (More.mt76_configure_filter m
                                More.FIF_CONTROL dev)))) 13
  = negb (Z.testbit More.FIF_CONTROL 7).
Proof.
  cbv zeta.
  apply (mt76_configure_filter_rxfilter
           {| More.MT_RX_FILTR_CFG_OTHER_BSS := BIT 3;
              More.MT_RX_FILTR_CFG_PROMISC := BIT 2;
              More.MT_RX_FILTR_CFG_CRC_ERR := BIT 0;
              More.MT_RX_FILTR_CFG_PHY_ERR := BIT 1;
              More.MT_RX_FILTR_CFG_ACK := BIT 10;
              More.MT_RX_FILTR_CFG_CTS := BIT 11;
              More.MT_RX_FILTR_CFG_CFEND := BIT 9;
              More.MT_RX_FILTR_CFG_CFACK := BIT 8;
              More.MT_RX_FILTR_CFG_BA := BIT 14;
              More.MT_RX_FILTR_CFG_CTRL_RSV := BIT 16;
              More.MT_RX_FILTR_CFG_PSPOLL := BIT 13 |}
           More.FIF_CONTROL
           {| More.state := 0; More.txpower_conf := 0;
              More.txpower_cur := 0; More.rxfilter := 0 |} 13).
  - repeat constructor.
  - lia.
  - reflexivity.
Defined.

(** X19.  The flags [mt76_configure_filter] reports are a fixed point:
    called again with the reported flags on the device it left, it reports
    the same flags and computes the same filter word, so the same value is
    written to [MT_RX_FILTR_CFG]. *)
Theorem mt76_configure_filter_fixed_point (m : More.rx_filtr_cfg)
    (total_flags : Z) (dev : More.mt76_dev) :
  let r1 := More.mt76_configure_filter m total_flags dev in
  let r2 := More.mt76_configure_filter m (fst (fst r1)) (snd (fst r1)) in
  fst (fst r2) = fst (fst r1) /\
  More.rxfilter (snd (fst r2)) = More.rxfilter (snd (fst r1)).
Proof.
  cbv zeta. split.
  - rewrite !mt76_configure_filter_reported.
    rewrite <- Z.land_assoc, Z.land_diag. reflexivity.
  - apply Z.bits_inj'. intros j Hj.
    rewrite (mt76_configure_filter_bits m (fst (fst _))) by assumption.
    rewrite mt76_configure_filter_reported.
    rewrite !mt76_configure_filter_bits by assumption.
    rewrite !Z.land_spec.
    change (Z.testbit (Z.lor More.FIF_PROMISC_IN_BSS _) 7) with true.
    change (Z.testbit (Z.lor More.FIF_PROMISC_IN_BSS _) 5) with true.
    change (Z.testbit (Z.lor More.FIF_PROMISC_IN_BSS _) 3) with true.
    change (Z.testbit (Z.lor More.FIF_PROMISC_IN_BSS _) 2) with true.
    change (Z.testbit (Z.lor More.FIF_PROMISC_IN_BSS _) 0) with true.
    rewrite !andb_true_r.
    destruct (j <? 32), (Z.testbit (More.MT_RX_FILTR_CFG_PSPOLL m) j),
      (Z.testbit (More.control_mask m) j),
      (Z.testbit (More.MT_RX_FILTR_CFG_PHY_ERR m) j),
      (Z.testbit (More.MT_RX_FILTR_CFG_CRC_ERR m) j),
      (Z.testbit (More.MT_RX_FILTR_CFG_PROMISC m) j),
      (Z.testbit (More.rxfilter dev) j),
      (Z.testbit (More.MT_RX_FILTR_CFG_OTHER_BSS m) j);
      reflexivity.
Qed.

(** ** Aggregation sessions ([mt76_ampdu_action]) *)

Lemma update_word_length (n : nat) (f : Z -> Z) (l : list Z) :
  length (update_word n f l) = length l.
Proof.
  revert n. induction l as [|w l IH]; intros [|n]; cbn; auto.
Qed.

Lemma nth_update_word_same (n : nat) (f : Z -> Z) (l : list Z) :
  (n < length l)%nat -> nth n (update_word n f l) 0 = f (nth n l 0).
Proof.
  revert n. induction l as [|w l IH]; intros [|n] H; cbn in *;
    try lia; auto.
  apply IH. lia.
Qed.

Lemma nth_update_word_other (n k : nat) (f : Z -> Z) (l : list Z) :
  n <> k -> nth k (update_word n f l) 0 = nth k l 0.
Proof.
  revert n k. induction l as [|w l IH]; intros [|n] [|k] H; cbn;
    try reflexivity; try congruence.
  apply IH. congruence.
Qed.

(** One event that does not start a session on [tid] keeps the stash of
    [tid]; every event keeps the slot and the number of stashes. *)
Lemma mt76_ampdu_action_keeps (a : More.ieee80211_ampdu_mlme_action)
    (msta : More.mt76_sta) (t s tid : Z) :
  0 <= t -> 0 <= tid ->
  (a = More.IEEE80211_AMPDU_TX_START -> t <> tid) ->
  let r := More.mt76_ampdu_action a msta t s in
  fst (fst r) = 0 /\
  More.sta (snd (fst r)) = More.sta msta /\
  length (More.agg_ssn (snd (fst r))) = length (More.agg_ssn msta) /\
  nth (Z.to_nat tid) (More.agg_ssn (snd (fst r))) 0
  = nth (Z.to_nat tid) (More.agg_ssn msta) 0.
Proof.
  intros Ht Htid Hne. destruct a; cbn; repeat split.
  - apply update_word_length.
  - apply nth_update_word_other. specialize (Hne eq_refl). lia.
Qed.

Lemma ampdu_run_app (msta : More.mt76_sta)
    (l1 l2 : list (More.ieee80211_ampdu_mlme_action * Z * Z)) :
  More.ampdu_run msta (l1 ++ l2) =
  (fst (More.ampdu_run (fst (More.ampdu_run msta l1)) l2),
   snd (More.ampdu_run msta l1)
   ++ snd (More.ampdu_run (fst (More.ampdu_run msta l1)) l2)).
Proof.
  revert msta. induction l1 as [|[[a t] s] l1 IH]; intros msta.
  - cbn. destruct (More.ampdu_run msta l2); reflexivity.
  - cbn [app More.ampdu_run].
    destruct (More.mt76_ampdu_action a msta t s) as [[r m1] t1].
    rewrite IH.
    destruct (More.ampdu_run m1 l1) as [m2 t2]. cbn [fst snd].
    destruct (More.ampdu_run m2 l2) as [m3 t3]. cbn [fst snd].
    rewrite app_assoc. reflexivity.
Qed.

Lemma ampdu_run_keeps (tid : Z)
    (evs : list (More.ieee80211_ampdu_mlme_action * Z * Z)) :
  0 <= tid ->
  Forall (fun ev =>
            0 <= snd (fst ev) /\
            (fst (fst ev) = More.IEEE80211_AMPDU_TX_START ->
             snd (fst ev) <> tid)) evs ->
  forall msta,
  More.sta (fst (More.ampdu_run msta evs)) = More.sta msta /\
  nth (Z.to_nat tid) (More.agg_ssn (fst (More.ampdu_run msta evs))) 0
  = nth (Z.to_nat tid) (More.agg_ssn msta) 0.
Proof.
  intros Htid. induction 1 as [|[[a t] s] evs (Ht & Hne) _ IH]; intros msta.
  - split; reflexivity.
  - cbn [More.ampdu_run]. cbn [fst snd] in Ht, Hne.
    pose proof (mt76_ampdu_action_keeps a msta t s tid Ht Htid Hne) as K.
    cbv zeta in K.
    destruct (More.mt76_ampdu_action a msta t s) as [[r m1] t1].
    cbn [fst snd] in K. destruct K as (_ & Ks & _ & Kn).
    destruct (IH m1) as (IHs & IHn).
    destruct (More.ampdu_run m1 evs) as [m2 t2]. cbn [fst snd] in *.
    split; congruence.
Qed.

(** X20.  The block-ack request of a transmit session carries the sequence
    number its start stashed.  After [TX_START] on [tid] with the 12-bit
    sequence number [ssn], whatever events follow for this station, as long
    as none of them starts a session on the same [tid] again, [TX_OPERATIONAL]
    on [tid] sends the BAR with [ssn << 4]: the stashes are kept per
    traffic identifier and no other event writes them.  The station's WCID
    slot is not changed by any of the events. *)
Theorem ampdu_bar_carries_stashed_ssn (msta : More.mt76_sta) (tid ssn : Z)
    (evs : list (More.ieee80211_ampdu_mlme_action * Z * Z)) :
  0 <= tid ->
  (Z.to_nat tid < length (More.agg_ssn msta))%nat ->
  0 <= ssn < 4096 ->
  Forall (fun ev =>
            0 <= snd (fst ev) /\
            (fst (fst ev) = More.IEEE80211_AMPDU_TX_START ->
             snd (fst ev) <> tid)) evs ->
  let r := More.ampdu_run msta
             ((More.IEEE80211_AMPDU_TX_START, tid, ssn) :: evs
              ++ [(More.IEEE80211_AMPDU_TX_OPERATIONAL, tid, 0)]) in
  (exists t0, snd r = t0 ++ [More.ieee80211_send_bar tid (16 * ssn)]) /\
  More.sta (fst r) = More.sta msta.
Proof.
  intros Htid Hlen Hssn Hevs r. subst r.
  cbn [More.ampdu_run More.mt76_ampdu_action].
  set (m1 := {| More.sta := More.sta msta;
                More.agg_ssn := update_word (Z.to_nat tid)
                                  (fun _ => Z.shiftl ssn 4)
                                  (More.agg_ssn msta) |}).
  rewrite ampdu_run_app.
  destruct (ampdu_run_keeps tid evs Htid Hevs m1) as (Ks & Kn).
  destruct (More.ampdu_run m1 evs) as [m2 t2]. cbn [fst snd] in *.
  cbn [More.ampdu_run More.mt76_ampdu_action fst snd app].
  rewrite Kn. unfold m1 at 1. cbn [More.agg_ssn].
  rewrite nth_update_word_same by assumption.
  assert (Hv : More.u16 (Z.shiftl ssn 4) = 16 * ssn).
  { unfold More.u16. rewrite Z.shiftl_mul_pow2, Z.land_ones by lia.
    change (2 ^ 4) with 16. change (2 ^ 16) with 65536.
    rewrite Z.mod_small by lia. lia. }
  rewrite Hv. split.
  - exists (More.ieee80211_start_tx_ba_cb_irqsafe tid :: t2).
    reflexivity.
  - rewrite Ks. reflexivity.
Qed.

(** A session on tid 3 starts at sequence number 100; a receive session on
    tid 3 and a transmit session on tid 4 come in between. *)
Lemma ampdu_bar_carries_stashed_ssn_witness :
  exists t0,
    snd (More.ampdu_run sta_agg_example
           [(More.IEEE80211_AMPDU_TX_START, 3, 100);
            (More.IEEE80211_AMPDU_RX_START, 3, 0);
            (More.IEEE80211_AMPDU_TX_START, 4, 7);
            (More.IEEE80211_AMPDU_TX_OPERATIONAL, 3, 0)])
    = t0 ++ [More.ieee80211_send_bar 3 (16 * 100)].
Proof.
  exact (proj1 (ampdu_bar_carries_stashed_ssn sta_agg_example 3 100
                  [(More.IEEE80211_AMPDU_RX_START, 3, 0);
                   (More.IEEE80211_AMPDU_TX_START, 4, 7)]
                  ltac:(lia) ltac:(cbn; lia) ltac:(lia)
                  ltac:(repeat constructor; cbn; try lia; discriminate))).
Defined.

(** ** Queue parameters ([mt76_conf_tx]) *)

Lemma fls_bounds (x : Z) :
  0 < x -> 1 <= More.fls x /\ 2 ^ (More.fls x - 1) <= x < 2 ^ More.fls x.
Proof.
  intros Hx. unfold More.fls.
  destruct (Z.eqb_spec x 0) as [->|_]; [lia|].
  pose proof (Z.log2_nonneg x) as Hn.
  pose proof (Z.log2_spec x Hx) as Hs.
  replace (Z.log2 x + 1 - 1) with (Z.log2 x) by lia.
  replace (Z.log2 x + 1) with (Z.succ (Z.log2 x)) by lia.
  split; [lia | assumption].
Qed.

(** The exponent lies between two powers of two: it is determined. *)
Lemma pow2_bracket_unique (x a b : Z) :
  0 <= a -> 0 <= b ->
  2 ^ a <= x < 2 ^ (a + 1) -> 2 ^ b <= x < 2 ^ (b + 1) -> a = b.
Proof.
  intros Ha Hb Hxa Hxb.
  destruct (Z.lt_trichotomy a b) as [H|[H|H]]; [|assumption|].
  - assert (2 ^ (a + 1) <= 2 ^ b) by (apply Z.pow_le_mono_r; lia). lia.
  - assert (2 ^ (b + 1) <= 2 ^ a) by (apply Z.pow_le_mono_r; lia). lia.
Qed.

(** X21.  The contention window exponents [mt76_conf_tx] programs.  A
    window of 0 selects the defaults, 5 for the minimum and 10 for the
    maximum.  For a window [cw > 0] the exponent [e] is the bit length of
    [cw]: [2^(e-1) <= cw < 2^e], so the usual windows [2^n - 1] are
    programmed as [n], and a [u16] window gives at most 16.  These exponents
    are what is written to the CWMIN and CWMAX registers, and the callback
    returns 0. *)
Theorem mt76_conf_tx_cw_exponents (k : More.wmm_macros) (rr : More.mmio -> Z)
    (queue : Z) (params : More.ieee80211_tx_queue_params) :
  0 <= More.cw_min params < 2 ^ 16 ->
  0 <= More.cw_max params < 2 ^ 16 ->
  let e_min := More.conf_tx_cw_min params in
  let e_max := More.conf_tx_cw_max params in
  let r := More.mt76_conf_tx k rr queue params in
  fst r = 0 /\
  In (More.mt76_wr More.MT_WMM_CWMIN
        (More.rmw_field_value (rr More.MT_WMM_CWMIN)
           (More.MT_WMM_CWMIN_MASK k) (More.MT_WMM_CWMIN_SHIFT k queue)
           e_min)) (snd r) /\
  In (More.mt76_wr More.MT_WMM_CWMAX
        (More.rmw_field_value (rr More.MT_WMM_CWMAX)
           (More.MT_WMM_CWMAX_MASK k) (More.MT_WMM_CWMAX_SHIFT k queue)
           e_max)) (snd r) /\
  (More.cw_min params = 0 -> e_min = 5) /\
  (More.cw_max params = 0 -> e_max = 10) /\
  (0 < More.cw_min params ->
   1 <= e_min <= 16 /\
   2 ^ (e_min - 1) <= More.cw_min params < 2 ^ e_min) /\
  (0 < More.cw_max params ->
   1 <= e_max <= 16 /\
   2 ^ (e_max - 1) <= More.cw_max params < 2 ^ e_max) /\
  (forall n, 1 <= n -> More.cw_min params = 2 ^ n - 1 -> e_min = n) /\
  (forall n, 1 <= n -> More.cw_max params = 2 ^ n - 1 -> e_max = n).
Proof.
  intros Hmin Hmax e_min e_max r. subst e_min e_max r.
  assert (Hexp : forall x, 0 < x < 2 ^ 16 ->
            1 <= More.fls x <= 16 /\
            2 ^ (More.fls x - 1) <= x < 2 ^ More.fls x).
  { intros x Hx. destruct (fls_bounds x ltac:(lia)) as (H1 & H2).
    split; [|assumption]. split; [assumption|].
    destruct (Z.le_gt_cases (More.fls x) 16) as [H|H]; [assumption|].
    assert (2 ^ 16 <= 2 ^ (More.fls x - 1))
      by (apply Z.pow_le_mono_r; lia).
    lia. }
  assert (Hpow : forall x n, 0 < x -> 1 <= n -> x = 2 ^ n - 1 ->
            More.fls x = n).
  { intros x n Hx Hn ->. destruct (fls_bounds _ Hx) as (H1 & H2).
    assert (Hb : 2 ^ (n - 1) <= 2 ^ n - 1 < 2 ^ (n - 1 + 1)).
    { replace (n - 1 + 1) with n by lia.
      assert (2 ^ n = 2 * 2 ^ (n - 1)).
      { rewrite <- Z.pow_succ_r by lia. f_equal. lia. }
      assert (0 < 2 ^ (n - 1)) by (apply Z.pow_pos_nonneg; lia).
      lia. }
    assert (More.fls (2 ^ n - 1) - 1 = n - 1).
    { apply (pow2_bracket_unique (2 ^ n - 1)); try lia.
      replace (More.fls (2 ^ n - 1) - 1 + 1) with (More.fls (2 ^ n - 1))
        by lia.
      assumption. }
    lia. }
  unfold More.conf_tx_cw_min, More.conf_tx_cw_max.
  split; [reflexivity|].
  split; [cbn [More.mt76_conf_tx snd]; unfold More.conf_tx_cw_min;
          do 6 right; left; reflexivity|].
  split; [cbn [More.mt76_conf_tx snd]; unfold More.conf_tx_cw_max;
          do 8 right; left; reflexivity|].
  destruct (Z.eqb_spec (More.cw_min params) 0) as [E1|E1];
    destruct (Z.eqb_spec (More.cw_max params) 0) as [E2|E2]; cbn [negb];
    repeat split; intros; try reflexivity; try lia;
    try (apply Hexp; lia);
    try (apply Hpow; lia).
  all: try (assert (0 < 2 ^ n) by (apply Z.pow_pos_nonneg; lia);
            assert (2 ^ 1 <= 2 ^ n) by (apply Z.pow_le_mono_r; lia);
            change (2 ^ 1) with 2 in *; lia).
Qed.

Lemma mt76_conf_tx_cw_exponents_witness :
  More.conf_tx_cw_min params_example = 4 /\
  More.conf_tx_cw_max params_example = 10.
Proof.
  pose proof (mt76_conf_tx_cw_exponents wmm_example (fun _ => 0) 0
                params_example ltac:(cbn; lia) ltac:(cbn; lia)) as H.
  cbv zeta in H. destruct H as (_ & _ & _ & _ & _ & _ & _ & Hmin & Hmax).
  split; [apply Hmin | apply Hmax]; cbn; lia.
Defined.

(** One read-modify-write, bit by bit: the field is cleared, then the
    shifted value is or-ed in without a mask. *)
Lemma rmw_field_value_testbit (read mask s v j : Z) :
  0 <= s -> 0 <= j ->
  Z.testbit (More.rmw_field_value read mask s v) j =
  (j <? 32) &&
  ((Z.testbit read j && negb (Z.testbit (Z.shiftl mask s) j))
   || Z.testbit (Z.shiftl v s) j).
Proof.
  intros Hs Hj. unfold More.rmw_field_value.
  rewrite u32_testbit, Z.lor_spec, u32_testbit, Z.land_spec, Z.lnot_spec
    by assumption.
  destruct (j <? 32), (Z.testbit read j), (Z.testbit (Z.shiftl mask s) j),
    (Z.testbit (Z.shiftl v s) j); reflexivity.
Qed.

(** A value without bits outside the mask stays inside the shifted mask. *)
Lemma shifted_value_in_field (mask s v j : Z) :
  0 <= s -> 0 <= j ->
  Z.land v (Z.lnot mask) = 0 ->
  Z.testbit (Z.shiftl mask s) j = false ->
  Z.testbit (Z.shiftl v s) j = false.
Proof.
  intros Hs Hj Hfit Hout.
  rewrite Z.shiftl_spec in * by assumption.
  destruct (Z.ltb_spec (j - s) 0) as [Hneg|Hpos].
  - apply Z.testbit_neg_r. assumption.
  - assert (Hb : Z.testbit (Z.land v (Z.lnot mask)) (j - s) = false)
      by (rewrite Hfit; apply Z.testbit_0_l).
    rewrite Z.land_spec, Z.lnot_spec, Hout in Hb by assumption.
    rewrite andb_true_r in Hb. exact Hb.
Qed.

(** X22.  The four WMM registers [mt76_conf_tx] updates (TXOP, AIFSN, CWMIN,
    CWMAX).  Each is read, the queue's field is cleared and the value is
    or-ed in at the queue's shift, and the result is written back.  The
    value is not masked: outside the queue's field a bit of the written word
    is the bit read or-ed with the shifted value.  So when the value has no
    bit outside the field mask, the field holds the value and the fields of
    the other queues are written back as they were read; otherwise its
    excess bits are set in the neighbouring fields.  The callback does not
    take the device mutex. *)
Theorem mt76_conf_tx_wmm_fields (k : More.wmm_macros) (rr : More.mmio -> Z)
    (queue : Z) (params : More.ieee80211_tx_queue_params) :
  0 <= More.MT_WMM_TXOP_SHIFT k queue ->
  0 <= More.MT_WMM_AIFSN_SHIFT k queue ->
  0 <= More.MT_WMM_CWMIN_SHIFT k queue ->
  0 <= More.MT_WMM_CWMAX_SHIFT k queue ->
  let t := snd (More.mt76_conf_tx k rr queue params) in
  let updated reg mask s v :=
    exists w,
      In (More.mt76_wr reg w) t /\
      forall j, 0 <= j < 32 ->
        (Z.testbit (Z.shiftl mask s) j = false ->
         Z.testbit w j = Z.testbit (rr reg) j || Z.testbit (Z.shiftl v s) j)
        /\
        (Z.land v (Z.lnot mask) = 0 ->
         Z.testbit w j =
         if Z.testbit (Z.shiftl mask s) j
         then Z.testbit (Z.shiftl v s) j
         else Z.testbit (rr reg) j) in
  updated (More.MT_WMM_TXOP queue) (More.MT_WMM_TXOP_MASK k)
          (More.MT_WMM_TXOP_SHIFT k queue) (More.txop params) /\
  updated More.MT_WMM_AIFSN (More.MT_WMM_AIFSN_MASK k)
          (More.MT_WMM_AIFSN_SHIFT k queue) (More.aifs params) /\
  updated More.MT_WMM_CWMIN (More.MT_WMM_CWMIN_MASK k)
          (More.MT_WMM_CWMIN_SHIFT k queue) (More.conf_tx_cw_min params) /\
  updated More.MT_WMM_CWMAX (More.MT_WMM_CWMAX_MASK k)
          (More.MT_WMM_CWMAX_SHIFT k queue) (More.conf_tx_cw_max params) /\
  ~ In (More.core mutex_lock) t.
Proof.
  intros H1 H2 H3 H4 t updated.
  assert (Hrmw : forall read mask s v j, 0 <= s -> 0 <= j < 32 ->
            (Z.testbit (Z.shiftl mask s) j = false ->
             Z.testbit (More.rmw_field_value read mask s v) j
             = Z.testbit read j || Z.testbit (Z.shiftl v s) j) /\
            (Z.land v (Z.lnot mask) = 0 ->
             Z.testbit (More.rmw_field_value read mask s v) j =
             if Z.testbit (Z.shiftl mask s) j
             then Z.testbit (Z.shiftl v s) j
             else Z.testbit read j)).
  { intros read mask s v j Hs Hj.
    rewrite rmw_field_value_testbit by lia.
    replace (j <? 32) with true by (symmetry; apply Z.ltb_lt; lia).
    cbn [andb]. split.
    - intros Hout. rewrite Hout. cbn [negb]. rewrite andb_true_r.
      reflexivity.
    - intros Hfit.
      destruct (Z.testbit (Z.shiftl mask s) j) eqn:Hf; cbn [negb].
      + rewrite andb_false_r. reflexivity.
      + rewrite (shifted_value_in_field mask s v j) by (assumption || lia).
        rewrite andb_true_r, orb_false_r. reflexivity. }
  subst updated t. cbn [More.mt76_conf_tx snd].
  split; [|split; [|split; [|split]]].
  - eexists. split; [do 2 right; left; reflexivity|].
    intros j Hj. apply Hrmw; assumption.
  - eexists. split; [do 4 right; left; reflexivity|].
    intros j Hj. apply Hrmw; assumption.
  - eexists. split; [do 6 right; left; reflexivity|].
    intros j Hj. apply Hrmw; assumption.
  - eexists. split; [do 8 right; left; reflexivity|].
    intros j Hj. apply Hrmw; assumption.
  - cbn [In]. intros H.
    repeat (destruct H as [H|H]; [discriminate H|]). exact H.
Qed.

(** Queue 1 of the example layout, all registers reading [0xffffffff]. *)
Lemma mt76_conf_tx_wmm_fields_witness :
  exists w,
    In (More.mt76_wr More.MT_WMM_AIFSN w)
       (snd (More.mt76_conf_tx wmm_example (fun _ => Z.ones 32) 1
               params_example)) /\
    forall j, 0 <= j < 32 ->
      (Z.testbit (Z.shiftl (Z.ones 4) 4) j = false ->
       Z.testbit w j = Z.testbit (Z.ones 32) j || Z.testbit (Z.shiftl 3 4) j)
      /\
      (Z.land 3 (Z.lnot (Z.ones 4)) = 0 ->
       Z.testbit w j =
       if Z.testbit (Z.shiftl (Z.ones 4) 4) j
       then Z.testbit (Z.shiftl 3 4) j
       else Z.testbit (Z.ones 32) j).
Proof.
  pose proof (mt76_conf_tx_wmm_fields wmm_example (fun _ => Z.ones 32) 1
                params_example ltac:(cbn; lia) ltac:(cbn; lia)
                ltac:(cbn; lia) ltac:(cbn; lia)) as H.
  cbv zeta in H. destruct H as (_ & H & _). exact H.
Defined.

(** ** Lowest index first, on 32-bit longs *)

(** X23.  With 32-bit longs and a bitmap that covers the indices 0 .. 247,
    [mt76_wcid_alloc] is lowest-index-first: when index [k <= 247] is free
    and every lower index is taken, it returns [k]; and it returns -1
    exactly when every index 0 .. 247 is taken. *)
Theorem mt76_wcid_alloc_32bit_lowest_first (mask : list Z) :
  248 <= 32 * Z.of_nat (length mask) ->
  let r := fst (mt76_wcid_alloc 32 mask) in
  (forall k, 0 <= k <= 247 ->
     wcid_mask_bit 32 mask k = false ->
     (forall j, 0 <= j < k -> wcid_mask_bit 32 mask j = true) ->
     r = k) /\
  (r = -1 <-> forall k, 0 <= k <= 247 -> wcid_mask_bit 32 mask k = true).
Proof.
  intros Hsize r. subst r.
  assert (Hmod : forall j, j mod 32 < 32)
    by (intros j; apply Z.mod_pos_bound; lia).
  destruct (mt76_wcid_alloc 32 mask) as [r mask'] eqn:Ha. cbn [fst].
  destruct (mt76_wcid_alloc_spec 32 ltac:(lia) _ _ _ Hsize Ha)
    as (_ & [(Hr & _ & Hfull) | (Hr & Hclear & _ & Hbelow)]).
  - split.
    + intros k Hk Hfree _. rewrite Hfull in Hfree by auto. discriminate.
    + split; [intros _ k Hk; apply Hfull; auto | intros _; assumption].
  - split.
    + intros k Hk Hfree Hlow.
      destruct (Z.lt_trichotomy r k) as [Hlt|[Heq|Hgt]].
      * rewrite Hlow in Hclear by lia. discriminate.
      * assumption.
      * rewrite Hbelow in Hfree by (auto; lia). discriminate.
    + split; [lia|].
      intros Hall. rewrite Hall in Hclear by assumption. discriminate.
Qed.

Lemma mt76_wcid_alloc_32bit_lowest_first_witness :
  fst (mt76_wcid_alloc 32 (mask32_first 248)) = -1.
Proof.
  pose proof (mt76_wcid_alloc_32bit_lowest_first (mask32_first 248)
                ltac:(vm_compute; discriminate)) as H.
  cbv zeta in H. destruct H as (_ & H).
  apply H. exact mask32_first_248_full.
Defined.
